(** * HTTPClientSession: a shallow embedding of Net/src/HTTPClientSession.cpp

    The session object is a record, its member functions are computations in
    a state-and-exception monad over the session and the outside world
    (network, clock).  A C++ exception leaves the session as it was when the
    exception was thrown, so the monad returns the state in both outcomes.

    Collaborators whose code lives in other files of the library (the
    transport of HTTPSession, the message classes, the stream classes, the
    regular-expression engine, the credential encoder) are modelled from
    their description in the specification; each such definition says so. *)

From Stdlib Require Import ZArith String Ascii List Bool Lia DecimalString.
From Stdlib Require HexadecimalString.
Import ListNotations.

Local Open Scope string_scope.
Local Open Scope Z_scope.

(** ** Strings *)

(** [std::string::empty]. *)
Definition empty (s : string) : bool :=
  match s with
  | EmptyString => true
  | String _ _ => false
  end.

(** [std::string::length], as a [Z]. *)
Definition strlen (s : string) : Z := Z.of_nat (String.length s).

(** The first [n] characters of [s] (all of it when [n] is larger). *)
Fixpoint take (n : nat) (s : string) : string :=
  match n, s with
  | O, _ => EmptyString
  | S _, EmptyString => EmptyString
  | S n', String c s' => String c (take n' s')
  end.

(** [s] without its first [n] characters (empty when [n] is larger). *)
Fixpoint skip (n : nat) (s : string) : string :=
  match n, s with
  | O, _ => s
  | S _, EmptyString => EmptyString
  | S n', String _ s' => skip n' s'
  end.

(** [text.replace(pos, len, str)] of [std::string]: the characters from
    position [pos], [len] of them or as many as there are, give way to
    [str]; a position beyond the end of [text] is an error
    ([std::out_of_range]). *)
Definition string_replace (pos len : nat) (str text : string) : option string :=
  if Nat.ltb (String.length text) pos then None
  else Some (take pos text ++ str ++ skip (pos + len) text).

(** [NumberFormatter::append(str, value)] for an unsigned value: the decimal
    digits of [value] are appended to [str]. *)
Definition NumberFormatter_append (str : string) (value : Z) : string :=
  str ++ NilEmpty.string_of_uint (N.to_uint (Z.to_N value)).

Definition to_lower (c : ascii) : ascii :=
  let n := nat_of_ascii c in
  if (Nat.leb 65 n && Nat.leb n 90)%bool then ascii_of_nat (n + 32) else c.

Fixpoint lower (s : string) : string :=
  match s with
  | EmptyString => EmptyString
  | String c s' => String (to_lower c) (lower s')
  end.

(** [Poco::icompare(a, b) == 0]. *)
Definition iequal (a b : string) : bool := String.eqb (lower a) (lower b).

(** ** Exceptions *)

(** Modelled from the spec: the exception classes are declared in
    Poco/Exception.h and Poco/Net/NetException.h, which are not part of the
    sources.  The kinds are those of the error-handling design (state error,
    network error, proxy error, protocol error), with the two failures of
    contract checks and a timeout, which is a runtime error but not an I/O
    error. *)
Inductive ExceptionClass : Type :=
  | IllegalStateException        (* state error *)
  | AssertionViolationException  (* poco_assert failed *)
  | NullPointerException         (* null SharedPtr dereferenced *)
  | TimeoutException             (* runtime error, not an I/O error *)
  | IOException                  (* transport-level I/O failure *)
  | NetException                 (* network error, an I/O error *)
  | MessageException             (* protocol error, a network error *)
  | HTTPException.               (* proxy error, a network error *)

Record Exception : Type := mkException {
  e_class : ExceptionClass;
  e_message : string;
  e_arg : string
}.

(** Modelled from the spec: whether [catch (IOException&)] catches an
    exception of this class.  Network, protocol and proxy errors are I/O
    errors. *)
Definition is_IOException (c : ExceptionClass) : bool :=
  match c with
  | IOException | NetException | MessageException | HTTPException => true
  | IllegalStateException | AssertionViolationException
  | NullPointerException | TimeoutException => false
  end.

(** ** The formatter of the log lines *)

(** [CustomPatternFormatter::format], lines 49 to 61.  [formatted] is what
    [PatternFormatter::format] of the base class appends to [text] for the
    message, and [localTime] is the local time as
    [DateTimeFormatter::append] writes it with the pattern of line 55. *)
Definition CustomPatternFormatter_format (formatted localTime : string)
    (text : string) : option string :=
  let text := text ++ formatted in
  string_replace 0 (String.length localTime) localTime text.

(** ** Messages

    HTTPRequest and HTTPResponse are value objects of other files.  The
    session uses their capabilities only: header get/set/has, method,
    target, content-length presence and value, the chunked-encoding flag,
    the keep-alive flag, status and reason. *)

(** Modelled from the spec: the headers of a message, a list of name and
    value in the order of the message, names compared without regard to
    case. *)
Module NameValueCollection.

Definition t : Type := list (string * string).

Fixpoint has (name : string) (h : t) : bool :=
  match h with
  | [] => false
  | (n, _) :: h' => if iequal n name then true else has name h'
  end.

Fixpoint get (name : string) (h : t) : option string :=
  match h with
  | [] => None
  | (n, v) :: h' => if iequal n name then Some v else get name h'
  end.

(** [set]: the value of the first entry of that name is replaced; a name
    that is not present is added at the end. *)
Fixpoint set (name value : string) (h : t) : t :=
  match h with
  | [] => [(name, value)]
  | (n, v) :: h' =>
      if iequal n name then (n, value) :: h' else (n, v) :: set name value h'
  end.

End NameValueCollection.

(** Modelled from the spec: the request capability. *)
Module HTTPRequest.

Definition HTTP_HEAD := "HEAD".
Definition HTTP_PUT := "PUT".
Definition HTTP_POST := "POST".
Definition HTTP_PATCH := "PATCH".
Definition HTTP_CONNECT := "CONNECT".
Definition HOST := "Host".
Definition UPGRADE := "Upgrade".
Definition PROXY_AUTHORIZATION := "Proxy-Authorization".

Record t : Type := mk {
  method : string;
  uri : string;
  headers : NameValueCollection.t;
  keepAlive : bool;
  chunkedTransferEncoding : bool;
  contentLength : option Z
}.

(** [HTTPRequest(method, uri, HTTP_1_1)]: no headers, persistent by
    default in HTTP/1.1. *)
Definition new (m u : string) : t := mk m u [] true false None.

Definition getURI (r : t) : string := uri r.
Definition getMethod (r : t) : string := method r.
Definition has (name : string) (r : t) : bool :=
  NameValueCollection.has name (headers r).
Definition get (name : string) (r : t) : option string :=
  NameValueCollection.get name (headers r).
Definition getChunkedTransferEncoding (r : t) : bool :=
  chunkedTransferEncoding r.
Definition hasContentLength (r : t) : bool :=
  match contentLength r with Some _ => true | None => false end.
Definition getContentLength64 (r : t) : Z :=
  match contentLength r with Some n => n | None => -1 end.

Definition setURI (u : string) (r : t) : t :=
  mk (method r) u (headers r) (keepAlive r)
     (chunkedTransferEncoding r) (contentLength r).
Definition set (name value : string) (r : t) : t :=
  mk (method r) (uri r) (NameValueCollection.set name value (headers r))
     (keepAlive r) (chunkedTransferEncoding r) (contentLength r).
Definition setKeepAlive (b : bool) (r : t) : t :=
  mk (method r) (uri r) (headers r) b
     (chunkedTransferEncoding r) (contentLength r).

End HTTPRequest.

(** Modelled from the spec: the response capability. *)
Module HTTPResponse.

(** Modelled from the spec: the status codes that the session compares
    with (continue, the 200 that a proxy must answer, no content, not
    modified), with their values in HTTP. *)
Definition HTTP_CONTINUE : Z := 100.
Definition HTTP_OK : Z := 200.
Definition HTTP_NO_CONTENT : Z := 204.
Definition HTTP_NOT_MODIFIED : Z := 304.

Record t : Type := mk {
  status : Z;
  reason : string;
  headers : NameValueCollection.t;
  keepAlive : bool;
  chunkedTransferEncoding : bool;
  contentLength : option Z
}.

(** A response object as constructed, and as left by [clear()]. *)
Definition new : t := mk HTTP_OK "OK" [] true false None.

Definition getStatus (r : t) : Z := status r.
Definition getReason (r : t) : string := reason r.
Definition getKeepAlive (r : t) : bool := keepAlive r.
Definition getChunkedTransferEncoding (r : t) : bool :=
  chunkedTransferEncoding r.
Definition hasContentLength (r : t) : bool :=
  match contentLength r with Some _ => true | None => false end.
Definition getContentLength64 (r : t) : Z :=
  match contentLength r with Some n => n | None => -1 end.

End HTTPResponse.

(** ** The outside world

    The transport capability ([connect], [write], [read], [close],
    [connected], [detach], [attach]) is HTTPSession's, whose code is not
    part of the sources.  What the network does is scripted: each connection
    attempt, each socket send and each read of a response head takes its
    outcome from the front of a list, so that one world determines one run.
    An exhausted script means success for connecting and sending, and end of
    stream for reading. *)

(** Modelled from the spec: an address is a host and a port. *)
Record SocketAddress : Type := mkSocketAddress {
  addr_host : string;
  addr_port : Z
}.

(** Modelled from the spec: a [StreamSocket] is the raw connection, known
    by the peer it is connected to, if any. *)
Definition StreamSocket : Type := option SocketAddress.

(** What the transport did, for the statements about the order of
    transport operations.  The most recent event comes first. *)
Inductive Event : Type :=
  | EvConnect (address : SocketAddress) (ok : bool)
  | EvClose
  | EvSend (peer : StreamSocket) (bytes : string) (ok : bool)
  | EvShutdownSend (peer : StreamSocket).

(** Reading a response head: the head that arrives, or a failure.  A
    failure of the transport is recorded on the session as its network
    exception, while the reader raises its own exception. *)
Inductive ReadOutcome : Type :=
  | ReadHead (response : HTTPResponse.t)
  | ReadFail (thrown : Exception) (recorded : option Exception).

Record World : Type := mkWorld {
  now : Z;                              (* Poco::Timestamp now, microseconds *)
  connects : list (option Exception);   (* outcomes of connection attempts *)
  sends : list (option Exception);      (* outcomes of socket sends *)
  heads : list ReadOutcome;             (* response heads sent by the peer *)
  trace : list Event
}.

Definition log_event (ev : Event) (w : World) : World :=
  mkWorld (now w) (connects w) (sends w) (heads w) (ev :: trace w).

Definition next_connect (w : World) : option Exception * World :=
  match connects w with
  | [] => (None, w)
  | o :: l => (o, mkWorld (now w) l (sends w) (heads w) (trace w))
  end.

Definition next_send (w : World) : option Exception * World :=
  match sends w with
  | [] => (None, w)
  | o :: l => (o, mkWorld (now w) (connects w) l (heads w) (trace w))
  end.

Definition with_heads (l : list ReadOutcome) (w : World) : World :=
  mkWorld (now w) (connects w) (sends w) l (trace w).

(** ** Streams *)

(** Modelled from the spec: the stream classes over a session
    (HTTPHeaderStream, HTTPStream, HTTPFixedLengthStream, HTTPChunkedStream)
    are other files.  These are the framings of an output stream. *)
Inductive OutputKind : Type :=
  | HTTPHeaderOutputStream
  | HTTPChunkedOutputStream
  | HTTPFixedLengthOutputStream (length : Z)
  | HTTPOutputStream.

(** Modelled from the spec: an output stream remembers the bytes inserted
    into it, counts the bytes that it has passed on to the session, and
    holds the bytes that it has not passed on yet; a fixed-length stream
    passes on at most [length] bytes. *)
Record OutputStream : Type := mkOutputStream {
  os_kind : OutputKind;
  os_inserted : string;   (* everything written into the stream *)
  os_count : Z;           (* bytes handed to the session *)
  os_pending : string     (* bytes in the buffer of the stream *)
}.

Definition new_ostream (k : OutputKind) : OutputStream :=
  mkOutputStream k "" 0 "".

(** Modelled from the spec: the framings of an input stream. *)
Inductive InputStream : Type :=
  | HTTPFixedLengthInputStream (length : Z)
  | HTTPChunkedInputStream
  | HTTPInputStream.

(** ** The session *)

(** Modelled from the spec: [HTTPClientSession::ProxyConfig], declared in
    the header. *)
Record ProxyConfig : Type := mkProxyConfig {
  pc_host : string;
  pc_port : Z;
  pc_username : string;
  pc_password : string;
  pc_nonProxyHosts : string
}.

(** Modelled from the spec: [HTTPSession::HTTP_PORT], the port of HTTP. *)
Definition HTTP_PORT : Z := 80.

(** [ProxyConfig()]: everything empty, the port is [HTTP_PORT]. *)
Definition ProxyConfig_new : ProxyConfig := mkProxyConfig "" HTTP_PORT "" "" "".

(** The members of HTTPClientSession, after those of its base class
    HTTPSession that the session uses (socket, keep-alive flag, timeout,
    recorded network exception). *)
Record HTTPClientSession : Type := mkSession {
  _socket : StreamSocket;
  _keepAlive : bool;
  _timeout : Z;
  _pException : option Exception;
  _host : string;
  _port : Z;
  _proxyConfig : ProxyConfig;
  _keepAliveTimeout : Z;
  _lastRequest : Z;
  _reconnect : bool;
  _mustReconnect : bool;
  _expectResponseBody : bool;
  _responseReceived : bool;
  _pRequestStream : option OutputStream;
  _pResponseStream : option InputStream
}.

Definition with_socket (v : StreamSocket) (s : HTTPClientSession) :=
  mkSession v (_keepAlive s) (_timeout s) (_pException s) (_host s) (_port s)
    (_proxyConfig s) (_keepAliveTimeout s) (_lastRequest s) (_reconnect s)
    (_mustReconnect s) (_expectResponseBody s) (_responseReceived s)
    (_pRequestStream s) (_pResponseStream s).
Definition with_keepAlive (v : bool) (s : HTTPClientSession) :=
  mkSession (_socket s) v (_timeout s) (_pException s) (_host s) (_port s)
    (_proxyConfig s) (_keepAliveTimeout s) (_lastRequest s) (_reconnect s)
    (_mustReconnect s) (_expectResponseBody s) (_responseReceived s)
    (_pRequestStream s) (_pResponseStream s).
Definition with_timeout (v : Z) (s : HTTPClientSession) :=
  mkSession (_socket s) (_keepAlive s) v (_pException s) (_host s) (_port s)
    (_proxyConfig s) (_keepAliveTimeout s) (_lastRequest s) (_reconnect s)
    (_mustReconnect s) (_expectResponseBody s) (_responseReceived s)
    (_pRequestStream s) (_pResponseStream s).
Definition with_pException (v : option Exception) (s : HTTPClientSession) :=
  mkSession (_socket s) (_keepAlive s) (_timeout s) v (_host s) (_port s)
    (_proxyConfig s) (_keepAliveTimeout s) (_lastRequest s) (_reconnect s)
    (_mustReconnect s) (_expectResponseBody s) (_responseReceived s)
    (_pRequestStream s) (_pResponseStream s).
Definition with_host (v : string) (s : HTTPClientSession) :=
  mkSession (_socket s) (_keepAlive s) (_timeout s) (_pException s) v (_port s)
    (_proxyConfig s) (_keepAliveTimeout s) (_lastRequest s) (_reconnect s)
    (_mustReconnect s) (_expectResponseBody s) (_responseReceived s)
    (_pRequestStream s) (_pResponseStream s).
Definition with_port (v : Z) (s : HTTPClientSession) :=
  mkSession (_socket s) (_keepAlive s) (_timeout s) (_pException s) (_host s) v
    (_proxyConfig s) (_keepAliveTimeout s) (_lastRequest s) (_reconnect s)
    (_mustReconnect s) (_expectResponseBody s) (_responseReceived s)
    (_pRequestStream s) (_pResponseStream s).
Definition with_proxyConfig (v : ProxyConfig) (s : HTTPClientSession) :=
  mkSession (_socket s) (_keepAlive s) (_timeout s) (_pException s) (_host s)
    (_port s) v (_keepAliveTimeout s) (_lastRequest s) (_reconnect s)
    (_mustReconnect s) (_expectResponseBody s) (_responseReceived s)
    (_pRequestStream s) (_pResponseStream s).
Definition with_keepAliveTimeout (v : Z) (s : HTTPClientSession) :=
  mkSession (_socket s) (_keepAlive s) (_timeout s) (_pException s) (_host s)
    (_port s) (_proxyConfig s) v (_lastRequest s) (_reconnect s)
    (_mustReconnect s) (_expectResponseBody s) (_responseReceived s)
    (_pRequestStream s) (_pResponseStream s).
Definition with_lastRequest (v : Z) (s : HTTPClientSession) :=
  mkSession (_socket s) (_keepAlive s) (_timeout s) (_pException s) (_host s)
    (_port s) (_proxyConfig s) (_keepAliveTimeout s) v (_reconnect s)
    (_mustReconnect s) (_expectResponseBody s) (_responseReceived s)
    (_pRequestStream s) (_pResponseStream s).
Definition with_reconnect (v : bool) (s : HTTPClientSession) :=
  mkSession (_socket s) (_keepAlive s) (_timeout s) (_pException s) (_host s)
    (_port s) (_proxyConfig s) (_keepAliveTimeout s) (_lastRequest s) v
    (_mustReconnect s) (_expectResponseBody s) (_responseReceived s)
    (_pRequestStream s) (_pResponseStream s).
Definition with_mustReconnect (v : bool) (s : HTTPClientSession) :=
  mkSession (_socket s) (_keepAlive s) (_timeout s) (_pException s) (_host s)
    (_port s) (_proxyConfig s) (_keepAliveTimeout s) (_lastRequest s)
    (_reconnect s) v (_expectResponseBody s) (_responseReceived s)
    (_pRequestStream s) (_pResponseStream s).
Definition with_expectResponseBody (v : bool) (s : HTTPClientSession) :=
  mkSession (_socket s) (_keepAlive s) (_timeout s) (_pException s) (_host s)
    (_port s) (_proxyConfig s) (_keepAliveTimeout s) (_lastRequest s)
    (_reconnect s) (_mustReconnect s) v (_responseReceived s)
    (_pRequestStream s) (_pResponseStream s).
Definition with_responseReceived (v : bool) (s : HTTPClientSession) :=
  mkSession (_socket s) (_keepAlive s) (_timeout s) (_pException s) (_host s)
    (_port s) (_proxyConfig s) (_keepAliveTimeout s) (_lastRequest s)
    (_reconnect s) (_mustReconnect s) (_expectResponseBody s) v
    (_pRequestStream s) (_pResponseStream s).
Definition with_pRequestStream (v : option OutputStream) (s : HTTPClientSession) :=
  mkSession (_socket s) (_keepAlive s) (_timeout s) (_pException s) (_host s)
    (_port s) (_proxyConfig s) (_keepAliveTimeout s) (_lastRequest s)
    (_reconnect s) (_mustReconnect s) (_expectResponseBody s)
    (_responseReceived s) v (_pResponseStream s).
Definition with_pResponseStream (v : option InputStream) (s : HTTPClientSession) :=
  mkSession (_socket s) (_keepAlive s) (_timeout s) (_pException s) (_host s)
    (_port s) (_proxyConfig s) (_keepAliveTimeout s) (_lastRequest s)
    (_reconnect s) (_mustReconnect s) (_expectResponseBody s)
    (_responseReceived s) (_pRequestStream s) v.

(** The static member [HTTPClientSession::_globalProxyConfig], line 64.
    What is static in the source is passed along: a constructor reads it,
    [setGlobalProxyConfig] replaces it. *)
Record Statics : Type := mkStatics {
  _globalProxyConfig : ProxyConfig
}.

(** The static member as the program starts: a [ProxyConfig()]. *)
Definition Statics_initial : Statics := mkStatics ProxyConfig_new.

(** ** The monad of member functions *)

Inductive Result (A : Type) : Type :=
  | Ok (a : A)
  | Throw (e : Exception).
Arguments Ok {A} a.
Arguments Throw {A} e.

Record Run (A : Type) : Type := mkRun {
  result : Result A;
  session : HTTPClientSession;
  world : World
}.
Arguments mkRun {A} _ _ _.
Arguments result {A} _.
Arguments session {A} _.
Arguments world {A} _.

Definition M (A : Type) : Type := HTTPClientSession -> World -> Run A.

Definition ret {A : Type} (a : A) : M A := fun s w => mkRun (Ok a) s w.

Definition throw {A : Type} (e : Exception) : M A :=
  fun s w => mkRun (Throw e) s w.

Definition bind {A B : Type} (m : M A) (k : A -> M B) : M B :=
  fun s w =>
    match m s w with
    | mkRun (Ok a) s' w' => k a s' w'
    | mkRun (Throw e) s' w' => mkRun (Throw e) s' w'
    end.

(** [try { m } catch (E&) { h }], where [handles] says which exceptions the
    catch clause takes. *)
Definition try_catch {A : Type} (m : M A) (handles : Exception -> bool)
    (h : Exception -> M A) : M A :=
  fun s w =>
    match m s w with
    | mkRun (Ok a) s' w' => mkRun (Ok a) s' w'
    | mkRun (Throw e) s' w' =>
        if handles e then h e s' w' else mkRun (Throw e) s' w'
    end.

Definition gets {A : Type} (f : HTTPClientSession -> A) : M A :=
  fun s w => mkRun (Ok (f s)) s w.

Definition modify (f : HTTPClientSession -> HTTPClientSession) : M unit :=
  fun s w => mkRun (Ok tt) (f s) w.

Definition when (b : bool) (m : M unit) : M unit := if b then m else ret tt.

Declare Scope session_scope.
Delimit Scope session_scope with session.
Notation "x <- m ;; k" := (bind m (fun x => k))
  (at level 61, m at next level, right associativity) : session_scope.
Notation "m ;; k" := (bind m (fun _ => k))
  (at level 61, right associativity) : session_scope.
Local Open Scope session_scope.

(** ** Collaborators given as an interface *)

(** What the session takes from other files without this development
    looking inside: the serialization of a request head, the values of the
    headers written by [HTTPRequest::setHost] and by HTTPBasicCredentials,
    the regular-expression engine with its option bits, the framing of a
    chunk, and the constants of the headers. *)
Class Collaborators : Type := {
  serialize : HTTPRequest.t -> string;
  host_value : string -> Z -> string;
  basic_value : string -> string -> string;
  RegularExpression_match : string -> string -> Z -> bool;
  RE_CASELESS : Z;
  RE_ANCHORED : Z;
  chunk_frame : string -> string;
  DEFAULT_KEEP_ALIVE_TIMEOUT : Z;
  HTTP_DEFAULT_TIMEOUT : Z
}.

(** A sum of [Poco::Int64], in two's complement. *)
Definition wrap64 (z : Z) : Z := (z + 2 ^ 63) mod 2 ^ 64 - 2 ^ 63.

Section Session.

Context {collab : Collaborators}.

(** *** HTTPSession, the base class, whose code is not part of the sources *)

(** Modelled from the spec: [connected()]. *)
Definition connected_of (s : HTTPClientSession) : bool :=
  match _socket s with
  | Some _ => true
  | None => false
  end.

Definition connected : M bool := gets connected_of.

Definition getKeepAlive : M bool := gets _keepAlive.

Definition setKeepAlive (b : bool) : M unit := modify (with_keepAlive b).

Definition networkException : M (option Exception) := gets _pException.

Definition clearException : M unit := modify (with_pException None).

Definition clock : M Z := fun s w => mkRun (Ok (now w)) s w.

(** Modelled from the spec: [close()] closes the socket; it does not fail. *)
Definition close : M unit :=
  fun s w => mkRun (Ok tt) (with_socket None s) (log_event EvClose w).

(** Modelled from the spec: [connect(address)], the resolution of the
    address included.  A failed attempt leaves the socket as it was. *)
Definition connect (address : SocketAddress) : M unit :=
  fun s w =>
    match next_connect w with
    | (None, w') =>
        mkRun (Ok tt) (with_socket (Some address) s)
              (log_event (EvConnect address true) w')
    | (Some e, w') =>
        mkRun (Throw e) s (log_event (EvConnect address false) w')
    end.

(** Modelled from the spec: [HTTPSession::write].  The bytes go to the
    socket; a failure is recorded as the session's network exception and
    raised. *)
Definition HTTPSession_write (buffer : string) : M Z :=
  fun s w =>
    match next_send w with
    | (None, w') =>
        mkRun (Ok (strlen buffer)) s
              (log_event (EvSend (_socket s) buffer true) w')
    | (Some e, w') =>
        mkRun (Throw e) (with_pException (Some e) s)
              (log_event (EvSend (_socket s) buffer false) w')
    end.

(** Modelled from the spec: [socket().shutdownSend()] ends the sending side
    of the connection; the socket stays where it is. *)
Definition shutdownSend : M unit :=
  fun s w => mkRun (Ok tt) s (log_event (EvShutdownSend (_socket s)) w).

(** Modelled from the spec: [detachSocket()] gives up the raw connection
    and leaves the session with a socket that is not connected. *)
Definition detachSocket : M StreamSocket :=
  fun s w => mkRun (Ok (_socket s)) (with_socket None s) w.

(** Modelled from the spec: [attachSocket(socket)] adopts a raw connection. *)
Definition attachSocket (socket : StreamSocket) : M unit :=
  modify (with_socket socket).

(** The end of stream where a response head should start. *)
Definition NoMessageException : Exception :=
  mkException MessageException "No HTTP response header" "".

Definition next_head (w : World) : ReadOutcome * World :=
  match heads w with
  | [] => (ReadFail NoMessageException None, w)
  | o :: l => (o, with_heads l w)
  end.

(** Modelled from the spec: [response.clear(); response.read(his)] on a
    header stream of the session. *)
Definition response_read : M HTTPResponse.t :=
  fun s w =>
    match next_head w with
    | (ReadHead r, w') => mkRun (Ok r) s w'
    | (ReadFail thrown None, w') => mkRun (Throw thrown) s w'
    | (ReadFail thrown (Some e), w') =>
        mkRun (Throw thrown) (with_pException (Some e) s) w'
    end.

(** Modelled from the spec: logging is outside the session's behaviour; the
    logger writes to the console only. *)
Definition logger_debug (text : string) : M unit := ret tt.

(** Modelled from the spec: a failed [poco_assert] is a contract failure. *)
Definition poco_assert (cond : bool) : M unit :=
  if cond then ret tt
  else throw (mkException AssertionViolationException "Assertion violation" "").

(** *** HTTPClientSession *)

(** [HTTPClientSession(host, port, proxyConfig)], lines 118 to 128,
    constructed at time [t]. *)
Definition HTTPClientSession_new (host : string) (port : Z)
    (proxyConfig : ProxyConfig) (t : Z) : HTTPClientSession :=
  mkSession None false HTTP_DEFAULT_TIMEOUT None
    host port proxyConfig (DEFAULT_KEEP_ALIVE_TIMEOUT * 1000000) t
    false false false false None None.

(** [HTTPClientSession()], lines 67 to 76, constructed at time [t]: no
    host, the port of HTTP, the global proxy configuration. *)
Definition HTTPClientSession_default (statics : Statics) (t : Z)
    : HTTPClientSession :=
  HTTPClientSession_new "" HTTP_PORT (_globalProxyConfig statics) t.

(** [HTTPClientSession(socket)], lines 79 to 89: the same around the socket
    that is given. *)
Definition HTTPClientSession_of_socket (socket : StreamSocket)
    (statics : Statics) (t : Z) : HTTPClientSession :=
  with_socket socket
    (HTTPClientSession_new "" HTTP_PORT (_globalProxyConfig statics) t).


(** [HTTPClientSession(host, port)], lines 105 to 115. *)
Definition HTTPClientSession_of_host (host : string) (port : Z)
    (statics : Statics) (t : Z) : HTTPClientSession :=
  HTTPClientSession_new host port (_globalProxyConfig statics) t.

Definition IllegalState (text : string) : Exception :=
  mkException IllegalStateException text "".

(** [HTTPClientSession::setHost], lines 136 to 142. *)
Definition setHost (host : string) : M unit :=
  c <- connected ;;
  if negb c then modify (with_host host)
  else throw (IllegalState "Cannot set the host for an already connected session").

(** [HTTPClientSession::setPort], lines 145 to 151. *)
Definition setPort (port : Z) : M unit :=
  c <- connected ;;
  if negb c then modify (with_port port)
  else throw (IllegalState "Cannot set the port number for an already connected session").

Definition pc_with_host (v : string) (c : ProxyConfig) : ProxyConfig :=
  mkProxyConfig v (pc_port c) (pc_username c) (pc_password c) (pc_nonProxyHosts c).
Definition pc_with_port (v : Z) (c : ProxyConfig) : ProxyConfig :=
  mkProxyConfig (pc_host c) v (pc_username c) (pc_password c) (pc_nonProxyHosts c).
Definition pc_with_username (v : string) (c : ProxyConfig) : ProxyConfig :=
  mkProxyConfig (pc_host c) (pc_port c) v (pc_password c) (pc_nonProxyHosts c).
Definition pc_with_password (v : string) (c : ProxyConfig) : ProxyConfig :=
  mkProxyConfig (pc_host c) (pc_port c) (pc_username c) v (pc_nonProxyHosts c).

Definition modify_proxyConfig (f : ProxyConfig -> ProxyConfig) : M unit :=
  modify (fun s => with_proxyConfig (f (_proxyConfig s)) s).

(** [HTTPClientSession::setProxy], lines 154 to 162. *)
Definition setProxy (host : string) (port : Z) : M unit :=
  c <- connected ;;
  if negb c then
    modify_proxyConfig (pc_with_host host) ;;
    modify_proxyConfig (pc_with_port port)
  else throw (IllegalState "Cannot set the proxy host and port for an already connected session").

(** [HTTPClientSession::setProxyHost], lines 165 to 171. *)
Definition setProxyHost (host : string) : M unit :=
  c <- connected ;;
  if negb c then modify_proxyConfig (pc_with_host host)
  else throw (IllegalState "Cannot set the proxy host for an already connected session").

(** [HTTPClientSession::setProxyPort], lines 174 to 180. *)
Definition setProxyPort (port : Z) : M unit :=
  c <- connected ;;
  if negb c then modify_proxyConfig (pc_with_port port)
  else throw (IllegalState "Cannot set the proxy port number for an already connected session").

(** [HTTPClientSession::setProxyCredentials], lines 183 to 187. *)
Definition setProxyCredentials (username password : string) : M unit :=
  modify_proxyConfig (pc_with_username username) ;;
  modify_proxyConfig (pc_with_password password).

(** [HTTPClientSession::setProxyUsername], lines 190 to 193. *)
Definition setProxyUsername (username : string) : M unit :=
  modify_proxyConfig (pc_with_username username).

(** [HTTPClientSession::setProxyPassword], lines 196 to 199. *)
Definition setProxyPassword (password : string) : M unit :=
  modify_proxyConfig (pc_with_password password).

(** [HTTPClientSession::setProxyConfig], lines 202 to 205. *)
Definition setProxyConfig (config : ProxyConfig) : M unit :=
  modify (with_proxyConfig config).


(** [HTTPClientSession::setKeepAliveTimeout], lines 214 to 217. *)
Definition setKeepAliveTimeout (timeout : Z) : M unit :=
  modify (with_keepAliveTimeout timeout).

(** [HTTPClientSession::bypassProxy], lines 506 to 513. *)
Definition bypassProxy (s : HTTPClientSession) : bool :=
  if negb (empty (pc_nonProxyHosts (_proxyConfig s))) then
    RegularExpression_match (_host s) (pc_nonProxyHosts (_proxyConfig s))
      (Z.lor RE_CASELESS RE_ANCHORED)
  else false.

(** [HTTPClientSession::reconnect], lines 425 to 437. *)
Definition reconnect : M unit :=
  s <- gets (fun s => s) ;;
  if empty (pc_host (_proxyConfig s)) || bypassProxy s then
    connect (mkSocketAddress (_host s) (_port s))
  else
    connect (mkSocketAddress (pc_host (_proxyConfig s)) (pc_port (_proxyConfig s))).

(** [HTTPClientSession::proxyRequestPrefix], lines 440 to 447. *)
Definition proxyRequestPrefix (s : HTTPClientSession) : string :=
  let result := "http://" in
  let result := result ++ _host s in
  let result := result ++ ":" in
  NumberFormatter_append result (_port s).

(** [HTTPClientSession::mustReconnect], lines 450 to 458. *)
Definition mustReconnect : M bool :=
  fun s w =>
    if negb (_mustReconnect s) then
      mkRun (Ok (_keepAliveTimeout s <=? now w - _lastRequest s)) s w
    else mkRun (Ok true) s w.

(** Modelled from the spec: the credential collaborator makes the request
    carry proxy authentication, in the Proxy-Authorization header. *)
Definition HTTPBasicCredentials_proxyAuthenticate (username password : string)
    (request : HTTPRequest.t) : HTTPRequest.t :=
  HTTPRequest.set HTTPRequest.PROXY_AUTHORIZATION
    (basic_value username password) request.

(** [HTTPClientSession::proxyAuthenticateImpl], lines 467 to 474. *)
Definition proxyAuthenticateImpl (s : HTTPClientSession)
    (request : HTTPRequest.t) : HTTPRequest.t :=
  if negb (empty (pc_username (_proxyConfig s))) then
    HTTPBasicCredentials_proxyAuthenticate
      (pc_username (_proxyConfig s)) (pc_password (_proxyConfig s)) request
  else request.

(** [HTTPClientSession::proxyAuthenticate], lines 461 to 464. *)
Definition proxyAuthenticate (s : HTTPClientSession)
    (request : HTTPRequest.t) : HTTPRequest.t :=
  proxyAuthenticateImpl s request.

(** [HTTPClientSession::write], lines 401 to 422. *)
Definition write (buffer : string) : M Z :=
  try_catch
    (rc <- HTTPSession_write buffer ;;
     modify (with_reconnect false) ;;
     ret rc)
    (fun e => is_IOException (e_class e))
    (fun e =>
       r <- gets _reconnect ;;
       if r then
         close ;;
         reconnect ;;
         rc <- HTTPSession_write buffer ;;
         clearException ;;
         modify (with_reconnect false) ;;
         ret rc
       else throw e).

(** *** Writing into a stream over the session *)

(** Modelled from the spec: the stream classes are other files.  Bytes
    written into a stream stay in its buffer, which is taken to hold
    whatever is written into it: the transport sees them when the stream is
    flushed or disposed of. *)
Definition ostream_write (bytes : string) (os : OutputStream) : M OutputStream :=
  ret (mkOutputStream (os_kind os) (os_inserted os ++ bytes) (os_count os)
         (os_pending os ++ bytes)).

(** Modelled from the spec: the buffer of a stream goes to the session's
    [write], a fixed-length stream passing on no more than its length
    allows and a chunked stream framing the bytes as a chunk.  An empty
    buffer writes nothing.  What [write] raises is raised, and the bytes
    stay in the buffer. *)
Definition ostream_sync (os : OutputStream) : M OutputStream :=
  let pending := os_pending os in
  let device (chunk : string) : M OutputStream :=
    rc <- write chunk ;;
    ret (mkOutputStream (os_kind os) (os_inserted os) (os_count os + rc) "") in
  if empty pending then ret os
  else
    match os_kind os with
    | HTTPFixedLengthOutputStream length =>
        if os_count os <? length then
          device (take (Z.to_nat (Z.min (strlen pending) (length - os_count os)))
                    pending)
        else ret (mkOutputStream (os_kind os) (os_inserted os) (os_count os) "")
    | HTTPChunkedOutputStream => device (chunk_frame pending)
    | HTTPHeaderOutputStream | HTTPOutputStream => device pending
    end.

(** Modelled from the spec: [flush()] on an output stream passes the buffer
    on.  A failure below a stream does not reach who uses the stream: it
    stays recorded on the session as the deferred network exception, which
    [flushRequest] and [peekResponse] raise after the stream has been
    used. *)
Definition ostream_flush (os : OutputStream) : M OutputStream :=
  try_catch (ostream_sync os) (fun _ => true) (fun _ => ret os).

(** Modelled from the spec: disposing of an output stream forces the bytes
    in its buffer to be flushed by the finalization of the stream type.  A
    chunked stream ends the body with the last chunk, which is the frame of
    no bytes, and a stream without bound ends it by shutting down the
    sending side; a header stream and a fixed-length stream pass their
    buffer on and do nothing else.  A failure ends the finalization and is
    not raised. *)
Definition ostream_close (os : OutputStream) : M unit :=
  try_catch
    (ostream_sync os ;;
     match os_kind os with
     | HTTPChunkedOutputStream => write (chunk_frame "") ;; ret tt
     | HTTPOutputStream => shutdownSend
     | HTTPHeaderOutputStream | HTTPFixedLengthOutputStream _ => ret tt
     end)
    (fun _ => true)
    (fun _ => ret tt).

(** Modelled from the spec: dereferencing a null stream handle. *)
Definition NullPointer : Exception :=
  mkException NullPointerException "Null pointer" "".

(** [request.write( *_pRequestStream )]. *)
Definition write_request_stream (request : HTTPRequest.t) : M unit :=
  p <- gets _pRequestStream ;;
  match p with
  | None => throw NullPointer
  | Some os =>
      os' <- ostream_write (serialize request) os ;;
      modify (with_pRequestStream (Some os'))
  end.

(** [Poco::CountingOutputStream cs; request.write(cs); cs.chars()]. *)
Definition counted (request : HTTPRequest.t) : Z := strlen (serialize request).

(** Lines 252 to 262 of [sendRequest]: what is done to the request before
    it is written.  The statements read the session and change the request
    only. *)
Definition prepared_request (this : HTTPClientSession) (keepAlive : bool)
    (request : HTTPRequest.t) : HTTPRequest.t :=
  let request :=
    if negb keepAlive then HTTPRequest.setKeepAlive false request
    else request in
  let request :=
    if negb (HTTPRequest.has HTTPRequest.HOST request) && negb (empty (_host this))
    then HTTPRequest.set HTTPRequest.HOST
           (host_value (_host this) (_port this)) request
    else request in
  if negb (empty (pc_host (_proxyConfig this))) && negb (bypassProxy this)
  then
    proxyAuthenticate this
      (HTTPRequest.setURI
         (proxyRequestPrefix this ++ HTTPRequest.getURI request) request)
  else request.

(** Lines 265 to 296 of [sendRequest]: the output stream is chosen and
    constructed, and the request head is written.  The header stream of a
    chunked request is a local of its block, disposed of where the block
    ends. *)
Definition open_request_stream (request : HTTPRequest.t) : M unit :=
  let method := HTTPRequest.getMethod request in
  if HTTPRequest.getChunkedTransferEncoding request then
    hos <- ostream_write (serialize request)
             (new_ostream HTTPHeaderOutputStream) ;;
    modify (with_pRequestStream (Some (new_ostream HTTPChunkedOutputStream))) ;;
    ostream_close hos
  else if HTTPRequest.hasContentLength request then
    let cs := counted request in
    modify (with_pRequestStream
              (Some (new_ostream
                       (HTTPFixedLengthOutputStream
                          (wrap64 (HTTPRequest.getContentLength64 request + cs)))))) ;;
    write_request_stream request
  else if (negb (String.eqb method HTTPRequest.HTTP_PUT)
           && negb (String.eqb method HTTPRequest.HTTP_POST)
           && negb (String.eqb method HTTPRequest.HTTP_PATCH))
          || HTTPRequest.has HTTPRequest.UPGRADE request then
    let cs := counted request in
    modify (with_pRequestStream
              (Some (new_ostream (HTTPFixedLengthOutputStream cs)))) ;;
    write_request_stream request
  else
    modify (with_pRequestStream (Some (new_ostream HTTPOutputStream))) ;;
    write_request_stream request.

(** The try block of [sendRequest], lines 248 to 299.  The
    [if (!connected())] of the source has no braces: it governs the debug
    statement that follows it, and [reconnect()] is the next statement. *)
Definition sendRequest_try (keepAlive : bool) (request : HTTPRequest.t)
    : M (HTTPRequest.t * OutputStream) :=
  c <- connected ;;
  when (negb c)
    (logger_debug ("sendRequest: Reconnect Start : " ++ HTTPRequest.getURI request)) ;;
  reconnect ;;
  logger_debug ("sendRequest: Reconnect Done : " ++ HTTPRequest.getURI request) ;;
  this <- gets (fun s => s) ;;
  let request := prepared_request this keepAlive request in
  modify (with_reconnect keepAlive) ;;
  modify (with_expectResponseBody
            (negb (String.eqb (HTTPRequest.getMethod request)
                              HTTPRequest.HTTP_HEAD))) ;;
  open_request_stream request ;;
  t <- clock ;;
  modify (with_lastRequest t) ;;
  p <- gets _pRequestStream ;;
  match p with
  | Some os => ret (request, os)
  | None => throw NullPointer
  end.

(** [HTTPClientSession::sendRequest], lines 220 to 306.  It returns the
    output stream; the request, which the source changes in place, is
    returned with it.  Of the debug statements only those around
    [reconnect()] are kept. *)
Definition sendRequest (request : HTTPRequest.t)
    : M (HTTPRequest.t * OutputStream) :=
  modify (with_pRequestStream None) ;;
  modify (with_pResponseStream None) ;;
  clearException ;;
  modify (with_responseReceived false) ;;
  keepAlive <- getKeepAlive ;;
  c <- connected ;;
  mr <- mustReconnect ;;
  host <- gets _host ;;
  when (((c && negb keepAlive) || mr) && negb (empty host))
    (close ;; modify (with_mustReconnect false)) ;;
  try_catch (sendRequest_try keepAlive request)
    (fun _ => true)
    (fun e => close ;; throw e).

Definition rethrow_networkException : M unit :=
  ne <- networkException ;;
  match ne with
  | Some e => throw e
  | None => ret tt
  end.

(** [HTTPClientSession::flushRequest], lines 309 to 313.  The assignment
    of line 311 releases the request stream, which is disposed of. *)
Definition flushRequest : M unit :=
  p <- gets _pRequestStream ;;
  modify (with_pRequestStream None) ;;
  match p with
  | Some os => ostream_close os
  | None => ret tt
  end ;;
  rethrow_networkException.

(** The catch clause around [response.read(his)], lines 329 to 337 and 375
    to 383. *)
Definition read_failed {A : Type} (e : Exception) : M A :=
  close ;;
  ne <- networkException ;;
  match ne with
  | Some n => throw n
  | None => throw e
  end.

(** The do-while loop of [receiveResponse], lines 321 to 339, by recursion
    on the heads that the peer has sent: a head with the continue status is
    followed by the next head, and where no head is left to read the read
    fails.  Lemma [receive_heads_loop] gives it the form of the loop. *)
Fixpoint receive_heads (hs : list ReadOutcome) : M HTTPResponse.t :=
  match hs with
  | ReadHead r :: hs' =>
      fun s w =>
        if HTTPResponse.getStatus r =? HTTPResponse.HTTP_CONTINUE
        then receive_heads hs' s (with_heads hs' w)
        else mkRun (Ok r) s (with_heads hs' w)
  | _ => try_catch response_read (fun _ => true) read_failed
  end.

(** Lines 344 to 355 of [receiveResponse]: the input stream that is
    constructed. *)
Definition select_input (expectResponseBody : bool) (response : HTTPResponse.t)
    : InputStream :=
  if negb expectResponseBody
     || (HTTPResponse.getStatus response <? 200)
     || (HTTPResponse.getStatus response =? HTTPResponse.HTTP_NO_CONTENT)
     || (HTTPResponse.getStatus response =? HTTPResponse.HTTP_NOT_MODIFIED)
  then HTTPFixedLengthInputStream 0
  else if HTTPResponse.getChunkedTransferEncoding response
  then HTTPChunkedInputStream
  else if HTTPResponse.hasContentLength response
  then HTTPFixedLengthInputStream (HTTPResponse.getContentLength64 response)
  else HTTPInputStream.

(** [HTTPClientSession::receiveResponse], lines 316 to 358.  It returns the
    input stream; the response, which the source fills in place, is returned
    with it. *)
Definition receiveResponse (response : HTTPResponse.t)
    : M (HTTPResponse.t * InputStream) :=
  flushRequest ;;
  received <- gets _responseReceived ;;
  response <- (if negb received
               then fun s w => receive_heads (heads w) s w
               else ret response) ;;
  keepAlive <- getKeepAlive ;;
  modify (with_mustReconnect
            (keepAlive && negb (HTTPResponse.getKeepAlive response))) ;;
  expect <- gets _expectResponseBody ;;
  modify (with_pResponseStream (Some (select_input expect response))) ;;
  ret (response, select_input expect response).

(** [HTTPClientSession::peekResponse], lines 361 to 386.  The response,
    which the source fills in place, is returned with the result. *)
Definition peekResponse (response : HTTPResponse.t)
    : M (HTTPResponse.t * bool) :=
  received <- gets _responseReceived ;;
  poco_assert (negb received) ;;
  p <- gets _pRequestStream ;;
  match p with
  | None => throw NullPointer
  | Some os =>
      os <- ostream_flush os ;;
      modify (with_pRequestStream (Some os))
  end ;;
  rethrow_networkException ;;
  response <- try_catch response_read (fun _ => true) read_failed ;;
  modify (with_responseReceived
            (negb (HTTPResponse.getStatus response =? HTTPResponse.HTTP_CONTINUE))) ;;
  received <- gets _responseReceived ;;
  ret (response, negb received).

(** [HTTPClientSession::reset], lines 389 to 392. *)
Definition reset : M unit := close.

(** [HTTPClientSession::secure], lines 395 to 398. *)
Definition secure : bool := false.

(** A member function called on another session object: the world is
    shared, this session is not touched. *)
Definition on_session {A : Type} (other : HTTPClientSession) (m : M A)
    : M (A * HTTPClientSession) :=
  fun s w =>
    match m other w with
    | mkRun (Ok a) other' w' => mkRun (Ok (a, other')) s w'
    | mkRun (Throw e) _ w' => mkRun (Throw e) s w'
    end.

(** The CONNECT request of [proxyConnect], lines 482 to 489. *)
Definition proxyRequest_of (this : HTTPClientSession) : HTTPRequest.t :=
  let targetAddress := _host this in
  let targetAddress := targetAddress ++ ":" in
  let targetAddress := NumberFormatter_append targetAddress (_port this) in
  let proxyRequest := HTTPRequest.new HTTPRequest.HTTP_CONNECT targetAddress in
  let proxyRequest := HTTPRequest.set "Proxy-Connection" "keep-alive" proxyRequest in
  let proxyRequest := HTTPRequest.set "Host" (_host this) proxyRequest in
  proxyAuthenticateImpl this proxyRequest.

(** [HTTPClientSession::proxyConnect], lines 477 to 496. *)
Definition proxyConnect : M StreamSocket :=
  this <- gets (fun s => s) ;;
  t <- clock ;;
  let emptyProxyConfig := ProxyConfig_new in
  let proxySession :=
    HTTPClientSession_new (pc_host (_proxyConfig this))
      (pc_port (_proxyConfig this)) emptyProxyConfig t in
  let proxySession := with_timeout (_timeout this) proxySession in
  let proxyRequest := proxyRequest_of this in
  let proxyResponse := HTTPResponse.new in
  let proxySession := with_keepAlive true proxySession in
  sent <- on_session proxySession (sendRequest proxyRequest) ;;
  received <- on_session (snd sent) (receiveResponse proxyResponse) ;;
  let proxyResponse := fst (fst received) in
  if negb (HTTPResponse.getStatus proxyResponse =? HTTPResponse.HTTP_OK) then
    throw (mkException HTTPException "Cannot establish proxy connection"
             (HTTPResponse.getReason proxyResponse))
  else
    detached <- on_session (snd received) detachSocket ;;
    ret (fst detached).

(** [HTTPClientSession::proxyTunnel], lines 499 to 503. *)
Definition proxyTunnel : M unit :=
  ss <- proxyConnect ;;
  attachSocket ss.

End Session.

(** * Notions of the statements *)

(** The address that [reconnect] connects to: the target when no proxy is
    configured or the target bypasses it, otherwise the proxy. *)
Definition route_of {collab : Collaborators} (s : HTTPClientSession)
    : SocketAddress :=
  if empty (pc_host (_proxyConfig s)) || bypassProxy s
  then mkSocketAddress (_host s) (_port s)
  else mkSocketAddress (pc_host (_proxyConfig s)) (pc_port (_proxyConfig s)).

(** The outcome scripted for the next send and for the next connection
    attempt, and the world after the outcome of a send has been taken. *)
Definition send_outcome (w : World) : option Exception := fst (next_send w).

Definition after_send (w : World) : World := snd (next_send w).

Definition connect_outcome (w : World) : option Exception :=
  fst (next_connect w).

(** The world [w'] is [w] after some more transport events. *)
Definition extends (w w' : World) : Prop :=
  exists evs, trace w' = (evs ++ trace w)%list.

(** A change of the transport members only: the socket, the recorded
    network exception and the retryable flag. *)
Definition transport_update (a : StreamSocket) (b : option Exception) (c : bool)
    (s : HTTPClientSession) : HTTPClientSession :=
  with_socket a (with_pException b (with_reconnect c s)).

(** [s'] differs from [s] in the transport members at most. *)
Definition same_but_transport (s s' : HTTPClientSession) : Prop :=
  s' = transport_update (_socket s') (_pException s') (_reconnect s') s.

(** The kind of output stream that [open_request_stream] constructs. *)
Definition output_kind_of {collab : Collaborators} (request : HTTPRequest.t)
    : OutputKind :=
  let method := HTTPRequest.getMethod request in
  if HTTPRequest.getChunkedTransferEncoding request then HTTPChunkedOutputStream
  else if HTTPRequest.hasContentLength request then
    HTTPFixedLengthOutputStream
      (wrap64 (HTTPRequest.getContentLength64 request + counted request))
  else if (negb (String.eqb method HTTPRequest.HTTP_PUT)
           && negb (String.eqb method HTTPRequest.HTTP_POST)
           && negb (String.eqb method HTTPRequest.HTTP_PATCH))
          || HTTPRequest.has HTTPRequest.UPGRADE request then
    HTTPFixedLengthOutputStream (counted request)
  else HTTPOutputStream.

(** The transport is in order: the socket is connected to [a] unless a
    network exception is recorded. *)
Definition in_order (a : SocketAddress) (s : HTTPClientSession) : Prop :=
  _pException s = None -> _socket s = Some a.

(** The initial close decision of [sendRequest]: whether the transport is
    closed before the try block. *)
Definition closes_first (s : HTTPClientSession) (w : World) : bool :=
  ((connected_of s && negb (_keepAlive s))
   || (if negb (_mustReconnect s)
       then _keepAliveTimeout s <=? now w - _lastRequest s else true))
  && negb (empty (_host s)).

(** The session after the first statements of [sendRequest]: no stream
    handles, no recorded exception, no response received. *)
Definition cleared (s : HTTPClientSession) : HTTPClientSession :=
  with_responseReceived false
    (with_pException None
       (with_pResponseStream None (with_pRequestStream None s))).

(** The session and the world when [sendRequest] enters its try block. *)
Definition entering_session (s : HTTPClientSession) (w : World)
    : HTTPClientSession :=
  if closes_first s w
  then with_mustReconnect false (with_socket None (cleared s))
  else cleared s.

Definition entering_world (s : HTTPClientSession) (w : World) : World :=
  if closes_first s w then log_event EvClose w else w.

(** A setter that checks the connection: on a connected session it raises
    a state error and changes nothing; otherwise it succeeds and the field
    has the new value. *)
Definition checks_connection {V : Type} (setter : M unit)
    (field : HTTPClientSession -> V) (v : V)
    (s : HTTPClientSession) (w : World) : Prop :=
  if connected_of s then
    (exists e, result (setter s w) = Throw e
               /\ e_class e = IllegalStateException)
    /\ session (setter s w) = s
  else
    result (setter s w) = Ok tt /\ field (session (setter s w)) = v.

(** A setter that does not look at the connection: it succeeds and the
    field has the new value. *)
Definition always_sets {V : Type} (setter : M unit)
    (field : HTTPClientSession -> V) (v : V)
    (s : HTTPClientSession) (w : World) : Prop :=
  result (setter s w) = Ok tt /\ field (session (setter s w)) = v.

(** The members that configure a session: where it connects to and how it
    keeps a connection. *)
Definition configuration (s : HTTPClientSession)
    : string * Z * ProxyConfig * bool * Z * Z :=
  (_host s, _port s, _proxyConfig s, _keepAlive s, _timeout s,
   _keepAliveTimeout s).

(** The addresses of the connection attempts among some transport events. *)
Definition connections (evs : list Event) : list SocketAddress :=
  flat_map (fun ev => match ev with
                      | EvConnect address _ => [address]
                      | _ => []
                      end) evs.

(** A step of the transport below the session [s] in the world [w], to
    [s'] and [w']: the clock and the heads that the peer has sent are left
    alone, the route of the session is what it was, a transport in order
    stays in order, and the connection attempts among the events of the
    step go to the route of the session. *)
Definition transport_step {collab : Collaborators}
    (s : HTTPClientSession) (w : World)
    (s' : HTTPClientSession) (w' : World) : Prop :=
  route_of s' = route_of s
  /\ now w' = now w
  /\ heads w' = heads w
  /\ (in_order (route_of s) s -> in_order (route_of s) s')
  /\ exists evs,
       trace w' = (evs ++ trace w)%list
       /\ Forall (eq (route_of s)) (connections evs).

(** The heads that the peer sends with the continue status. *)
Definition all_continue (cs : list HTTPResponse.t) : bool :=
  forallb (fun c => HTTPResponse.getStatus c =? HTTPResponse.HTTP_CONTINUE) cs.

(** What [receiveResponse] does to the session that [flushRequest] has
    left, when it returns [response] with the input stream [stream]. *)
Definition received (response : HTTPResponse.t) (stream : InputStream)
    (s : HTTPClientSession) : HTTPClientSession :=
  with_pResponseStream (Some stream)
    (with_mustReconnect
       (_keepAlive s && negb (HTTPResponse.getKeepAlive response)) s).

Definition AssertionViolation : Exception :=
  mkException AssertionViolationException "Assertion violation" "".

(** Whether a request of this method has a body that the caller writes
    without having declared its length: line 285. *)
Definition body_method (method : string) : bool :=
  String.eqb method HTTPRequest.HTTP_PUT
  || String.eqb method HTTPRequest.HTTP_POST
  || String.eqb method HTTPRequest.HTTP_PATCH.

(** * Concrete collaborators, sessions and worlds

    For running the model.  Request heads are serialized line by line; a
    pattern is a literal host name in which a backslash quotes the next
    character, matched as a whole and without regard to case when the
    caseless bit is set; credentials are written in clear; a chunk is
    framed by its length in hexadecimal digits and by line ends. *)

Definition CRLF : string :=
  String (ascii_of_nat 13) (String (ascii_of_nat 10) "").

Fixpoint header_lines (h : NameValueCollection.t) : string :=
  match h with
  | [] => ""
  | (n, v) :: h' => n ++ ": " ++ v ++ CRLF ++ header_lines h'
  end.

Fixpoint unquote (pattern : string) : string :=
  match pattern with
  | String "\" (String c p') => String c (unquote p')
  | String c p' => String c (unquote p')
  | EmptyString => EmptyString
  end.

#[export] Instance sample_collaborators : Collaborators := {|
  serialize r :=
    HTTPRequest.method r ++ " " ++ HTTPRequest.uri r ++ " HTTP/1.1" ++ CRLF
    ++ header_lines (HTTPRequest.headers r) ++ CRLF;
  host_value h p :=
    if (p =? 80) || (p =? 443) then h else NumberFormatter_append (h ++ ":") p;
  basic_value u p := "Basic " ++ u ++ ":" ++ p;
  RegularExpression_match subject pattern options :=
    if Z.testbit options 0 then iequal subject (unquote pattern)
    else String.eqb subject (unquote pattern);
  RE_CASELESS := 1;
  RE_ANCHORED := 16;
  chunk_frame b :=
    HexadecimalString.NilEmpty.string_of_uint
      (N.to_hex_uint (N.of_nat (String.length b)))
    ++ CRLF ++ b ++ CRLF;
  DEFAULT_KEEP_ALIVE_TIMEOUT := 8;
  HTTP_DEFAULT_TIMEOUT := 60000000
|}.

(** ** Worlds *)

(** A quiet world at time [t]: every operation succeeds, the peer sends the
    given heads. *)
Definition quiet (t : Z) (hs : list ReadOutcome) : World :=
  mkWorld t [] [] hs [].





Definition broken_pipe : Exception :=
  mkException IOException "Broken pipe" "".

(** A world at time 0 with the given outcomes of the sends. *)
Definition lossy (outcomes : list (option Exception)) : World :=
  mkWorld 0 [] outcomes [] [].

Definition example_com : SocketAddress := mkSocketAddress "example.com" 80.

Definition proxy_3128 : SocketAddress := mkSocketAddress "proxy" 3128.

(** ** Sessions *)

(** A session for [example.com:80] without a proxy, constructed at time 0,
    and the same session connected to its target. *)
Definition direct_session : HTTPClientSession :=
  HTTPClientSession_new "example.com" 80 ProxyConfig_new 0.

Definition connected_session : HTTPClientSession :=
  with_socket (Some example_com) direct_session.

(** A session for [example.com:80] that wants keep-alive and is connected;
    its last request is not older than the keep-alive timeout. *)
Definition keepalive_session : HTTPClientSession :=
  with_keepAlive true connected_session.

(** A keep-alive session whose request is being written: the first write
    may be retried. *)
Definition writing_session : HTTPClientSession :=
  with_reconnect true keepalive_session.

(** A session whose request has been sent: the request stream is there
    and no response has been received. *)
Definition sent_session : HTTPClientSession :=
  with_expectResponseBody true
    (with_pRequestStream (Some (new_ostream HTTPOutputStream)) connected_session).


(** The session of the round trip of the specification: the target goes
    through the proxy [P:8080] unless it is [internal.example.com]; [user]
    and [password] are the proxy credentials. *)
Definition proxied_session (host user password : string) : HTTPClientSession :=
  HTTPClientSession_new host 80
    (mkProxyConfig "P" 8080 user password "internal\.example\.com") 0.

(** A session for the target of a tunnel through [proxy:3128]. *)
Definition tunnel_session (user password : string) : HTTPClientSession :=
  HTTPClientSession_new "target.example.com" 443
    (mkProxyConfig "proxy" 3128 user password "") 0.

(** ** Requests and responses *)

Definition get_request : HTTPRequest.t := HTTPRequest.new "GET" "/path".

(** [get_request] as a keep-alive session for [example.com:80] sends it. *)
Definition get_request_sent : HTTPRequest.t :=
  HTTPRequest.mk "GET" "/path" [("Host", "example.com")] true false None.

(** [get_request] as it goes to the proxy [P:8080] for
    [public.example.com], without and with credentials. *)
Definition get_request_proxied : HTTPRequest.t :=
  HTTPRequest.mk "GET" "http://public.example.com:80/path"
    [("Host", "public.example.com")] false false None.

Definition get_request_authenticated : HTTPRequest.t :=
  HTTPRequest.mk "GET" "http://public.example.com:80/path"
    [("Host", "public.example.com");
     ("Proxy-Authorization", "Basic alice:secret")] false false None.

(** A POST request that declares 11 bytes of content, and that request as
    a session without proxy and without keep-alive sends it to
    [example.com:80]. *)
Definition post_request : HTTPRequest.t :=
  HTTPRequest.mk "POST" "/form" [("Content-Length", "11")] true false (Some 11).

Definition post_request_sent : HTTPRequest.t :=
  HTTPRequest.mk "POST" "/form"
    [("Content-Length", "11"); ("Host", "example.com")] false false (Some 11).

(** The stream that [post_request_sent] is written into: 62 bytes of head
    and 11 bytes of content.  The head is in the buffer. *)
Definition post_stream : OutputStream :=
  mkOutputStream (HTTPFixedLengthOutputStream 73)
    (serialize post_request_sent) 0 (serialize post_request_sent).

(** A POST request that declares the largest length that a 64-bit integer
    holds. *)
Definition huge_post_request : HTTPRequest.t :=
  HTTPRequest.mk "POST" "/form" [("Content-Length", "9223372036854775807")]
    true false (Some (2 ^ 63 - 1)).

(** The head of a request in a fixed-length stream of just that length. *)
Definition head_stream (request : HTTPRequest.t) : OutputStream :=
  mkOutputStream (HTTPFixedLengthOutputStream (strlen (serialize request)))
    (serialize request) 0 (serialize request).

Definition ok_response : HTTPResponse.t :=
  HTTPResponse.mk 200 "OK" [] true false None.

Definition continue_response : HTTPResponse.t :=
  HTTPResponse.mk 100 "Continue" [] true false None.

(** A response with status 200 that declares 500 bytes of content. *)
Definition sized_response : HTTPResponse.t :=
  HTTPResponse.mk 200 "OK" [("Content-Length", "500")] true false (Some 500).

(** A chunked response that also declares a length. *)
Definition chunked_sized_response : HTTPResponse.t :=
  HTTPResponse.mk 200 "OK"
    [("Transfer-Encoding", "chunked"); ("Content-Length", "500")]
    true true (Some 500).

Definition auth_required_response : HTTPResponse.t :=
  HTTPResponse.mk 407 "Proxy Authentication Required" [] true false None.

Definition get_request_virtual : HTTPRequest.t :=
  HTTPRequest.mk "GET" "/path" [("host", "virtual.example.com")] true false None.

(** [get_request_virtual] as a session without keep-alive sends it. *)
Definition get_request_virtual_sent : HTTPRequest.t :=
  HTTPRequest.mk "GET" "/path" [("host", "virtual.example.com")] false false None.

(** A request with a header of its own, and as a session for
    [example.com:80] without keep-alive sends it. *)
Definition get_request_accept : HTTPRequest.t :=
  HTTPRequest.mk "GET" "/path" [("Accept", "text/html")] true false None.

Definition get_request_accept_sent : HTTPRequest.t :=
  HTTPRequest.mk "GET" "/path"
    [("Accept", "text/html"); ("Host", "example.com")] false false None.

(** A chunked POST request that also declares a length, and as it is
    sent. *)
Definition chunked_post_request : HTTPRequest.t :=
  HTTPRequest.mk "POST" "/upload" [] true true (Some 11).

Definition chunked_post_request_sent : HTTPRequest.t :=
  HTTPRequest.mk "POST" "/upload" [("Host", "example.com")] false true (Some 11).

(** [get_request] as a session for [example.com:80] without keep-alive
    sends it. *)
Definition get_request_closing : HTTPRequest.t :=
  HTTPRequest.mk "GET" "/path" [("Host", "example.com")] false false None.

(** A PUT request that declares no length, as the caller makes it and as
    it is sent, and the stream that it is written into. *)
Definition put_request : HTTPRequest.t := HTTPRequest.new "PUT" "/file".

Definition put_request_sent : HTTPRequest.t :=
  HTTPRequest.mk "PUT" "/file" [("Host", "example.com")] false false None.

Definition plain_stream (request : HTTPRequest.t) : OutputStream :=
  mkOutputStream HTTPOutputStream (serialize request) 0 (serialize request).

Definition head_request : HTTPRequest.t := HTTPRequest.new "HEAD" "/path".

Definition head_request_sent : HTTPRequest.t :=
  HTTPRequest.mk "HEAD" "/path" [("Host", "example.com")] false false None.

(** A response that does not allow the connection to be kept. *)
Definition closing_response : HTTPResponse.t :=
  HTTPResponse.mk 200 "OK" [("Connection", "close")] false false None.

(** A connected keep-alive session whose request has been sent. *)
Definition sent_keepalive_session : HTTPClientSession :=
  with_keepAlive true sent_session.

(** [get_request] as it goes to the proxy [P:8080] with the credentials of
    bob. *)
Definition get_request_bob : HTTPRequest.t :=
  HTTPRequest.mk "GET" "http://public.example.com:80/path"
    [("Host", "public.example.com");
     ("Proxy-Authorization", "Basic bob:pw")] false false None.

(** * Properties *)

Section Properties.

Context {collab : Collaborators}.

(** ** Setters *)

Lemma guarded_setter_run (f : HTTPClientSession -> HTTPClientSession)
    (text : string) s w :
  (c <- connected ;; if negb c then modify f else throw (IllegalState text)) s w
  = if connected_of s then mkRun (Throw (IllegalState text)) s w
    else mkRun (Ok tt) (f s) w.
Proof.
  unfold bind, connected, gets, modify, throw.
  destruct (connected_of s); reflexivity.
Qed.

Lemma guarded_setter_checks {V : Type}
    (f : HTTPClientSession -> HTTPClientSession) (text : string)
    (field : HTTPClientSession -> V) (v : V) s w :
  (forall s0, field (f s0) = v) ->
  checks_connection
    (c <- connected ;; if negb c then modify f else throw (IllegalState text))
    field v s w.
Proof.
  intros Hf. unfold checks_connection. rewrite guarded_setter_run.
  destruct (connected_of s); simpl.
  - split; [| reflexivity]. eexists. split; reflexivity.
  - split; [reflexivity | apply Hf].
Qed.

(** C3, as amended: the setters of host, port, proxy host and proxy port
    (and [setProxy], which sets both proxy fields) raise a state error on a
    connected session and leave the session unchanged, and update the field
    on a session that is not connected; the setters of the proxy user name,
    of the proxy password and of both credentials make no check: they
    update the field and succeed whether or not the session is connected. *)
Theorem setters_and_connection (s : HTTPClientSession) (w : World)
    (host : string) (port : Z) (username password : string) :
  checks_connection (setHost host) _host host s w
  /\ checks_connection (setPort port) _port port s w
  /\ checks_connection (setProxyHost host)
       (fun x => pc_host (_proxyConfig x)) host s w
  /\ checks_connection (setProxyPort port)
       (fun x => pc_port (_proxyConfig x)) port s w
  /\ checks_connection (setProxy host port)
       (fun x => (pc_host (_proxyConfig x), pc_port (_proxyConfig x)))
       (host, port) s w
  /\ always_sets (setProxyUsername username)
       (fun x => pc_username (_proxyConfig x)) username s w
  /\ always_sets (setProxyPassword password)
       (fun x => pc_password (_proxyConfig x)) password s w
  /\ always_sets (setProxyCredentials username password)
       (fun x => (pc_username (_proxyConfig x), pc_password (_proxyConfig x)))
       (username, password) s w.
Proof.
  repeat split.
  - apply guarded_setter_checks. reflexivity.
  - apply guarded_setter_checks. reflexivity.
  - apply guarded_setter_checks. reflexivity.
  - apply guarded_setter_checks. reflexivity.
  - unfold checks_connection, setProxy, bind, connected, gets, modify_proxyConfig,
      modify, throw.
    destruct (connected_of s); simpl.
    + split; [| reflexivity]. eexists. split; reflexivity.
    + split; reflexivity.
Qed.

(** [setProxyConfig] replaces the whole proxy configuration, the proxy host
    and port with it, and makes no check either. *)
Lemma setProxyConfig_assigns (s : HTTPClientSession) (w : World)
    (config : ProxyConfig) :
  setProxyConfig config s w = mkRun (Ok tt) (with_proxyConfig config s) w.
Proof. reflexivity. Qed.

(** ** write *)

(** The run of [write], by the outcomes scripted for the transport. *)
Lemma write_run (s : HTTPClientSession) (w : World) (buffer : string) :
  let run := write buffer s w in
  let failed := EvSend (_socket s) buffer false in
  match send_outcome w with
  | None =>
      result run = Ok (strlen buffer)
      /\ _reconnect (session run) = false
      /\ trace (world run) = EvSend (_socket s) buffer true :: trace w
  | Some e =>
      if _reconnect s && is_IOException (e_class e) then
        match connect_outcome w with
        | Some e2 =>
            result run = Throw e2
            /\ _reconnect (session run) = true
            /\ trace (world run)
               = EvConnect (route_of s) false :: EvClose :: failed :: trace w
        | None =>
            match send_outcome (after_send w) with
            | None =>
                result run = Ok (strlen buffer)
                /\ _pException (session run) = None
                /\ _reconnect (session run) = false
                /\ trace (world run)
                   = EvSend (Some (route_of s)) buffer true
                     :: EvConnect (route_of s) true :: EvClose
                     :: failed :: trace w
            | Some e3 =>
                result run = Throw e3
                /\ _pException (session run) = Some e3
                /\ _reconnect (session run) = true
                /\ trace (world run)
                   = EvSend (Some (route_of s)) buffer false
                     :: EvConnect (route_of s) true :: EvClose
                     :: failed :: trace w
            end
        end
      else
        result run = Throw e
        /\ _socket (session run) = _socket s
        /\ _reconnect (session run) = _reconnect s
        /\ trace (world run) = failed :: trace w
  end.
Proof.
  cbv zeta.
  unfold write, try_catch, bind, HTTPSession_write, modify, ret, throw, gets,
    close, reconnect, connect, clearException, send_outcome, after_send,
    connect_outcome, next_send, next_connect, route_of, log_event,
    bypassProxy.
  destruct (sends w) as [| [e |] l]; cbn; [repeat split | | repeat split].
  destruct (is_IOException (e_class e)); destruct (_reconnect s) eqn:Hr; cbn;
    try (repeat split; assumption).
  destruct (connects w) as [| [e2 |] lc]; cbn;
    destruct (empty (pc_host (_proxyConfig s)));
    destruct (empty (pc_nonProxyHosts (_proxyConfig s)));
    try destruct (RegularExpression_match (_host s)
                    (pc_nonProxyHosts (_proxyConfig s))
                    (Z.lor RE_CASELESS RE_ANCHORED));
    cbn; try (repeat split; exact Hr);
    destruct l as [| [e3 |] l']; cbn; repeat split; exact Hr.
Qed.

Lemma write_Ok_clears s w buffer rc :
  result (write buffer s w) = Ok rc -> _reconnect (session (write buffer s w)) = false.
Proof.
  pose proof (write_run s w buffer) as H. cbv zeta in H.
  intros Hok.
  destruct (send_outcome w) as [e |].
  - destruct (_reconnect s && is_IOException (e_class e)).
    + destruct (connect_outcome w).
      * destruct H as [H _]. congruence.
      * destruct (send_outcome (after_send w)).
        -- destruct H as [H _]. congruence.
        -- apply H.
    + destruct H as [H _]. congruence.
  - apply H.
Qed.

Lemma write_Throw_keeps s w buffer e :
  result (write buffer s w) = Throw e ->
  _reconnect (session (write buffer s w)) = _reconnect s.
Proof.
  pose proof (write_run s w buffer) as H. cbv zeta in H.
  intros Ht.
  destruct (send_outcome w) as [e1 |].
  - destruct (_reconnect s) eqn:Hr; cbn [andb] in H.
    + destruct (is_IOException (e_class e1)).
      * destruct (connect_outcome w).
        -- apply H.
        -- destruct (send_outcome (after_send w)).
           ++ apply H.
           ++ destruct H as [H _]. congruence.
      * destruct H as [_ [_ [H _]]]. congruence.
    + destruct H as [_ [_ [H _]]]. congruence.
  - destruct H as [H _]. congruence.
Qed.

(** C7, as amended: what [write] does, by the outcome of the socket send.
    A send that succeeds clears the retryable flag.  A send that fails with
    an I/O error while the flag is set is followed by closing the
    transport, by reconnecting and, when the connection is there, by one
    more send of the same bytes: its success clears the recorded network
    exception and the flag, its failure is raised and nothing more is sent.
    A send that fails while the flag is clear, or with another error than
    an I/O error, is raised as it is, and the transport sees nothing but
    that one send.  The flag is cleared by a write that succeeds and by
    nothing else: a write that raises leaves the flag as it was, so after a
    retry that failed the next write is retried again, and a write that
    follows a successful write is never retried. *)
Theorem write_retries_once
    (s : HTTPClientSession) (w : World) (buffer : string) :
  let run := write buffer s w in
  let failed := EvSend (_socket s) buffer false in
  match send_outcome w with
  | None =>
      result run = Ok (strlen buffer)
      /\ _reconnect (session run) = false
      /\ trace (world run) = EvSend (_socket s) buffer true :: trace w
  | Some e =>
      if _reconnect s && is_IOException (e_class e) then
        match connect_outcome w with
        | Some e2 =>
            result run = Throw e2
            /\ _reconnect (session run) = true
            /\ trace (world run)
               = EvConnect (route_of s) false :: EvClose :: failed :: trace w
        | None =>
            match send_outcome (after_send w) with
            | None =>
                result run = Ok (strlen buffer)
                /\ _pException (session run) = None
                /\ _reconnect (session run) = false
                /\ trace (world run)
                   = EvSend (Some (route_of s)) buffer true
                     :: EvConnect (route_of s) true :: EvClose
                     :: failed :: trace w
            | Some e3 =>
                result run = Throw e3
                /\ _pException (session run) = Some e3
                /\ _reconnect (session run) = true
                /\ trace (world run)
                   = EvSend (Some (route_of s)) buffer false
                     :: EvConnect (route_of s) true :: EvClose
                     :: failed :: trace w
            end
        end
      else
        result run = Throw e
        /\ _socket (session run) = _socket s
        /\ _reconnect (session run) = _reconnect s
        /\ trace (world run) = failed :: trace w
  end
  /\ (forall e, result run = Throw e ->
      _reconnect (session run) = _reconnect s)
  /\ (forall rc, result run = Ok rc ->
      _reconnect (session run) = false
      /\ forall buffer2 e,
           send_outcome (world run) = Some e ->
           result (write buffer2 (session run) (world run)) = Throw e
           /\ trace (world (write buffer2 (session run) (world run)))
              = EvSend (_socket (session run)) buffer2 false
                :: trace (world run)).
Proof.
  cbv zeta. split; [apply write_run |].
  split; [apply write_Throw_keeps |].
  intros rc Hok.
  pose proof (write_Ok_clears s w buffer rc Hok) as Hflag.
  split; [exact Hflag |].
  intros buffer2 e He.
  pose proof (write_run (session (write buffer s w))
                (world (write buffer s w)) buffer2) as H.
  cbv zeta in H. rewrite He, Hflag in H. cbn in H.
  destruct H as [H1 [_ [_ H2]]]. split; assumption.
Qed.

(** ** Streams over the session *)

Lemma write_frame s w buffer :
  same_but_transport s (session (write buffer s w)).
Proof.
  unfold same_but_transport, write, try_catch, bind, HTTPSession_write, modify,
    ret, throw, gets, close, reconnect, connect, clearException, next_send,
    next_connect, log_event, transport_update.
  destruct (sends w) as [| [e |] l]; cbn; try reflexivity.
  destruct (is_IOException (e_class e)); destruct (_reconnect s) eqn:Hr; cbn;
    try (unfold with_socket, with_pException, with_reconnect; cbn;
         rewrite ?Hr; reflexivity).
  destruct (connects w) as [| [e2 |] lc]; cbn;
    destruct (empty (pc_host (_proxyConfig s)) || bypassProxy _); cbn;
    try destruct l as [| [e3 |] l']; cbn;
    unfold with_socket, with_pException, with_reconnect; cbn;
    rewrite ?Hr; reflexivity.
Qed.

Lemma same_but_transport_refl s : same_but_transport s s.
Proof. unfold same_but_transport, transport_update. destruct s. reflexivity. Qed.

Lemma same_but_transport_trans s s1 s2 :
  same_but_transport s s1 -> same_but_transport s1 s2 ->
  same_but_transport s s2.
Proof.
  unfold same_but_transport. intros H1 H2.
  transitivity (transport_update (_socket s2) (_pException s2) (_reconnect s2)
                  s1); [exact H2 |].
  rewrite H1. reflexivity.
Qed.

Lemma same_but_transport_route s s' :
  same_but_transport s s' -> route_of s' = route_of s.
Proof. intros H. rewrite H. reflexivity. Qed.

Lemma connections_app evs evs' :
  connections (evs ++ evs') = (connections evs ++ connections evs')%list.
Proof. unfold connections. apply flat_map_app. Qed.

Lemma transport_step_refl s w : transport_step s w s w.
Proof.
  unfold transport_step. repeat split; auto.
  exists []. split; [reflexivity | constructor].
Qed.

Lemma transport_step_stream os s w :
  transport_step s w (with_pRequestStream os s) w.
Proof.
  unfold transport_step.
  split; [reflexivity |]. split; [reflexivity |]. split; [reflexivity |].
  split; [intros H; exact H |].
  exists []. split; [reflexivity | constructor].
Qed.

Lemma transport_step_trans s w s1 w1 s2 w2 :
  transport_step s w s1 w1 -> transport_step s1 w1 s2 w2 ->
  transport_step s w s2 w2.
Proof.
  intros [R1 [N1 [H1 [I1 [evs1 [T1 A1]]]]]] [R2 [N2 [H2 [I2 [evs2 [T2 A2]]]]]].
  rewrite R1 in *.
  unfold transport_step.
  split; [congruence |]. split; [congruence |]. split; [congruence |].
  split; [auto |].
  exists (evs2 ++ evs1)%list. split.
  - rewrite T2, T1, app_assoc. reflexivity.
  - rewrite connections_app. apply Forall_app. split; assumption.
Qed.

Lemma write_now buffer s w : now (world (write buffer s w)) = now w.
Proof.
  unfold write, try_catch, bind, HTTPSession_write, modify, ret, throw, gets,
    close, reconnect, connect, clearException, next_send, next_connect,
    log_event.
  destruct (sends w) as [| [e |] l]; cbn; try reflexivity.
  destruct (is_IOException (e_class e)); destruct (_reconnect s); cbn;
    try reflexivity.
  destruct (connects w) as [| [e2 |] lc]; cbn;
    destruct (empty (pc_host (_proxyConfig s)) || bypassProxy _); cbn;
    try destruct l as [| [e3 |] l']; reflexivity.
Qed.

Lemma write_heads buffer s w : heads (world (write buffer s w)) = heads w.
Proof.
  unfold write, try_catch, bind, HTTPSession_write, modify, ret, throw, gets,
    close, reconnect, connect, clearException, next_send, next_connect,
    log_event.
  destruct (sends w) as [| [e |] l]; cbn; try reflexivity.
  destruct (is_IOException (e_class e)); destruct (_reconnect s); cbn;
    try reflexivity.
  destruct (connects w) as [| [e2 |] lc]; cbn;
    destruct (empty (pc_host (_proxyConfig s)) || bypassProxy _); cbn;
    try destruct l as [| [e3 |] l']; reflexivity.
Qed.

Lemma write_connections buffer s w :
  exists evs,
    trace (world (write buffer s w)) = (evs ++ trace w)%list
    /\ Forall (eq (route_of s)) (connections evs).
Proof.
  pose proof (write_run s w buffer) as H. cbv zeta in H.
  destruct (send_outcome w) as [e |].
  - destruct (_reconnect s && is_IOException (e_class e)).
    + destruct (connect_outcome w).
      * destruct H as [_ [_ H]]. rewrite H. eexists [_; _; _].
        split; [reflexivity |]. cbn. repeat constructor.
      * destruct (send_outcome (after_send w)).
        -- destruct H as [_ [_ [_ H]]]. rewrite H. eexists [_; _; _; _].
           split; [reflexivity |]. cbn. repeat constructor.
        -- destruct H as [_ [_ [_ H]]]. rewrite H. eexists [_; _; _; _].
           split; [reflexivity |]. cbn. repeat constructor.
    + destruct H as [_ [_ [_ H]]]. rewrite H. eexists [_].
      split; [reflexivity |]. cbn. constructor.
  - destruct H as [_ [_ H]]. rewrite H. eexists [_].
    split; [reflexivity |]. cbn. constructor.
Qed.

(** A write leaves the transport in order: where it reconnects, it
    connects to the route of the session, and a retry that succeeds clears
    the recorded exception. *)
Lemma write_in_order s w buffer :
  in_order (route_of s) s ->
  in_order (route_of s) (session (write buffer s w)).
Proof.
  unfold in_order.
  unfold write, try_catch, bind, HTTPSession_write, modify, ret, throw, gets,
    close, reconnect, connect, clearException, next_send, next_connect,
    log_event, route_of, bypassProxy.
  destruct (sends w) as [| [e |] l]; cbn; try (intros; auto; fail).
  destruct (is_IOException (e_class e)); destruct (_reconnect s); cbn;
    try (intros; discriminate).
  destruct (connects w) as [| [e2 |] lc]; cbn;
    destruct (empty (pc_host (_proxyConfig s)));
    destruct (empty (pc_nonProxyHosts (_proxyConfig s)));
    try destruct (RegularExpression_match (_host s)
                    (pc_nonProxyHosts (_proxyConfig s))
                    (Z.lor RE_CASELESS RE_ANCHORED));
    cbn; try (intros; discriminate);
    destruct l as [| [e3 |] l']; cbn; intros; try discriminate; reflexivity.
Qed.

Lemma write_step buffer s w :
  transport_step s w (session (write buffer s w)) (world (write buffer s w)).
Proof.
  unfold transport_step.
  split; [apply same_but_transport_route, write_frame |].
  split; [apply write_now |]. split; [apply write_heads |].
  split; [apply write_in_order | apply write_connections].
Qed.

Lemma ostream_write_run bytes os s w :
  ostream_write bytes os s w
  = mkRun (Ok (mkOutputStream (os_kind os) (os_inserted os ++ bytes)
                 (os_count os) (os_pending os ++ bytes))) s w.
Proof. reflexivity. Qed.

(** Passing the buffer on is a step of the transport, and the stream keeps
    its framing and what has been written into it. *)
Lemma ostream_sync_run os s w :
  let run := ostream_sync os s w in
  same_but_transport s (session run)
  /\ transport_step s w (session run) (world run)
  /\ forall os', result run = Ok os' ->
       os_kind os' = os_kind os /\ os_inserted os' = os_inserted os.
Proof.
  cbv zeta.
  assert (D : forall chunk,
    let m := (rc <- write chunk ;;
              ret (mkOutputStream (os_kind os) (os_inserted os)
                     (os_count os + rc) "")) in
    same_but_transport s (session (m s w))
    /\ transport_step s w (session (m s w)) (world (m s w))
    /\ forall os', result (m s w) = Ok os' ->
         os_kind os' = os_kind os /\ os_inserted os' = os_inserted os).
  { intros chunk. cbv zeta.
    pose proof (write_frame s w chunk) as F.
    pose proof (write_step chunk s w) as S.
    unfold bind, ret.
    destruct (write chunk s w) as [[rc | e] s1 w1]; cbn in *;
      (split; [exact F |]); (split; [exact S |]); intros os' H;
      [inversion H; subst; split; reflexivity | discriminate H]. }
  assert (R : forall o : OutputStream,
    os_kind o = os_kind os -> os_inserted o = os_inserted os ->
    same_but_transport s (session (ret o s w))
    /\ transport_step s w (session (ret o s w)) (world (ret o s w))
    /\ forall os', result (ret o s w) = Ok os' ->
         os_kind os' = os_kind os /\ os_inserted os' = os_inserted os).
  { intros o K I. cbn.
    split; [apply same_but_transport_refl |].
    split; [apply transport_step_refl |].
    intros os' H. inversion H; subst. split; assumption. }
  unfold ostream_sync.
  destruct (empty (os_pending os)); [apply R; reflexivity |].
  destruct (os_kind os) as [| | len |] eqn:K; try apply D.
  destruct (os_count os <? len); [apply D | apply R; reflexivity].
Qed.

(** [flush()] returns, whatever the transport does. *)
Lemma ostream_flush_run os s w :
  let run := ostream_flush os s w in
  same_but_transport s (session run)
  /\ transport_step s w (session run) (world run)
  /\ exists os', result run = Ok os'
       /\ os_kind os' = os_kind os /\ os_inserted os' = os_inserted os.
Proof.
  cbv zeta. destruct (ostream_sync_run os s w) as [F [S K]].
  unfold ostream_flush, try_catch, ret.
  destruct (ostream_sync os s w) as [[o | e] s1 w1]; cbn in *;
    (split; [exact F |]); (split; [exact S |]).
  - exists o. split; [reflexivity | apply K; reflexivity].
  - exists os. repeat split.
Qed.

Lemma shutdownSend_step s w :
  transport_step s w (session (shutdownSend s w)) (world (shutdownSend s w)).
Proof.
  unfold transport_step, shutdownSend. cbn. repeat split; auto.
  eexists [_]. split; [reflexivity | constructor].
Qed.

(** Disposing of a stream returns, whatever the transport does. *)
Lemma ostream_close_run os s w :
  let run := ostream_close os s w in
  result run = Ok tt
  /\ same_but_transport s (session run)
  /\ transport_step s w (session run) (world run).
Proof.
  cbv zeta. destruct (ostream_sync_run os s w) as [F [S _]].
  unfold ostream_close, try_catch, bind, ret.
  destruct (ostream_sync os s w) as [[o | e] s1 w1]; cbn in F, S |- *;
    [| split; [reflexivity | split; [exact F | exact S]]].
  destruct (os_kind os) as [| | len |].
  - split; [reflexivity | split; [exact F | exact S]].
  - pose proof (write_frame s1 w1 (chunk_frame "")) as F1.
    pose proof (write_step (chunk_frame "") s1 w1) as S1.
    destruct (write (chunk_frame "") s1 w1) as [[rc | e] s2 w2]; cbn in *;
      (split; [reflexivity |]);
      (split; [exact (same_but_transport_trans _ _ _ F F1)
              | exact (transport_step_trans _ _ _ _ _ _ S S1)]).
  - split; [reflexivity | split; [exact F | exact S]].
  - split; [reflexivity |]. split; [exact F |].
    exact (transport_step_trans _ _ _ _ _ _ S (shutdownSend_step s1 w1)).
Qed.

Lemma rethrow_networkException_run s w :
  rethrow_networkException s w
  = mkRun (match _pException s with
           | Some e => Throw e
           | None => Ok tt
           end) s w.
Proof.
  unfold rethrow_networkException, networkException, bind, gets, throw, ret.
  destruct (_pException s); reflexivity.
Qed.

(** [flushRequest] disposes of the request stream, which is a step of the
    transport, and raises the network exception that the session records
    then. *)
Lemma flushRequest_run s w :
  let run := flushRequest s w in
  _pRequestStream (session run) = None
  /\ same_but_transport (with_pRequestStream None s) (session run)
  /\ transport_step s w (session run) (world run)
  /\ result run
     = match _pException (session run) with
       | Some e => Throw e
       | None => Ok tt
       end.
Proof.
  cbv zeta. unfold flushRequest, bind, gets, modify.
  destruct (_pRequestStream s) as [os |] eqn:P.
  - destruct (ostream_close_run os (with_pRequestStream None s) w)
      as [R [F S]].
    destruct (ostream_close os (with_pRequestStream None s) w)
      as [[u | e] s1 w1]; cbn in R, F, S; [| discriminate R].
    rewrite rethrow_networkException_run. cbn [result session world].
    split; [rewrite F; reflexivity |]. split; [exact F |].
    split; [exact S | reflexivity].
  - assert (N : with_pRequestStream None s = s).
    { unfold with_pRequestStream. rewrite <- P. destruct s; reflexivity. }
    unfold ret. rewrite rethrow_networkException_run.
    cbn [result session world]. rewrite N.
    split; [exact P |]. split; [apply same_but_transport_refl |].
    split; [apply transport_step_refl | reflexivity].
Qed.

(** When [flushRequest] returns, no network exception is recorded. *)
Lemma flushRequest_Ok s w :
  result (flushRequest s w) = Ok tt ->
  _pException (session (flushRequest s w)) = None.
Proof.
  destruct (flushRequest_run s w) as [_ [_ [_ R]]]. rewrite R.
  destruct (_pException (session (flushRequest s w))); [discriminate |].
  reflexivity.
Qed.

(** ** Reading response heads *)

Lemma guarded_read_Ok s w r :
  result (try_catch response_read (fun _ => true) read_failed s w) = Ok r ->
  session (try_catch response_read (fun _ => true) read_failed s w) = s
  /\ exists l, heads w = ReadHead r :: l
     /\ world (try_catch response_read (fun _ => true) read_failed s w)
        = with_heads l w.
Proof.
  unfold try_catch, response_read, next_head, read_failed, bind, close,
    networkException, gets, throw.
  destruct (heads w) as [| [r0 | t [e |]] l]; simpl;
    try (destruct (_pException s); simpl; discriminate); try discriminate.
  intros H. inversion H; subst. split; [reflexivity |].
  exists l. split; reflexivity.
Qed.

(** [receive_heads] is the do-while loop of the source: read a head under
    the catch clause, and again while the status is the continue status. *)
Lemma receive_heads_loop s w :
  receive_heads (heads w) s w
  = (response <- try_catch response_read (fun _ => true) read_failed ;;
     if HTTPResponse.getStatus response =? HTTPResponse.HTTP_CONTINUE
     then fun s' w' => receive_heads (heads w') s' w'
     else ret response) s w.
Proof.
  destruct (heads w) as [| [r0 | t [e |]] l] eqn:Hh; cbn [receive_heads];
    unfold bind, try_catch, response_read, next_head; rewrite Hh; cbn;
    try (destruct (_pException s); reflexivity).
  destruct (HTTPResponse.getStatus r0 =? HTTPResponse.HTTP_CONTINUE);
    reflexivity.
Qed.

(** A head returned by the loop is a final one, and reading leaves the
    session as it was. *)
Lemma receive_heads_Ok hs : forall s w r,
  heads w = hs ->
  result (receive_heads hs s w) = Ok r ->
  session (receive_heads hs s w) = s
  /\ HTTPResponse.getStatus r <> HTTPResponse.HTTP_CONTINUE.
Proof.
  induction hs as [| o hs' IH]; intros s w r Hw H.
  - simpl in *. apply guarded_read_Ok in H.
    destruct H as [_ [l [Hl _]]]. congruence.
  - destruct o as [r0 | t rec]; simpl in *.
    + destruct (HTTPResponse.getStatus r0 =? HTTPResponse.HTTP_CONTINUE) eqn:E.
      * apply IH; [reflexivity | exact H].
      * simpl in H. inversion H; subst. split; [reflexivity |].
        apply Z.eqb_neq. exact E.
    + apply guarded_read_Ok in H.
      destruct H as [_ [l [Hl _]]]. congruence.
Qed.

(** Reading the heads of a response that arrives touches neither the
    transport nor the clock. *)
Lemma receive_heads_quiet hs : forall s w r,
  result (receive_heads hs s w) = Ok r ->
  trace (world (receive_heads hs s w)) = trace w
  /\ now (world (receive_heads hs s w)) = now w.
Proof.
  induction hs as [| o hs' IH]; intros s0 w0 r H.
  - cbn in *.
    revert H. unfold try_catch, response_read, next_head, read_failed, bind,
      close, networkException, gets, throw.
    destruct (heads w0) as [| [r0 | t [e0 |]] l]; cbn;
      try (destruct (_pException s0); cbn; discriminate); try discriminate.
    intros _. split; reflexivity.
  - destruct o as [r0 | t rec]; cbn in *.
    + destruct (HTTPResponse.getStatus r0 =? HTTPResponse.HTTP_CONTINUE).
      * apply (IH s0 (with_heads hs' w0) r H).
      * split; reflexivity.
    + revert H. unfold try_catch, response_read, next_head, read_failed, bind,
        close, networkException, gets, throw.
      destruct (heads w0) as [| [r1 | t1 [e0 |]] l]; cbn;
        try (destruct (_pException s0); cbn; discriminate); try discriminate.
      intros _. split; reflexivity.
Qed.

(** ** peekResponse *)

(** The run of [peekResponse] on a session that has a request stream and
    has not received its response: the stream is flushed, a network
    exception that the session records then is raised, and otherwise a head
    is read. *)
Lemma peekResponse_run response0 s w os :
  _responseReceived s = false ->
  _pRequestStream s = Some os ->
  let flushed := ostream_flush os s w in
  exists os',
    result flushed = Ok os'
    /\ peekResponse response0 s w
       = let s1 := with_pRequestStream (Some os') (session flushed) in
         match _pException s1 with
         | Some e => mkRun (Throw e) s1 (world flushed)
         | None =>
             match try_catch response_read (fun _ => true) read_failed
                     s1 (world flushed) with
             | mkRun (Ok r) s2 w2 =>
                 let final :=
                   negb (HTTPResponse.getStatus r
                         =? HTTPResponse.HTTP_CONTINUE) in
                 mkRun (Ok (r, negb final)) (with_responseReceived final s2) w2
             | mkRun (Throw e) s2 w2 => mkRun (Throw e) s2 w2
             end
         end.
Proof.
  intros Hf Hp. cbv zeta.
  destruct (ostream_flush_run os s w) as [_ [_ [os' [R _]]]].
  exists os'. split; [exact R |].
  unfold peekResponse, bind, gets, poco_assert, modify, ret.
  rewrite Hf. cbn [negb]. rewrite Hp.
  destruct (ostream_flush os s w) as [[o | e] s1 w1]; cbn in R;
    [| discriminate R].
  inversion R; subst o. cbn [result session world].
  rewrite rethrow_networkException_run.
  destruct (_pException (with_pRequestStream (Some os') s1)); [reflexivity |].
  destruct (try_catch response_read (fun _ => true) read_failed
              (with_pRequestStream (Some os') s1) w1) as [[r | e] s2 w2];
    reflexivity.
Qed.

(** C2, as amended: when [peekResponse] reads a response head, the
    pending-response flag becomes true exactly when the status read is not
    the continue status, and the boolean returned is the negation of the
    flag: it is true exactly when the status read is the continue status,
    that is, when no final response has been obtained yet. *)
Theorem peekResponse_flag_and_result
    (s : HTTPClientSession) (w : World) (response0 r : HTTPResponse.t)
    (b : bool) :
  result (peekResponse response0 s w) = Ok (r, b) ->
  _responseReceived (session (peekResponse response0 s w))
    = negb (HTTPResponse.getStatus r =? HTTPResponse.HTTP_CONTINUE)
  /\ b = (HTTPResponse.getStatus r =? HTTPResponse.HTTP_CONTINUE).
Proof.
  intros H.
  destruct (_responseReceived s) eqn:Hf.
  { unfold peekResponse, bind, gets, poco_assert, throw in H.
    rewrite Hf in H. discriminate H. }
  destruct (_pRequestStream s) as [os |] eqn:Hp.
  2: { unfold peekResponse, bind, gets, poco_assert, throw, ret in H.
       rewrite Hf in H. cbn [negb] in H. rewrite Hp in H. discriminate H. }
  destruct (peekResponse_run response0 s w os Hf Hp) as [os' [_ E]].
  rewrite E in H |- *. cbv zeta in H |- *.
  destruct (_pException _); [discriminate H |].
  destruct (try_catch response_read (fun _ => true) read_failed _ _)
    as [[r1 | e] s2 w2]; [| discriminate H].
  cbn in H |- *. inversion H; subst. rewrite negb_involutive.
  split; reflexivity.
Qed.

(** ** receiveResponse *)

(** The run of [receiveResponse]: the request stream is disposed of, a
    network exception that the session records then is raised, and
    otherwise the heads are read, unless the response is there already. *)
Lemma receiveResponse_run response0 s w :
  let flushed := flushRequest s w in
  receiveResponse response0 s w
  = match result flushed with
    | Throw e => mkRun (Throw e) (session flushed) (world flushed)
    | Ok _ =>
        if _responseReceived s then
          let stream := select_input (_expectResponseBody s) response0 in
          mkRun (Ok (response0, stream))
            (received response0 stream (session flushed)) (world flushed)
        else
          match receive_heads (heads w) (session flushed) (world flushed) with
          | mkRun (Ok r) _ w2 =>
              let stream := select_input (_expectResponseBody s) r in
              mkRun (Ok (r, stream)) (received r stream (session flushed)) w2
          | mkRun (Throw e) s2 w2 => mkRun (Throw e) s2 w2
          end
    end.
Proof.
  cbv zeta.
  destruct (flushRequest_run s w) as [_ [F [[_ [_ [Hh _]]] _]]].
  unfold receiveResponse. unfold bind at 1.
  destruct (flushRequest s w) as [[u | e] s1 w1]; cbn [result session world] in *;
    [| reflexivity].
  assert (Hr : _responseReceived s1 = _responseReceived s)
    by (rewrite F; reflexivity).
  assert (Hb : _expectResponseBody s1 = _expectResponseBody s)
    by (rewrite F; reflexivity).
  unfold bind, gets, getKeepAlive, modify, ret, received.
  rewrite Hr. destruct (_responseReceived s); cbn [negb].
  - cbn -[select_input]. rewrite Hb. reflexivity.
  - rewrite Hh.
    pose proof (receive_heads_Ok (heads w) s1 w1) as O.
    destruct (receive_heads (heads w) s1 w1) as [[r | e] s2 w2];
      [| reflexivity].
    destruct (O r Hh eq_refl) as [O1 _]. cbn in O1. subst s2.
    cbn -[select_input]. rewrite Hb. reflexivity.
Qed.

Lemma receiveResponse_Ok s w response0 response stream :
  result (receiveResponse response0 s w) = Ok (response, stream) ->
  stream = select_input (_expectResponseBody s) response
  /\ _pResponseStream (session (receiveResponse response0 s w)) = Some stream
  /\ (_responseReceived s = false ->
      HTTPResponse.getStatus response <> HTTPResponse.HTTP_CONTINUE).
Proof.
  rewrite receiveResponse_run. cbv zeta.
  destruct (flushRequest_run s w) as [_ [_ [[_ [_ [Hh _]]] _]]].
  destruct (result (flushRequest s w)) as [u | e]; [| discriminate].
  destruct (_responseReceived s).
  - cbn. intros H. inversion H; subst.
    split; [reflexivity |]. split; [reflexivity |]. discriminate.
  - pose proof (receive_heads_Ok (heads w) (session (flushRequest s w))
                  (world (flushRequest s w))) as O.
    destruct (receive_heads (heads w) (session (flushRequest s w))
                (world (flushRequest s w))) as [[r | e] s2 w2];
      [| discriminate].
    cbn. intros H. inversion H; subst.
    destruct (O response Hh eq_refl) as [_ Hc].
    split; [reflexivity |]. split; [reflexivity |]. intros _. exact Hc.
Qed.



(** ** sendRequest *)

Lemma open_request_stream_run request s w :
  exists os,
    result (open_request_stream request s w) = Ok tt
    /\ same_but_transport (with_pRequestStream (Some os) s)
         (session (open_request_stream request s w))
    /\ os_kind os = output_kind_of request
    /\ (HTTPRequest.getChunkedTransferEncoding request = false ->
        os_inserted os = serialize request).
Proof.
  assert (W : forall k s0,
    exists os,
      result (write_request_stream request
                (with_pRequestStream (Some (new_ostream k)) s0) w) = Ok tt
      /\ same_but_transport (with_pRequestStream (Some os) s0)
           (session (write_request_stream request
                       (with_pRequestStream (Some (new_ostream k)) s0) w))
      /\ os_kind os = k
      /\ os_inserted os = serialize request).
  { intros k s0.
    exists (mkOutputStream k (serialize request) 0 (serialize request)).
    split; [reflexivity |]. split; [| split; reflexivity].
    apply same_but_transport_refl. }
  unfold open_request_stream, output_kind_of.
  destruct (HTTPRequest.getChunkedTransferEncoding request).
  - unfold bind, modify. rewrite ostream_write_run.
    match goal with
    | |- context [ostream_close ?o ?s1 w] =>
        destruct (ostream_close_run o s1 w) as [R [F _]];
        destruct (ostream_close o s1 w) as [[u | e] s2 w2];
        cbn in R, F; [| discriminate R]
    end.
    exists (new_ostream HTTPChunkedOutputStream).
    split; [exact R |]. split; [exact F |].
    split; [reflexivity | discriminate].
  - destruct (HTTPRequest.hasContentLength request);
      [| destruct (_ || _)];
      unfold bind at 1, modify at 1;
      match goal with
      | |- context [new_ostream ?k] => destruct (W k s) as [os [R [F [K I]]]]
      end;
      exists os; repeat split; auto.
Qed.

(** Opening the request stream is a step of the transport: nothing is sent
    but the head of a chunked request. *)
Lemma open_request_stream_step request s w :
  transport_step s w (session (open_request_stream request s w))
    (world (open_request_stream request s w)).
Proof.
  unfold open_request_stream.
  destruct (HTTPRequest.getChunkedTransferEncoding request).
  - unfold bind, modify. rewrite ostream_write_run.
    match goal with
    | |- context [ostream_close ?o ?s1 w] =>
        destruct (ostream_close_run o s1 w) as [_ [_ S]];
        destruct (ostream_close o s1 w) as [[u | e] s2 w2]; exact S
    end.
  - destruct (HTTPRequest.hasContentLength request);
      [| destruct (_ || _)];
      match goal with
      | |- context [new_ostream ?k] =>
          exact (transport_step_stream
                   (Some (mkOutputStream k (serialize request) 0
                            (serialize request))) s w)
      end.
Qed.

Lemma reconnect_run s w :
  reconnect s w
  = match connect_outcome w with
    | None =>
        mkRun (Ok tt) (with_socket (Some (route_of s)) s)
          (log_event (EvConnect (route_of s) true) (snd (next_connect w)))
    | Some e =>
        mkRun (Throw e) s
          (log_event (EvConnect (route_of s) false) (snd (next_connect w)))
    end.
Proof.
  unfold reconnect, bind, gets, connect, connect_outcome, route_of. cbn.
  destruct (empty (pc_host (_proxyConfig s)) || bypassProxy s);
    destruct (next_connect w) as [[e |] w']; reflexivity.
Qed.

Lemma sendRequest_try_run keepAlive request s w :
  match connect_outcome w with
  | Some e =>
      sendRequest_try keepAlive request s w
      = mkRun (Throw e) s
          (log_event (EvConnect (route_of s) false) (snd (next_connect w)))
  | None =>
      exists os,
        result (sendRequest_try keepAlive request s w)
        = Ok (prepared_request s keepAlive request, os)
        /\ _pRequestStream (session (sendRequest_try keepAlive request s w))
           = Some os
        /\ os_kind os = output_kind_of (prepared_request s keepAlive request)
        /\ (HTTPRequest.getChunkedTransferEncoding
              (prepared_request s keepAlive request) = false ->
            os_inserted os = serialize (prepared_request s keepAlive request))
        /\ _expectResponseBody (session (sendRequest_try keepAlive request s w))
           = negb (String.eqb
                     (HTTPRequest.getMethod (prepared_request s keepAlive request))
                     HTTPRequest.HTTP_HEAD)
  end.
Proof.
  cbv beta iota delta [sendRequest_try bind connected gets when logger_debug
                         ret modify clock].
  destruct (negb (connected_of s)); cbv beta iota;
    rewrite reconnect_run;
    (destruct (connect_outcome w) as [e |]; [reflexivity |]);
    change (prepared_request (with_socket (Some (route_of s)) s) keepAlive request)
      with (prepared_request s keepAlive request);
    set (request' := prepared_request s keepAlive request);
    cbv beta iota zeta;
    match goal with
    | |- context [open_request_stream request' ?s1 ?w1] =>
        destruct (open_request_stream_run request' s1 w1) as [os [R [F [K I]]]];
        destruct (open_request_stream request' s1 w1) as [[u | e] s2 w2];
        cbn in R, F; [| discriminate R]
    end;
    unfold same_but_transport in F; rewrite F; cbn;
    exists os; repeat split; assumption.
Qed.

Lemma entering_facts s w :
  connect_outcome (entering_world s w) = connect_outcome w
  /\ route_of (entering_session s w) = route_of s
  /\ _keepAlive (entering_session s w) = _keepAlive s
  /\ _pRequestStream (entering_session s w) = None
  /\ (forall keepAlive request,
        prepared_request (entering_session s w) keepAlive request
        = prepared_request s keepAlive request).
Proof.
  unfold entering_world, entering_session, connect_outcome, next_connect.
  destruct (closes_first s w); cbn;
    (split; [destruct (connects w); reflexivity |]);
    (split; [reflexivity |]); (split; [reflexivity |]);
    (split; [reflexivity |]); intros; reflexivity.
Qed.

Lemma sendRequest_unfold request s w :
  sendRequest request s w
  = try_catch (sendRequest_try (_keepAlive s) request) (fun _ => true)
      (fun e => close ;; throw e) (entering_session s w) (entering_world s w).
Proof.
  unfold sendRequest, entering_session, entering_world, closes_first, cleared,
    bind, modify, clearException, getKeepAlive, connected, gets,
    mustReconnect, when, close, ret, connected_of.
  cbn -[sendRequest_try].
  destruct (_mustReconnect s); cbn -[sendRequest_try];
    destruct (_socket s), (_keepAlive s), (empty (_host s));
    cbn -[sendRequest_try]; try reflexivity;
    destruct (_keepAliveTimeout s <=? now w - _lastRequest s); reflexivity.
Qed.

Lemma sendRequest_run request s w :
  match connect_outcome w with
  | Some e =>
      result (sendRequest request s w) = Throw e
      /\ session (sendRequest request s w)
         = with_socket None (entering_session s w)
      /\ trace (world (sendRequest request s w))
         = EvClose :: EvConnect (route_of s) false
           :: trace (entering_world s w)
  | None =>
      exists os,
        result (sendRequest request s w)
        = Ok (prepared_request s (_keepAlive s) request, os)
        /\ _pRequestStream (session (sendRequest request s w)) = Some os
        /\ os_kind os
           = output_kind_of (prepared_request s (_keepAlive s) request)
        /\ (HTTPRequest.getChunkedTransferEncoding
              (prepared_request s (_keepAlive s) request) = false ->
            os_inserted os
            = serialize (prepared_request s (_keepAlive s) request))
        /\ _expectResponseBody (session (sendRequest request s w))
           = negb (String.eqb
                     (HTTPRequest.getMethod
                        (prepared_request s (_keepAlive s) request))
                     HTTPRequest.HTTP_HEAD)
  end.
Proof.
  rewrite sendRequest_unfold.
  destruct (entering_facts s w) as [Hc [Hr [Hk [Hp Hq]]]].
  pose proof (sendRequest_try_run (_keepAlive s) request
                (entering_session s w) (entering_world s w)) as H.
  rewrite Hc, Hr in H. unfold try_catch.
  destruct (connect_outcome w) as [e |].
  - rewrite H. cbn. repeat split.
    unfold next_connect. destruct (connects (entering_world s w)); reflexivity.
  - destruct H as [os [R [P [K [I B]]]]]. rewrite Hq in *.
    destruct (sendRequest_try (_keepAlive s) request (entering_session s w)
                (entering_world s w)) as [[a | e] s1 w1]; cbn in *;
      [| discriminate R].
    exists os. repeat split; assumption.
Qed.

Lemma sendRequest_Ok request s w request' os :
  result (sendRequest request s w) = Ok (request', os) ->
  connect_outcome w = None
  /\ request' = prepared_request s (_keepAlive s) request
  /\ _pRequestStream (session (sendRequest request s w)) = Some os
  /\ os_kind os = output_kind_of request'
  /\ (HTTPRequest.getChunkedTransferEncoding request' = false ->
      os_inserted os = serialize request')
  /\ _expectResponseBody (session (sendRequest request s w))
     = negb (String.eqb (HTTPRequest.getMethod request') HTTPRequest.HTTP_HEAD).
Proof.
  intros H. pose proof (sendRequest_run request s w) as R.
  destruct (connect_outcome w) as [e |].
  - destruct R as [R _]. rewrite R in H. discriminate H.
  - destruct R as [os' [R [P [K [I B]]]]]. rewrite R in H.
    inversion H; subst. repeat split; assumption.
Qed.

Lemma sendRequest_Throw request s w e :
  result (sendRequest request s w) = Throw e ->
  connect_outcome w = Some e
  /\ session (sendRequest request s w) = with_socket None (entering_session s w)
  /\ trace (world (sendRequest request s w))
     = EvClose :: EvConnect (route_of s) false :: trace (entering_world s w).
Proof.
  intros H. pose proof (sendRequest_run request s w) as R.
  destruct (connect_outcome w) as [e0 |].
  - destruct R as [R [S T]]. rewrite R in H. inversion H; subst.
    repeat split; assumption.
  - destruct R as [os' [R _]]. rewrite R in H. discriminate H.
Qed.

(** What is done to the request leaves its method and its framing alone. *)
Lemma prepared_request_framing this keepAlive request :
  HTTPRequest.getMethod (prepared_request this keepAlive request)
    = HTTPRequest.getMethod request
  /\ HTTPRequest.getChunkedTransferEncoding (prepared_request this keepAlive request)
     = HTTPRequest.getChunkedTransferEncoding request
  /\ HTTPRequest.contentLength (prepared_request this keepAlive request)
     = HTTPRequest.contentLength request.
Proof.
  unfold prepared_request, proxyAuthenticate, proxyAuthenticateImpl,
    HTTPBasicCredentials_proxyAuthenticate.
  repeat match goal with
         | |- context [if ?b then _ else _] => destruct b; cbn
         end;
    repeat split.
Qed.

Lemma wrap64_small z : - 2 ^ 63 <= z < 2 ^ 63 -> wrap64 z = z.
Proof. intros H. unfold wrap64. rewrite Z.mod_small; lia. Qed.

Lemma wrap64_large z : 2 ^ 63 <= z < 2 ^ 64 -> wrap64 z = z - 2 ^ 64.
Proof.
  intros H. unfold wrap64.
  replace (z + 2 ^ 63) with ((z - 2 ^ 63) + 1 * 2 ^ 64) by lia.
  rewrite Z.mod_add by lia. rewrite Z.mod_small; lia.
Qed.


(** C5, as amended: for a request that is not chunked and declares the
    content length [n], the stream that [sendRequest] constructs, stores
    and returns is a fixed-length stream whose length is the 64-bit sum of
    [n] and the number of bytes of the serialized head (as counted by the
    trial write), and the head has been written into that stream.  The
    length is [n] plus the bytes of the head where that sum is a 64-bit
    integer; a larger sum wraps around. *)
Theorem sendRequest_fixed_length
    (request : HTTPRequest.t) (s : HTTPClientSession) (w : World)
    (request' : HTTPRequest.t) (os : OutputStream) (n : Z) :
  result (sendRequest request s w) = Ok (request', os) ->
  HTTPRequest.getChunkedTransferEncoding request = false ->
  HTTPRequest.contentLength request = Some n ->
  counted request' = strlen (serialize request')
  /\ os_kind os
     = HTTPFixedLengthOutputStream (wrap64 (n + strlen (serialize request')))
  /\ (- 2 ^ 63 <= n + strlen (serialize request') < 2 ^ 63 ->
      os_kind os
      = HTTPFixedLengthOutputStream (n + strlen (serialize request')))
  /\ (2 ^ 63 <= n + strlen (serialize request') < 2 ^ 64 ->
      os_kind os
      = HTTPFixedLengthOutputStream
          (n + strlen (serialize request') - 2 ^ 64))
  /\ os_inserted os = serialize request'
  /\ _pRequestStream (session (sendRequest request s w)) = Some os.
Proof.
  intros H Hc Hn.
  destruct (sendRequest_Ok request s w request' os H)
    as [_ [Hq [Hp [Hk [Hi _]]]]].
  destruct (prepared_request_framing s (_keepAlive s) request) as [_ [Fc Fn]].
  rewrite <- Hq in Fc, Fn. rewrite Hc in Fc. rewrite Hn in Fn.
  assert (K : os_kind os
              = HTTPFixedLengthOutputStream
                  (wrap64 (n + strlen (serialize request')))).
  { rewrite Hk. unfold output_kind_of, HTTPRequest.hasContentLength,
      HTTPRequest.getContentLength64, counted.
    rewrite Fc, Fn. reflexivity. }
  split; [reflexivity |]. split; [exact K |].
  split; [intros Hr; rewrite K, wrap64_small by exact Hr; reflexivity |].
  split; [intros Hr; rewrite K, wrap64_large by exact Hr; reflexivity |].
  split; [apply Hi; exact Fc | exact Hp].
Qed.

(** ** Headers *)

Lemma iequal_refl a : iequal a a = true.
Proof. unfold iequal. apply String.eqb_refl. Qed.

Lemma iequal_trans a b c :
  iequal a b = true -> iequal b c = true -> iequal a c = true.
Proof.
  unfold iequal. rewrite !String.eqb_eq. intros H1 H2. congruence.
Qed.

Lemma iequal_sym a b : iequal a b = iequal b a.
Proof. unfold iequal. apply String.eqb_sym. Qed.

Lemma NameValueCollection_has_set name value h :
  NameValueCollection.has name (NameValueCollection.set name value h) = true.
Proof.
  induction h as [| [n v] h' IH]; cbn.
  - rewrite iequal_refl. reflexivity.
  - destruct (iequal n name) eqn:E; cbn; rewrite E; [reflexivity | exact IH].
Qed.

Lemma NameValueCollection_get_set name value h :
  NameValueCollection.get name (NameValueCollection.set name value h)
  = Some value.
Proof.
  induction h as [| [n v] h' IH]; cbn.
  - rewrite iequal_refl. reflexivity.
  - destruct (iequal n name) eqn:E; cbn; rewrite E; [reflexivity | exact IH].
Qed.

Lemma NameValueCollection_get_set_other name other value h :
  iequal name other = false ->
  NameValueCollection.get other (NameValueCollection.set name value h)
  = NameValueCollection.get other h.
Proof.
  intros Hne. induction h as [| [n v] h' IH]; cbn.
  - rewrite Hne. reflexivity.
  - destruct (iequal n name) eqn:E; cbn.
    + destruct (iequal n other) eqn:E'; [| reflexivity].
      rewrite iequal_sym in E.
      rewrite (iequal_trans name n other E E') in Hne. discriminate Hne.
    + destruct (iequal n other); [reflexivity | exact IH].
Qed.

(** ** Proxy: rewriting and authentication *)

(** The request as [sendRequest] returns it, on a session with a proxy
    host: the request that a session without proxy sends when the target
    bypasses the proxy, and otherwise that request with the absolute target
    and with the authentication of [proxyAuthenticateImpl]. *)
Lemma prepared_request_proxy this keepAlive request :
  empty (pc_host (_proxyConfig this)) = false ->
  let direct :=
    prepared_request (with_proxyConfig ProxyConfig_new this) keepAlive request in
  HTTPRequest.uri direct = HTTPRequest.uri request
  /\ HTTPRequest.get HTTPRequest.PROXY_AUTHORIZATION direct
     = HTTPRequest.get HTTPRequest.PROXY_AUTHORIZATION request
  /\ prepared_request this keepAlive request
     = if bypassProxy this then direct
       else proxyAuthenticateImpl this
              (HTTPRequest.setURI
                 (NumberFormatter_append ("http://" ++ _host this ++ ":")
                    (_port this) ++ HTTPRequest.uri request) direct).
Proof.
  intros Hp. cbv zeta. unfold prepared_request, proxyAuthenticate.
  rewrite Hp. cbn [with_proxyConfig _proxyConfig _host _port ProxyConfig_new
                   pc_host empty negb andb].
  split; [| split].
  - destruct (negb keepAlive); cbn;
      match goal with
      | |- context [if ?b then _ else _] => destruct b
      end; reflexivity.
  - destruct (negb keepAlive); cbn;
      match goal with
      | |- context [if ?b then _ else _] => destruct b
      end; try reflexivity;
      unfold HTTPRequest.get, HTTPRequest.set; cbn;
      apply NameValueCollection_get_set_other; reflexivity.
  - destruct (bypassProxy this); cbn [negb]; [reflexivity |].
    f_equal. f_equal. f_equal.
    destruct (negb keepAlive); cbn;
      match goal with
      | |- context [if ?b then _ else _] => destruct b
      end; reflexivity.
Qed.

(** C9, as amended: on a session with a proxy host, a request whose target
    host matches the non-proxy pattern, with the caseless and anchored
    options, leaves [sendRequest] as a session without proxy sends it: the
    target is not rewritten and no proxy header is added.  When the host
    does not match, or the pattern is empty, the target is rewritten to
    [http://host:port] followed by the original target, and the proxy
    credential header is added when the proxy user name is not empty; with
    an empty user name the headers stay as they are. *)
Theorem sendRequest_proxy_or_bypass
    (request : HTTPRequest.t) (s : HTTPClientSession) (w : World)
    (request' : HTTPRequest.t) (os : OutputStream) :
  result (sendRequest request s w) = Ok (request', os) ->
  empty (pc_host (_proxyConfig s)) = false ->
  let pattern := pc_nonProxyHosts (_proxyConfig s) in
  let matched :=
    negb (empty pattern)
    && RegularExpression_match (_host s) pattern (Z.lor RE_CASELESS RE_ANCHORED) in
  let direct :=
    prepared_request (with_proxyConfig ProxyConfig_new s) (_keepAlive s) request in
  let absolute :=
    NumberFormatter_append ("http://" ++ _host s ++ ":") (_port s)
    ++ HTTPRequest.uri request in
  if matched then
    request' = direct
    /\ HTTPRequest.uri request' = HTTPRequest.uri request
    /\ HTTPRequest.get HTTPRequest.PROXY_AUTHORIZATION request'
       = HTTPRequest.get HTTPRequest.PROXY_AUTHORIZATION request
  else
    HTTPRequest.uri request' = absolute
    /\ if empty (pc_username (_proxyConfig s)) then
         request' = HTTPRequest.setURI absolute direct
       else
         request'
         = HTTPRequest.set HTTPRequest.PROXY_AUTHORIZATION
             (basic_value (pc_username (_proxyConfig s))
                (pc_password (_proxyConfig s)))
             (HTTPRequest.setURI absolute direct)
         /\ HTTPRequest.get HTTPRequest.PROXY_AUTHORIZATION request'
            = Some (basic_value (pc_username (_proxyConfig s))
                      (pc_password (_proxyConfig s))).
Proof.
  intros H Hp. cbv zeta.
  destruct (sendRequest_Ok request s w request' os H) as [_ [Hq _]].
  destruct (prepared_request_proxy s (_keepAlive s) request Hp)
    as [Hu [Hg Hr]].
  rewrite Hr in Hq. clear Hr. unfold bypassProxy in Hq.
  destruct (empty (pc_nonProxyHosts (_proxyConfig s))); cbn [negb andb] in *;
    [| destruct (RegularExpression_match (_host s)
                   (pc_nonProxyHosts (_proxyConfig s))
                   (Z.lor RE_CASELESS RE_ANCHORED))].
  2: { subst request'. repeat split; assumption. }
  all: unfold proxyAuthenticateImpl, HTTPBasicCredentials_proxyAuthenticate in Hq;
    destruct (empty (pc_username (_proxyConfig s))); cbn [negb] in Hq;
    subst request'; repeat split;
    unfold HTTPRequest.get, HTTPRequest.set; cbn;
    apply NameValueCollection_get_set.
Qed.

(** ** The transport events of sendRequest *)

Lemma open_request_stream_extends request s w :
  extends w (world (open_request_stream request s w)).
Proof.
  destruct (open_request_stream_step request s w)
    as [_ [_ [_ [_ [evs [E _]]]]]].
  exists evs. exact E.
Qed.

Lemma sendRequest_try_trace keepAlive request s w :
  exists ok evs,
    trace (world (sendRequest_try keepAlive request s w))
    = (evs ++ EvConnect (route_of s) ok :: trace w)%list.
Proof.
  pose proof (sendRequest_try_run keepAlive request s w) as R.
  assert (T : trace (snd (next_connect w)) = trace w)
    by (unfold next_connect; destruct (connects w); reflexivity).
  destruct (connect_outcome w) as [e |] eqn:C.
  - rewrite R. exists false, []. cbn. rewrite T. reflexivity.
  - clear R. exists true. revert C.
    cbv beta iota delta [sendRequest_try bind connected gets when logger_debug
                           ret modify clock].
    intros C.
    destruct (negb (connected_of s)); cbv beta iota;
      rewrite reconnect_run, C; cbv beta iota zeta;
      match goal with
      | |- context [open_request_stream ?r ?s1 ?w1] =>
          destruct (open_request_stream_extends r s1 w1) as [evs E];
          destruct (open_request_stream r s1 w1) as [[u | e] s2 w2]
      end;
      cbn in E; exists evs;
      try (destruct (_pRequestStream _)); cbn; rewrite E, T; reflexivity.
Qed.

Lemma sendRequest_trace request s w :
  exists ok evs,
    trace (world (sendRequest request s w))
    = (evs ++ EvConnect (route_of s) ok :: trace (entering_world s w))%list.
Proof.
  rewrite sendRequest_unfold.
  destruct (entering_facts s w) as [_ [Hr _]].
  destruct (sendRequest_try_trace (_keepAlive s) request
              (entering_session s w) (entering_world s w)) as [ok [evs E]].
  rewrite Hr in E. unfold try_catch.
  destruct (sendRequest_try (_keepAlive s) request (entering_session s w)
              (entering_world s w)) as [[a | e] s1 w1]; cbn in E |- *.
  - exists ok, evs. exact E.
  - exists ok, (EvClose :: evs). rewrite E. reflexivity.
Qed.



(** ** What sendRequest leaves as it was *)

Lemma open_request_stream_now request s w :
  now (world (open_request_stream request s w)) = now w.
Proof.
  destruct (open_request_stream_step request s w) as [_ [N _]]. exact N.
Qed.

(** What the try block of [sendRequest] leaves as it was, and the time of
    the last request. *)
Lemma sendRequest_try_frame keepAlive request s w :
  let s' := session (sendRequest_try keepAlive request s w) in
  configuration s' = configuration s
  /\ _mustReconnect s' = _mustReconnect s
  /\ _responseReceived s' = _responseReceived s
  /\ _pResponseStream s' = _pResponseStream s
  /\ _lastRequest s'
     = match connect_outcome w with
       | None => now w
       | Some _ => _lastRequest s
       end.
Proof.
  cbv zeta.
  assert (T : now (snd (next_connect w)) = now w)
    by (unfold next_connect; destruct (connects w); reflexivity).
  pose proof (sendRequest_try_run keepAlive request s w) as R.
  destruct (connect_outcome w) as [e |] eqn:C.
  - rewrite R. cbn. repeat split.
  - clear R. revert C.
    cbv beta iota delta [sendRequest_try bind connected gets when logger_debug
                           ret modify clock].
    intros C.
    destruct (negb (connected_of s)); cbv beta iota;
      rewrite reconnect_run, C; cbv beta iota zeta;
      match goal with
      | |- context [open_request_stream ?r ?s1 ?w1] =>
          destruct (open_request_stream_run r s1 w1) as [os [R [F [K I]]]];
          pose proof (open_request_stream_now r s1 w1) as N;
          destruct (open_request_stream r s1 w1) as [[u | e] s2 w2];
          cbn in R, F, N; [| discriminate R]
      end;
      unfold same_but_transport in F; rewrite F; cbn;
      rewrite N, T; repeat split.
Qed.

(** What [sendRequest] leaves as it was, what it resets, and the time of
    the last request. *)
Lemma sendRequest_frame request s w :
  let s' := session (sendRequest request s w) in
  configuration s' = configuration s
  /\ _mustReconnect s' = (if closes_first s w then false else _mustReconnect s)
  /\ _responseReceived s' = false
  /\ _pResponseStream s' = None
  /\ _lastRequest s'
     = match connect_outcome w with
       | None => now w
       | Some _ => _lastRequest s
       end.
Proof.
  cbv zeta. rewrite sendRequest_unfold.
  destruct (entering_facts s w) as [Hc _].
  pose proof (sendRequest_try_frame (_keepAlive s) request
                (entering_session s w) (entering_world s w)) as F.
  cbv zeta in F. rewrite Hc in F.
  assert (N : now (entering_world s w) = now w)
    by (unfold entering_world; destruct (closes_first s w); reflexivity).
  rewrite N in F.
  assert (E : configuration (entering_session s w) = configuration s
              /\ _mustReconnect (entering_session s w)
                 = (if closes_first s w then false else _mustReconnect s)
              /\ _responseReceived (entering_session s w) = false
              /\ _pResponseStream (entering_session s w) = None
              /\ _lastRequest (entering_session s w) = _lastRequest s).
  { unfold entering_session. destruct (closes_first s w); repeat split. }
  destruct E as [E1 [E2 [E3 [E4 E5]]]].
  rewrite E1, E2, E3, E4, E5 in F.
  unfold try_catch, bind, close, throw.
  destruct (sendRequest_try (_keepAlive s) request (entering_session s w)
              (entering_world s w)) as [[a | e] s1 w1]; cbn in F |- *;
    exact F.
Qed.

(** ** The connection after sendRequest and receiveResponse *)

Lemma open_request_stream_in_order request s w :
  in_order (route_of s) s ->
  in_order (route_of s) (session (open_request_stream request s w)).
Proof.
  destruct (open_request_stream_step request s w) as [_ [_ [_ [I _]]]].
  exact I.
Qed.

Lemma sendRequest_try_in_order keepAlive request s w :
  _pException s = None ->
  connect_outcome w = None ->
  in_order (route_of s) (session (sendRequest_try keepAlive request s w)).
Proof.
  intros N C.
  cbv beta iota delta [sendRequest_try bind connected gets when logger_debug
                         ret modify clock].
  destruct (negb (connected_of s)); cbv beta iota;
    rewrite reconnect_run, C; cbv beta iota zeta;
    match goal with
    | |- context [open_request_stream ?r ?s1 ?w1] =>
        pose proof (open_request_stream_in_order r s1 w1) as O;
        destruct (open_request_stream r s1 w1) as [[u | e] s2 w2]
    end;
    cbn in O |- *;
    try (destruct (_pRequestStream s2)); cbn;
    unfold in_order in *; cbn; apply O; auto.
Qed.

Lemma sendRequest_in_order request s w request' os :
  result (sendRequest request s w) = Ok (request', os) ->
  in_order (route_of s) (session (sendRequest request s w)).
Proof.
  intros H. destruct (sendRequest_Ok request s w request' os H) as [C _].
  rewrite sendRequest_unfold.
  destruct (entering_facts s w) as [Hc [Hr _]].
  assert (N : _pException (entering_session s w) = None)
    by (unfold entering_session; destruct (closes_first s w); reflexivity).
  rewrite <- Hc in C.
  pose proof (sendRequest_try_in_order (_keepAlive s) request
                (entering_session s w) (entering_world s w) N C) as I.
  pose proof (sendRequest_try_run (_keepAlive s) request
                (entering_session s w) (entering_world s w)) as R.
  rewrite C in R. destruct R as [os' [R _]].
  rewrite Hr in I. unfold try_catch.
  destruct (sendRequest_try (_keepAlive s) request (entering_session s w)
              (entering_world s w)) as [[a | e] s1 w1]; cbn in *;
    [exact I | discriminate R].
Qed.

Lemma configuration_route s s' :
  configuration s' = configuration s -> route_of s' = route_of s.
Proof.
  unfold configuration, route_of, bypassProxy. intros H. inversion H.
  congruence.
Qed.

Lemma sendRequest_route request s w :
  route_of (session (sendRequest request s w)) = route_of s.
Proof.
  apply configuration_route.
  destruct (sendRequest_frame request s w) as [F _]. exact F.
Qed.

(** The session and the world after a [receiveResponse] that returns:
    [flushRequest] has returned, and the response has been read in the
    world that it left. *)
Lemma receiveResponse_session response0 s w response stream :
  result (receiveResponse response0 s w) = Ok (response, stream) ->
  let flushed := flushRequest s w in
  result flushed = Ok tt
  /\ session (receiveResponse response0 s w)
     = received response stream (session flushed)
  /\ trace (world (receiveResponse response0 s w)) = trace (world flushed)
  /\ now (world (receiveResponse response0 s w)) = now w.
Proof.
  rewrite receiveResponse_run. cbv zeta.
  destruct (flushRequest_run s w) as [_ [_ [[_ [Hn _]] _]]].
  destruct (result (flushRequest s w)) as [[] | e]; [| discriminate].
  destruct (_responseReceived s).
  - cbn [result session world]. intros H. inversion H; subst.
    split; [reflexivity |]. split; [reflexivity |].
    split; [reflexivity | exact Hn].
  - pose proof (receive_heads_quiet (heads w) (session (flushRequest s w))
                  (world (flushRequest s w))) as Q.
    destruct (receive_heads (heads w) (session (flushRequest s w))
                (world (flushRequest s w))) as [[r | e] s2 w2];
      [| discriminate].
    cbn [result session world] in *. intros H. inversion H; subst.
    destruct (Q response eq_refl) as [Q1 Q2].
    split; [reflexivity |]. split; [reflexivity |].
    split; [exact Q1 | congruence].
Qed.

(** A [receiveResponse] that returns leaves the session connected to its
    route, when the transport was in order. *)
Lemma receiveResponse_in_order response0 s w response stream :
  result (receiveResponse response0 s w) = Ok (response, stream) ->
  in_order (route_of s) s ->
  _socket (session (receiveResponse response0 s w)) = Some (route_of s).
Proof.
  intros H I.
  destruct (receiveResponse_session response0 s w response stream H)
    as [R [S _]].
  rewrite S. unfold received.
  cbn [_socket with_pResponseStream with_mustReconnect].
  destruct (flushRequest_run s w) as [_ [_ [[_ [_ [_ [O _]]]] _]]].
  apply O; [exact I | apply flushRequest_Ok; exact R].
Qed.

(** ** proxyConnect and proxyTunnel *)

(** C8, as amended: the negotiation of a tunnel is an exchange on a nested
    session that has no proxy of its own, connects to the proxy and sends
    the CONNECT request as it is: the request names the target host and
    port and carries [Proxy-Connection: keep-alive], and it carries the
    proxy credentials when the proxy user name is not empty (with an empty
    user name there is no credential header).  When the exchange ends with
    a status other than 200, [proxyTunnel] raises the proxy error with the
    reason phrase of the response and the outer session is unchanged; with
    status 200 the socket of the nested session, which is connected to the
    proxy, becomes the socket of the outer session; a failure of the
    exchange leaves the outer session unchanged too. *)
Theorem proxyTunnel_negotiation (s : HTTPClientSession) (w : World) :
  let proxy :=
    mkSocketAddress (pc_host (_proxyConfig s)) (pc_port (_proxyConfig s)) in
  let proxySession :=
    with_keepAlive true
      (with_timeout (_timeout s)
         (HTTPClientSession_new (addr_host proxy) (addr_port proxy)
            ProxyConfig_new (now w))) in
  let proxyRequest := proxyRequest_of s in
  let negotiation :=
    (sent <- sendRequest proxyRequest ;; receiveResponse HTTPResponse.new)
      proxySession w in
  let username := pc_username (_proxyConfig s) in
  empty (pc_host (_proxyConfig proxySession)) = true
  /\ route_of proxySession = proxy
  /\ prepared_request proxySession true proxyRequest = proxyRequest
  /\ HTTPRequest.method proxyRequest = "CONNECT"
  /\ HTTPRequest.uri proxyRequest
     = NumberFormatter_append (_host s ++ ":") (_port s)
  /\ HTTPRequest.get "Proxy-Connection" proxyRequest = Some "keep-alive"
  /\ HTTPRequest.get HTTPRequest.PROXY_AUTHORIZATION proxyRequest
     = (if empty username then None
        else Some (basic_value username (pc_password (_proxyConfig s))))
  /\ match result negotiation with
     | Ok (proxyResponse, _) =>
         if HTTPResponse.getStatus proxyResponse =? HTTPResponse.HTTP_OK then
           _socket (session negotiation) = Some proxy
           /\ proxyTunnel s w
              = mkRun (Ok tt) (with_socket (_socket (session negotiation)) s)
                  (world negotiation)
         else
           proxyTunnel s w
           = mkRun (Throw (mkException HTTPException
                             "Cannot establish proxy connection"
                             (HTTPResponse.getReason proxyResponse)))
               s (world negotiation)
     | Throw e => proxyTunnel s w = mkRun (Throw e) s (world negotiation)
     end.
Proof.
  cbv zeta.
  split; [reflexivity |]. split; [reflexivity |].
  split.
  { unfold prepared_request, proxyRequest_of, proxyAuthenticateImpl,
      HTTPBasicCredentials_proxyAuthenticate.
    destruct (empty (pc_username (_proxyConfig s))); reflexivity. }
  split.
  { unfold proxyRequest_of, proxyAuthenticateImpl,
      HTTPBasicCredentials_proxyAuthenticate.
    destruct (empty (pc_username (_proxyConfig s))); reflexivity. }
  split.
  { unfold proxyRequest_of, proxyAuthenticateImpl,
      HTTPBasicCredentials_proxyAuthenticate.
    destruct (empty (pc_username (_proxyConfig s))); reflexivity. }
  split.
  { unfold proxyRequest_of, proxyAuthenticateImpl,
      HTTPBasicCredentials_proxyAuthenticate.
    destruct (empty (pc_username (_proxyConfig s))); reflexivity. }
  split.
  { unfold proxyRequest_of, proxyAuthenticateImpl,
      HTTPBasicCredentials_proxyAuthenticate.
    destruct (empty (pc_username (_proxyConfig s))); reflexivity. }
  unfold proxyTunnel, proxyConnect.
  cbv beta iota zeta delta [bind gets clock on_session ret throw attachSocket
                              modify detachSocket fst snd].
  cbn [addr_host addr_port].
  match goal with
  | |- context [sendRequest (proxyRequest_of s) ?ps w] =>
      pose proof (sendRequest_in_order (proxyRequest_of s) ps w) as I;
      pose proof (sendRequest_route (proxyRequest_of s) ps w) as Hr;
      destruct (sendRequest (proxyRequest_of s) ps w) as [[sent | e] ps1 w1];
      [| reflexivity]
  end.
  cbn [session] in Hr.
  specialize (I (fst sent) (snd sent)). cbn in I.
  pose proof (receiveResponse_in_order HTTPResponse.new ps1 w1) as S.
  rewrite Hr in S.
  destruct (receiveResponse HTTPResponse.new ps1 w1)
    as [[[proxyResponse stream] | e] ps2 w2]; [| reflexivity].
  cbn [result session world] in *.
  destruct (HTTPResponse.getStatus proxyResponse =? HTTPResponse.HTTP_OK);
    [| reflexivity].
  split; [| reflexivity].
  apply (S proxyResponse stream eq_refl).
  apply I. destruct sent; reflexivity.
Qed.

(** ** The credentials of a tunnel *)

(** C10: [proxyAuthenticateImpl] adds the proxy authentication header
    exactly when the proxy user name is not empty, and leaves the request
    as it is otherwise.  This is the authentication step of [sendRequest]
    for a proxied request that does not bypass the proxy, whose target is
    rewritten with either user name.  The same condition governs the
    CONNECT request of a tunnel: what [proxyConnect], and [proxyTunnel]
    through it, do to the world is the exchange of the nested session on
    the CONNECT request with the header when the user name is not empty and
    without it otherwise; that request leaves the nested [sendRequest] as
    it is and is written into its stream, and the exchange decides what
    [proxyConnect] returns. *)
Theorem proxy_authentication_by_username
    (s : HTTPClientSession) (request : HTTPRequest.t) :
  let username := pc_username (_proxyConfig s) in
  let value := basic_value username (pc_password (_proxyConfig s)) in
  let authenticated (r : HTTPRequest.t) :=
    if empty username then r
    else HTTPRequest.set HTTPRequest.PROXY_AUTHORIZATION value r in
  let connect_request :=
    HTTPRequest.set "Host" (_host s)
      (HTTPRequest.set "Proxy-Connection" "keep-alive"
         (HTTPRequest.new HTTPRequest.HTTP_CONNECT
            (NumberFormatter_append (_host s ++ ":") (_port s)))) in
  proxyAuthenticateImpl s request = authenticated request
  /\ HTTPRequest.has HTTPRequest.PROXY_AUTHORIZATION (proxyAuthenticateImpl s request)
     = negb (empty username)
       || HTTPRequest.has HTTPRequest.PROXY_AUTHORIZATION request
  /\ (forall w request' os,
        result (sendRequest request s w) = Ok (request', os) ->
        empty (pc_host (_proxyConfig s)) = false ->
        bypassProxy s = false ->
        let rewritten :=
          HTTPRequest.setURI
            (proxyRequestPrefix s ++ HTTPRequest.uri request)
            (prepared_request (with_proxyConfig ProxyConfig_new s)
               (_keepAlive s) request) in
        request' = proxyAuthenticateImpl s rewritten
        /\ HTTPRequest.uri request'
           = proxyRequestPrefix s ++ HTTPRequest.uri request
        /\ HTTPRequest.headers request'
           = if empty username then HTTPRequest.headers rewritten
             else NameValueCollection.set HTTPRequest.PROXY_AUTHORIZATION value
                    (HTTPRequest.headers rewritten))
  /\ (forall w,
        let proxySession :=
          with_keepAlive true
            (with_timeout (_timeout s)
               (HTTPClientSession_new (pc_host (_proxyConfig s))
                  (pc_port (_proxyConfig s)) ProxyConfig_new (now w))) in
        let sent :=
          sendRequest (authenticated connect_request) proxySession w in
        let negotiation :=
          (sendRequest (authenticated connect_request) ;;
           receiveResponse HTTPResponse.new) proxySession w in
        world (proxyConnect s w) = world negotiation
        /\ world (proxyTunnel s w) = world negotiation
        /\ (forall request' os,
              result sent = Ok (request', os) ->
              request' = authenticated connect_request
              /\ os_inserted os = serialize (authenticated connect_request))
        /\ result (proxyConnect s w)
           = match result negotiation with
             | Ok (proxyResponse, _) =>
                 if HTTPResponse.getStatus proxyResponse
                    =? HTTPResponse.HTTP_OK
                 then Ok (_socket (session negotiation))
                 else Throw (mkException HTTPException
                               "Cannot establish proxy connection"
                               (HTTPResponse.getReason proxyResponse))
             | Throw e => Throw e
             end)
  /\ HTTPRequest.headers (authenticated connect_request)
     = ([("Proxy-Connection", "keep-alive"); ("Host", _host s)]
        ++ (if empty username then []
            else [(HTTPRequest.PROXY_AUTHORIZATION, value)]))%list.
Proof.
  cbv zeta.
  assert (A : forall r,
    proxyAuthenticateImpl s r
    = if empty (pc_username (_proxyConfig s)) then r
      else HTTPRequest.set HTTPRequest.PROXY_AUTHORIZATION
             (basic_value (pc_username (_proxyConfig s))
                (pc_password (_proxyConfig s))) r).
  { intros r.
    unfold proxyAuthenticateImpl, HTTPBasicCredentials_proxyAuthenticate.
    destruct (empty (pc_username (_proxyConfig s))); reflexivity. }
  split; [apply A |]. split; [| split; [| split]].
  - unfold proxyAuthenticateImpl, HTTPBasicCredentials_proxyAuthenticate.
    destruct (empty (pc_username (_proxyConfig s))); cbn [negb orb];
      [reflexivity |].
    unfold HTTPRequest.has, HTTPRequest.set. cbn.
    apply NameValueCollection_has_set.
  - intros w request' os H Hp Hb. cbv zeta.
    destruct (sendRequest_Ok request s w request' os H) as [_ [Hq _]].
    destruct (prepared_request_proxy s (_keepAlive s) request Hp)
      as [Hu [_ Hr]].
    rewrite Hr, Hb in Hq. clear Hr.
    split; [exact Hq |]. subst request'.
    unfold proxyAuthenticateImpl, HTTPBasicCredentials_proxyAuthenticate.
    destruct (empty (pc_username (_proxyConfig s))); split; reflexivity.
  - intros w.
    rewrite <- (A (HTTPRequest.set "Host" (_host s)
                     (HTTPRequest.set "Proxy-Connection" "keep-alive"
                        (HTTPRequest.new HTTPRequest.HTTP_CONNECT
                           (NumberFormatter_append (_host s ++ ":")
                              (_port s)))))).
    change (proxyAuthenticateImpl s
              (HTTPRequest.set "Host" (_host s)
                 (HTTPRequest.set "Proxy-Connection" "keep-alive"
                    (HTTPRequest.new HTTPRequest.HTTP_CONNECT
                       (NumberFormatter_append (_host s ++ ":") (_port s))))))
      with (proxyRequest_of s).
    assert (Q : forall this,
      empty (pc_host (_proxyConfig this)) = true ->
      prepared_request this true (proxyRequest_of s) = proxyRequest_of s
      /\ HTTPRequest.getChunkedTransferEncoding (proxyRequest_of s) = false).
    { intros this Hp.
      unfold prepared_request, proxyRequest_of, proxyAuthenticateImpl,
        HTTPBasicCredentials_proxyAuthenticate. rewrite Hp.
      destruct (empty (pc_username (_proxyConfig s))); split; reflexivity. }
    split; [| split; [| split]].
    + unfold proxyConnect.
      cbv beta iota zeta delta [bind gets clock on_session ret throw
                                  detachSocket fst snd].
      match goal with
      | |- context [sendRequest (proxyRequest_of s) ?ps w] =>
          destruct (sendRequest (proxyRequest_of s) ps w)
            as [[sent | e] ps1 w1]; [| reflexivity]
      end.
      destruct (receiveResponse HTTPResponse.new ps1 w1)
        as [[[proxyResponse stream] | e] ps2 w2]; [| reflexivity].
      cbn [fst snd].
      destruct (HTTPResponse.getStatus proxyResponse =? HTTPResponse.HTTP_OK);
        reflexivity.
    + unfold proxyTunnel, proxyConnect.
      cbv beta iota zeta delta [bind gets clock on_session ret throw
                                  attachSocket modify detachSocket fst snd].
      match goal with
      | |- context [sendRequest (proxyRequest_of s) ?ps w] =>
          destruct (sendRequest (proxyRequest_of s) ps w)
            as [[sent | e] ps1 w1]; [| reflexivity]
      end.
      destruct (receiveResponse HTTPResponse.new ps1 w1)
        as [[[proxyResponse stream] | e] ps2 w2]; [| reflexivity].
      cbn [fst snd].
      destruct (HTTPResponse.getStatus proxyResponse =? HTTPResponse.HTTP_OK);
        reflexivity.
    + intros request' os H.
      destruct (sendRequest_Ok _ _ w request' os H) as [_ [Hq [_ [_ [Hi _]]]]].
      destruct (Q (with_keepAlive true
                     (with_timeout (_timeout s)
                        (HTTPClientSession_new (pc_host (_proxyConfig s))
                           (pc_port (_proxyConfig s)) ProxyConfig_new (now w))))
                  eq_refl) as [Q1 Q2].
      cbn [_keepAlive with_keepAlive] in Hq. rewrite Q1 in Hq. subst request'.
      split; [reflexivity | exact (Hi Q2)].
    + unfold proxyConnect.
      cbv beta iota zeta delta [bind gets clock on_session ret throw
                                  detachSocket fst snd].
      match goal with
      | |- context [sendRequest (proxyRequest_of s) ?ps w] =>
          destruct (sendRequest (proxyRequest_of s) ps w)
            as [[sent | e] ps1 w1]; [| reflexivity]
      end.
      destruct (receiveResponse HTTPResponse.new ps1 w1)
        as [[[proxyResponse stream] | e] ps2 w2]; [| reflexivity].
      cbn [fst snd result session].
      destruct (HTTPResponse.getStatus proxyResponse =? HTTPResponse.HTTP_OK);
        reflexivity.
  - destruct (empty (pc_username (_proxyConfig s))); reflexivity.
Qed.

(** ** The request that leaves *)

Lemma NameValueCollection_has_get name h :
  NameValueCollection.has name h
  = match NameValueCollection.get name h with Some _ => true | None => false end.
Proof.
  induction h as [| [n v] h' IH]; cbn; [reflexivity |].
  destruct (iequal n name); [reflexivity | exact IH].
Qed.

(** The value of the Host header in the request that leaves. *)
Lemma prepared_request_host this keepAlive request :
  HTTPRequest.get HTTPRequest.HOST (prepared_request this keepAlive request)
  = match HTTPRequest.get HTTPRequest.HOST request with
    | Some v => Some v
    | None =>
        if empty (_host this) then None
        else Some (host_value (_host this) (_port this))
    end.
Proof.
  assert (A : forall r,
    HTTPRequest.get HTTPRequest.HOST (proxyAuthenticate this r)
    = HTTPRequest.get HTTPRequest.HOST r).
  { intros r. unfold proxyAuthenticate, proxyAuthenticateImpl,
      HTTPBasicCredentials_proxyAuthenticate.
    destruct (negb (empty (pc_username (_proxyConfig this)))); [| reflexivity].
    unfold HTTPRequest.get, HTTPRequest.set. cbn.
    apply NameValueCollection_get_set_other. reflexivity. }
  unfold prepared_request.
  set (r1 := if negb keepAlive then HTTPRequest.setKeepAlive false request
             else request).
  assert (H1 : HTTPRequest.headers r1 = HTTPRequest.headers request)
    by (unfold r1; destruct (negb keepAlive); reflexivity).
  set (r2 := if negb (HTTPRequest.has HTTPRequest.HOST r1) && negb (empty (_host this))
             then HTTPRequest.set HTTPRequest.HOST
                    (host_value (_host this) (_port this)) r1
             else r1).
  assert (H2 : HTTPRequest.get HTTPRequest.HOST r2
               = match HTTPRequest.get HTTPRequest.HOST request with
                 | Some v => Some v
                 | None =>
                     if empty (_host this) then None
                     else Some (host_value (_host this) (_port this))
                 end).
  { unfold r2, HTTPRequest.has, HTTPRequest.get, HTTPRequest.set.
    rewrite NameValueCollection_has_get, H1.
    destruct (NameValueCollection.get HTTPRequest.HOST (HTTPRequest.headers request))
      as [v |] eqn:G; cbn [negb andb].
    - rewrite H1. exact G.
    - destruct (empty (_host this)); cbn [negb].
      + rewrite H1. exact G.
      + cbn. apply NameValueCollection_get_set. }
  destruct (negb (empty (pc_host (_proxyConfig this))) && negb (bypassProxy this));
    [| exact H2].
  rewrite A. exact H2.
Qed.

(** The headers that the preparation leaves alone. *)
Lemma prepared_request_other this keepAlive request name :
  iequal HTTPRequest.HOST name = false ->
  iequal HTTPRequest.PROXY_AUTHORIZATION name = false ->
  HTTPRequest.get name (prepared_request this keepAlive request)
  = HTTPRequest.get name request.
Proof.
  intros Hh Hp. unfold prepared_request, proxyAuthenticate, proxyAuthenticateImpl,
    HTTPBasicCredentials_proxyAuthenticate.
  repeat match goal with
         | |- context [if ?b then _ else _] => destruct b; cbn
         end;
    unfold HTTPRequest.get, HTTPRequest.set; cbn;
    rewrite ?NameValueCollection_get_set_other by assumption; reflexivity.
Qed.

Lemma prepared_request_keepAlive this keepAlive request :
  HTTPRequest.keepAlive (prepared_request this keepAlive request)
  = keepAlive && HTTPRequest.keepAlive request.
Proof.
  unfold prepared_request, proxyAuthenticate, proxyAuthenticateImpl,
    HTTPBasicCredentials_proxyAuthenticate.
  destruct keepAlive; cbn [negb andb];
  repeat match goal with
         | |- context [if ?b then _ else _] => destruct b; cbn
         end; reflexivity.
Qed.

Lemma prepared_request_uri this keepAlive request :
  HTTPRequest.uri (prepared_request this keepAlive request)
  = if negb (empty (pc_host (_proxyConfig this))) && negb (bypassProxy this)
    then proxyRequestPrefix this ++ HTTPRequest.uri request
    else HTTPRequest.uri request.
Proof.
  unfold prepared_request, proxyAuthenticate, proxyAuthenticateImpl,
    HTTPBasicCredentials_proxyAuthenticate.
  destruct (negb (empty (pc_host (_proxyConfig this))) && negb (bypassProxy this));
    repeat match goal with
           | |- context [if ?b then _ else _] => destruct b; cbn
           end; reflexivity.
Qed.

(** The proxy authentication of the request that leaves. *)
Lemma prepared_request_authorization this keepAlive request :
  HTTPRequest.get HTTPRequest.PROXY_AUTHORIZATION
    (prepared_request this keepAlive request)
  = if negb (empty (pc_host (_proxyConfig this))) && negb (bypassProxy this)
       && negb (empty (pc_username (_proxyConfig this)))
    then Some (basic_value (pc_username (_proxyConfig this))
                 (pc_password (_proxyConfig this)))
    else HTTPRequest.get HTTPRequest.PROXY_AUTHORIZATION request.
Proof.
  unfold prepared_request, proxyAuthenticate, proxyAuthenticateImpl,
    HTTPBasicCredentials_proxyAuthenticate.
  destruct (negb (empty (pc_host (_proxyConfig this))) && negb (bypassProxy this));
    destruct (negb (empty (pc_username (_proxyConfig this))));
    cbn [andb];
    repeat match goal with
           | |- context [if ?b then _ else _] => destruct b; cbn
           end;
    unfold HTTPRequest.get, HTTPRequest.set; cbn;
    rewrite ?NameValueCollection_get_set;
    rewrite ?NameValueCollection_get_set_other by reflexivity;
    reflexivity.
Qed.

(** X1: the Host header of the request that [sendRequest] sends.  A Host
    header that the caller has set, under any spelling of the name, is
    sent as it is; a request without one gets the header from the host and
    port of the session, unless the session has no host, in which case the
    request leaves without a Host header. *)
Theorem sendRequest_host_header
    (request : HTTPRequest.t) (s : HTTPClientSession) (w : World)
    (request' : HTTPRequest.t) (os : OutputStream) :
  result (sendRequest request s w) = Ok (request', os) ->
  HTTPRequest.get HTTPRequest.HOST request'
  = match HTTPRequest.get HTTPRequest.HOST request with
    | Some v => Some v
    | None =>
        if empty (_host s) then None
        else Some (host_value (_host s) (_port s))
    end.
Proof.
  intros H. destruct (sendRequest_Ok request s w request' os H) as [_ [Hq _]].
  subst request'. apply prepared_request_host.
Qed.

(** X2: what [sendRequest] leaves of the request as the caller made it:
    the method, the chunked flag and the declared length; the keep-alive
    flag, which is cleared when the session does not keep connections
    alive and is never set; and every header other than Host and
    Proxy-Authorization (and than Connection, which carries the keep-alive
    flag of a request). *)
Theorem sendRequest_request_preserved
    (request : HTTPRequest.t) (s : HTTPClientSession) (w : World)
    (request' : HTTPRequest.t) (os : OutputStream) :
  result (sendRequest request s w) = Ok (request', os) ->
  HTTPRequest.getMethod request' = HTTPRequest.getMethod request
  /\ HTTPRequest.getChunkedTransferEncoding request'
     = HTTPRequest.getChunkedTransferEncoding request
  /\ HTTPRequest.contentLength request' = HTTPRequest.contentLength request
  /\ HTTPRequest.keepAlive request'
     = _keepAlive s && HTTPRequest.keepAlive request
  /\ forall name,
       iequal HTTPRequest.HOST name = false ->
       iequal HTTPRequest.PROXY_AUTHORIZATION name = false ->
       iequal "Connection" name = false ->
       HTTPRequest.get name request' = HTTPRequest.get name request.
Proof.
  intros H. destruct (sendRequest_Ok request s w request' os H) as [_ [Hq _]].
  subst request'.
  destruct (prepared_request_framing s (_keepAlive s) request) as [Fm [Fc Fn]].
  split; [exact Fm |]. split; [exact Fc |]. split; [exact Fn |].
  split; [apply prepared_request_keepAlive |].
  intros name Hh Hp _. apply prepared_request_other; assumption.
Qed.

(** ** The output stream *)

Lemma sendRequest_chunked request s w request' os :
  result (sendRequest request s w) = Ok (request', os) ->
  HTTPRequest.getChunkedTransferEncoding request = true ->
  os = new_ostream HTTPChunkedOutputStream.
Proof.
  intros H Hc.
  destruct (sendRequest_Ok request s w request' os H) as [C [Hq [Hp _]]].
  destruct (prepared_request_framing s (_keepAlive s) request) as [_ [Fc _]].
  rewrite Hc in Fc.
  destruct (entering_facts s w) as [Hce [_ [_ [_ Hpr]]]].
  rewrite <- Hce in C.
  revert Hp H. rewrite sendRequest_unfold. unfold try_catch.
  cbv beta iota delta [sendRequest_try bind connected gets when logger_debug
                         ret modify clock].
  destruct (negb (connected_of (entering_session s w))); cbv beta iota;
    rewrite reconnect_run, C; cbv beta iota zeta;
    change (prepared_request
              (with_socket (Some (route_of (entering_session s w)))
                 (entering_session s w)) (_keepAlive s) request)
      with (prepared_request (entering_session s w) (_keepAlive s) request);
    rewrite Hpr;
    unfold open_request_stream; rewrite Fc;
    unfold bind, modify; rewrite ostream_write_run;
    match goal with
    | |- context [ostream_close ?o ?s1 ?w1] =>
        destruct (ostream_close_run o s1 w1) as [R [F _]];
        destruct (ostream_close o s1 w1) as [[u | e1] s2 w2];
        cbn in R, F; [| discriminate R]
    end;
    unfold same_but_transport in F; rewrite F; cbn; intros Hp H; congruence.
Qed.

(** X3: the output stream that [sendRequest] returns, by the request of
    the caller.  A chunked request gets a chunked stream, whether or not it
    also declares a length: the stream is new, nothing has been written
    into it, and the head is not part of it.  Otherwise a declared length
    gives a fixed-length stream for the head and that many bytes; without a
    declared length, a request whose method is not PUT, POST or PATCH, or
    that carries an Upgrade header, gets a fixed-length stream that the
    head fills, and a PUT, POST or PATCH request gets a stream without
    bound.  In the cases other than chunked the head has been written into
    the stream that is returned. *)
Theorem sendRequest_output_stream
    (request : HTTPRequest.t) (s : HTTPClientSession) (w : World)
    (request' : HTTPRequest.t) (os : OutputStream) :
  result (sendRequest request s w) = Ok (request', os) ->
  let head_length := strlen (serialize request') in
  if HTTPRequest.getChunkedTransferEncoding request then
    os = new_ostream HTTPChunkedOutputStream
  else
    os_inserted os = serialize request'
    /\ os_kind os
       = match HTTPRequest.contentLength request with
         | Some n => HTTPFixedLengthOutputStream (wrap64 (n + head_length))
         | None =>
             if negb (body_method (HTTPRequest.getMethod request))
                || HTTPRequest.has HTTPRequest.UPGRADE request
             then HTTPFixedLengthOutputStream head_length
             else HTTPOutputStream
         end.
Proof.
  intros H. cbv zeta.
  destruct (HTTPRequest.getChunkedTransferEncoding request) eqn:Hc.
  - exact (sendRequest_chunked request s w request' os H Hc).
  - destruct (sendRequest_Ok request s w request' os H)
      as [_ [Hq [_ [Hk [Hi _]]]]].
    destruct (prepared_request_framing s (_keepAlive s) request)
      as [Fm [Fc Fn]].
    rewrite <- Hq in Fm, Fc, Fn. rewrite Hc in Fc.
    split; [apply Hi; exact Fc |].
    assert (U : HTTPRequest.has HTTPRequest.UPGRADE request'
                = HTTPRequest.has HTTPRequest.UPGRADE request).
    { unfold HTTPRequest.has. rewrite !NameValueCollection_has_get.
      assert (G : HTTPRequest.get HTTPRequest.UPGRADE request'
                  = HTTPRequest.get HTTPRequest.UPGRADE request)
        by (subst request'; apply prepared_request_other; reflexivity).
      unfold HTTPRequest.get in G. rewrite G. reflexivity. }
    rewrite Hk. unfold output_kind_of, HTTPRequest.hasContentLength,
      HTTPRequest.getContentLength64, counted, body_method.
    rewrite Fc, Fn, Fm, U.
    destruct (HTTPRequest.contentLength request) as [n |]; [reflexivity |].
    rewrite !negb_orb. reflexivity.
Qed.

(** ** The session and the transport around a request *)

Lemma closes_first_cases s w :
  closes_first s w
  = ((connected_of s && negb (_keepAlive s))
     || _mustReconnect s
     || (_keepAliveTimeout s <=? now w - _lastRequest s))
    && negb (empty (_host s)).
Proof.
  unfold closes_first.
  destruct (_mustReconnect s), (connected_of s && negb (_keepAlive s)),
    (_keepAliveTimeout s <=? now w - _lastRequest s); reflexivity.
Qed.


(** X5: a request that has been sent opens the keep-alive window.  After
    a [sendRequest] that returns, on a session with a host, [mustReconnect]
    is true exactly from the time of that request plus the keep-alive
    timeout on; the timeout is the one in force when the question is asked,
    so a later [setKeepAliveTimeout] moves the end of the window. *)
Theorem sendRequest_opens_keep_alive_window
    (request : HTTPRequest.t) (s : HTTPClientSession) (w : World)
    (request' : HTTPRequest.t) (os : OutputStream) :
  result (sendRequest request s w) = Ok (request', os) ->
  empty (_host s) = false ->
  let sent := session (sendRequest request s w) in
  (forall w',
     result (mustReconnect sent w')
     = Ok (_keepAliveTimeout s <=? now w' - now w))
  /\ (forall timeout w0 w',
        result (mustReconnect (session (setKeepAliveTimeout timeout sent w0)) w')
        = Ok (timeout <=? now w' - now w)).
Proof.
  intros H Hh. cbv zeta.
  destruct (sendRequest_Ok request s w request' os H) as [C _].
  destruct (sendRequest_frame request s w) as [F [M [_ [_ L]]]].
  rewrite C in L. unfold configuration in F.
  assert (K : _keepAliveTimeout (session (sendRequest request s w))
              = _keepAliveTimeout s) by congruence.
  assert (M' : _mustReconnect (session (sendRequest request s w)) = false).
  { rewrite M, closes_first_cases, Hh.
    destruct (_mustReconnect s), (connected_of s && negb (_keepAlive s)),
      (_keepAliveTimeout s <=? now w - _lastRequest s); reflexivity. }
  split.
  - intros w'. unfold mustReconnect. rewrite M', K, L. reflexivity.
  - intros timeout w0 w'. unfold mustReconnect, setKeepAliveTimeout, modify.
    cbn [session with_keepAliveTimeout _mustReconnect _keepAliveTimeout
         _lastRequest].
    rewrite M', L. reflexivity.
Qed.

(** X6: [sendRequest] starts a fresh exchange.  A network exception that
    the session records, the response stream handle and the
    response-received flag, as the exchange before has left them, have no
    influence on what [sendRequest] does, and in every outcome no response
    is marked as received and there is no response stream. *)
Theorem sendRequest_starts_afresh
    (request : HTTPRequest.t) (s : HTTPClientSession) (w : World)
    (e : option Exception) (istream : option InputStream) (flag : bool) :
  sendRequest request
    (with_pException e
       (with_pResponseStream istream (with_responseReceived flag s))) w
  = sendRequest request s w
  /\ _responseReceived (session (sendRequest request s w)) = false
  /\ _pResponseStream (session (sendRequest request s w)) = None.
Proof.
  split.
  - rewrite !sendRequest_unfold. reflexivity.
  - destruct (sendRequest_frame request s w) as [_ [_ [R [P _]]]].
    split; assumption.
Qed.

(** X7: [sendRequest] never changes how the session is configured, whether
    it returns or raises: the host and the port, the proxy configuration,
    the keep-alive flag, the timeout and the keep-alive timeout are after
    the call what they were before.  The time of the last request becomes
    the time of the call when [sendRequest] returns, and it is left alone
    when [sendRequest] raises. *)
Theorem sendRequest_keeps_configuration
    (request : HTTPRequest.t) (s : HTTPClientSession) (w : World) :
  let s' := session (sendRequest request s w) in
  _host s' = _host s
  /\ _port s' = _port s
  /\ _proxyConfig s' = _proxyConfig s
  /\ _keepAlive s' = _keepAlive s
  /\ _timeout s' = _timeout s
  /\ _keepAliveTimeout s' = _keepAliveTimeout s
  /\ _lastRequest s'
     = match result (sendRequest request s w) with
       | Ok _ => now w
       | Throw _ => _lastRequest s
       end.
Proof.
  cbv zeta.
  destruct (sendRequest_frame request s w) as [F [_ [_ [_ L]]]].
  unfold configuration in F. inversion F.
  repeat split; try assumption.
  rewrite L.
  destruct (result (sendRequest request s w)) as [[request' os] | e] eqn:R.
  - destruct (sendRequest_Ok request s w request' os R) as [C _].
    rewrite C. reflexivity.
  - destruct (sendRequest_Throw request s w e R) as [C _].
    rewrite C. reflexivity.
Qed.

(** ** Where the connections go *)

Lemma open_request_stream_connections request s w :
  exists evs,
    trace (world (open_request_stream request s w)) = (evs ++ trace w)%list
    /\ Forall (eq (route_of s)) (connections evs).
Proof.
  destruct (open_request_stream_step request s w) as [_ [_ [_ [_ C]]]].
  exact C.
Qed.

Lemma sendRequest_try_connections keepAlive request s w :
  exists evs,
    trace (world (sendRequest_try keepAlive request s w)) = (evs ++ trace w)%list
    /\ Forall (eq (route_of s)) (connections evs).
Proof.
  pose proof (sendRequest_try_run keepAlive request s w) as R.
  assert (T : trace (snd (next_connect w)) = trace w)
    by (unfold next_connect; destruct (connects w); reflexivity).
  destruct (connect_outcome w) as [e |] eqn:C.
  - rewrite R. exists [EvConnect (route_of s) false]. cbn. rewrite T.
    split; [reflexivity | repeat constructor].
  - clear R. revert C.
    cbv beta iota delta [sendRequest_try bind connected gets when logger_debug
                           ret modify clock].
    intros C.
    destruct (negb (connected_of s)); cbv beta iota;
      rewrite reconnect_run, C; cbv beta iota zeta;
      match goal with
      | |- context [open_request_stream ?r ?s1 ?w1] =>
          destruct (open_request_stream_connections r s1 w1) as [evs [E A]];
          destruct (open_request_stream r s1 w1) as [[u | e] s2 w2]
      end;
      cbn in E; exists (evs ++ [EvConnect (route_of s) true])%list;
      (split;
       [ try (destruct (_pRequestStream _)); cbn; rewrite E; cbn; rewrite T;
         rewrite <- app_assoc; reflexivity
       | rewrite connections_app; apply Forall_app; split;
         [exact A | cbn; repeat constructor] ]).
Qed.

Lemma sendRequest_connections request s w :
  exists evs,
    trace (world (sendRequest request s w)) = (evs ++ trace w)%list
    /\ Forall (eq (route_of s)) (connections evs).
Proof.
  rewrite sendRequest_unfold.
  destruct (entering_facts s w) as [_ [Hr _]].
  destruct (sendRequest_try_connections (_keepAlive s) request
              (entering_session s w) (entering_world s w)) as [evs [E A]].
  rewrite Hr in A.
  assert (W : exists pre, trace (entering_world s w) = (pre ++ trace w)%list
                          /\ connections pre = [])
    by (unfold entering_world; destruct (closes_first s w);
        [exists [EvClose] | exists []]; split; reflexivity).
  destruct W as [pre [W1 W2]].
  unfold try_catch, bind, close, throw.
  destruct (sendRequest_try (_keepAlive s) request (entering_session s w)
              (entering_world s w)) as [[a | e] s1 w1]; cbn in E |- *.
  - exists (evs ++ pre)%list. rewrite E, W1, app_assoc.
    split; [reflexivity |]. rewrite connections_app, W2, app_nil_r. exact A.
  - exists (EvClose :: evs ++ pre)%list. rewrite E, W1.
    split; [cbn; rewrite app_assoc; reflexivity |].
    change (connections (EvClose :: evs ++ pre)) with (connections (evs ++ pre)).
    rewrite connections_app, W2, app_nil_r. exact A.
Qed.

(** X8: every connection attempt that [sendRequest] makes, the one of a
    retried write included, and whether the call returns or raises, goes to
    one address: to the proxy when a proxy host is configured and the
    target host does not match the non-proxy pattern, and to the host and
    port of the session otherwise. *)
Theorem sendRequest_connects_to_route
    (request : HTTPRequest.t) (s : HTTPClientSession) (w : World) :
  let proxy := _proxyConfig s in
  let address :=
    if empty (pc_host proxy) || bypassProxy s
    then mkSocketAddress (_host s) (_port s)
    else mkSocketAddress (pc_host proxy) (pc_port proxy) in
  exists evs,
    trace (world (sendRequest request s w)) = (evs ++ trace w)%list
    /\ Forall (eq address) (connections evs).
Proof. cbv zeta. exact (sendRequest_connections request s w). Qed.

(** X9: the form of the request target agrees with where the request
    goes.  When [sendRequest] returns, the target has been rewritten to the
    absolute form exactly when the connection is made to the proxy; a
    request that goes to the host of the session keeps the target of the
    caller. *)
Theorem sendRequest_target_form_and_route
    (request : HTTPRequest.t) (s : HTTPClientSession) (w : World)
    (request' : HTTPRequest.t) (os : OutputStream) :
  result (sendRequest request s w) = Ok (request', os) ->
  let proxy := _proxyConfig s in
  exists evs,
    trace (world (sendRequest request s w)) = (evs ++ trace w)%list
    /\ if negb (empty (pc_host proxy)) && negb (bypassProxy s) then
         Forall (eq (mkSocketAddress (pc_host proxy) (pc_port proxy)))
           (connections evs)
         /\ HTTPRequest.uri request'
            = proxyRequestPrefix s ++ HTTPRequest.uri request
       else
         Forall (eq (mkSocketAddress (_host s) (_port s))) (connections evs)
         /\ HTTPRequest.uri request' = HTTPRequest.uri request.
Proof.
  intros H. cbv zeta.
  destruct (sendRequest_Ok request s w request' os H) as [_ [Hq _]].
  destruct (sendRequest_connections request s w) as [evs [E A]].
  exists evs. split; [exact E |].
  subst request'. rewrite prepared_request_uri.
  unfold route_of in A.
  destruct (empty (pc_host (_proxyConfig s))), (bypassProxy s); cbn in *;
    split; solve [exact A | reflexivity].
Qed.

(** ** Responses *)

(** Heads with the continue status are passed over, up to the first head
    with another status. *)
Lemma receive_heads_skips cs : forall s w r rest,
  all_continue cs = true ->
  HTTPResponse.getStatus r <> HTTPResponse.HTTP_CONTINUE ->
  receive_heads (map ReadHead cs ++ ReadHead r :: rest)%list s w
  = mkRun (Ok r) s (with_heads rest w).
Proof.
  induction cs as [| c cs' IH]; intros s w r rest Hc Hr; cbn.
  - apply Z.eqb_neq in Hr. rewrite Hr. reflexivity.
  - cbn in Hc. apply andb_prop in Hc. destruct Hc as [Hc1 Hc2].
    rewrite Hc1. rewrite IH by assumption. reflexivity.
Qed.

(** The loop that fails has closed the transport, and it raises the
    network exception that the session records, if it records one. *)
Lemma receive_heads_Throw hs : forall s w e,
  result (receive_heads hs s w) = Throw e ->
  session (receive_heads hs s w)
  = with_socket None
      (with_pException (_pException (session (receive_heads hs s w))) s)
  /\ trace (world (receive_heads hs s w)) = EvClose :: trace w
  /\ (forall n, _pException (session (receive_heads hs s w)) = Some n -> e = n).
Proof.
  assert (G : forall s w e,
    result (try_catch response_read (fun _ => true) read_failed s w) = Throw e ->
    let run := try_catch response_read (fun _ => true) read_failed s w in
    session run = with_socket None (with_pException (_pException (session run)) s)
    /\ trace (world run) = EvClose :: trace w
    /\ (forall n, _pException (session run) = Some n -> e = n)).
  { intros s w e. cbv zeta.
    unfold try_catch, response_read, next_head, read_failed, bind, close,
      networkException, gets, throw.
    destruct (heads w) as [| [r0 | t [e0 |]] l]; cbn;
      try discriminate;
      try (destruct (_pException s) eqn:E; cbn; intros H; inversion H; subst;
           repeat split;
           try (intros n Hn; congruence);
           unfold with_socket, with_pException; cbn; rewrite ?E; reflexivity). }
  induction hs as [| o hs' IH]; intros s w e H.
  - cbn in *. apply G. exact H.
  - destruct o as [r0 | t rec]; cbn in *.
    + destruct (HTTPResponse.getStatus r0 =? HTTPResponse.HTTP_CONTINUE).
      * apply (IH s (with_heads hs' w) e H).
      * discriminate H.
    + apply G. exact H.
Qed.

(** X10: [receiveResponse] passes over the heads with the continue status,
    however many the peer sends, and returns the first head with another
    status; the heads after that one are left for later.  The heads are
    read after [flushRequest] has disposed of the request stream, which
    sends what the stream holds, and when that has left no network
    exception on the session. *)
Theorem receiveResponse_skips_continue
    (s : HTTPClientSession) (w : World) (response0 : HTTPResponse.t)
    (cs : list HTTPResponse.t) (r : HTTPResponse.t) (rest : list ReadOutcome) :
  result (flushRequest s w) = Ok tt ->
  _responseReceived s = false ->
  all_continue cs = true ->
  HTTPResponse.getStatus r <> HTTPResponse.HTTP_CONTINUE ->
  heads w = (map ReadHead cs ++ ReadHead r :: rest)%list ->
  let flushed := flushRequest s w in
  let stream := select_input (_expectResponseBody s) r in
  receiveResponse response0 s w
  = mkRun (Ok (r, stream)) (received r stream (session flushed))
      (with_heads rest (world flushed)).
Proof.
  intros Ho Hf Hc Hr Hh. cbv zeta.
  rewrite receiveResponse_run. cbv zeta. rewrite Ho, Hf, Hh.
  rewrite (receive_heads_skips cs _ _ r rest Hc Hr). reflexivity.
Qed.

Lemma receiveResponse_Throw response0 s w e :
  result (receiveResponse response0 s w) = Throw e ->
  let run := receiveResponse response0 s w in
  let flushed := flushRequest s w in
  match result flushed with
  | Throw n =>
      e = n
      /\ _pException (session flushed) = Some n
      /\ run = mkRun (Throw n) (session flushed) (world flushed)
  | Ok _ =>
      _responseReceived s = false
      /\ session run
         = with_socket None
             (with_pException (_pException (session run)) (session flushed))
      /\ trace (world run) = EvClose :: trace (world flushed)
      /\ (forall n, _pException (session run) = Some n -> e = n)
  end.
Proof.
  cbv zeta. rewrite receiveResponse_run. cbv zeta.
  destruct (flushRequest_run s w) as [_ [_ [_ R]]].
  destruct (result (flushRequest s w)) as [u | n] eqn:E.
  - destruct (_responseReceived s); [discriminate |].
    pose proof (receive_heads_Throw (heads w) (session (flushRequest s w))
                  (world (flushRequest s w))) as T.
    destruct (receive_heads (heads w) (session (flushRequest s w))
                (world (flushRequest s w))) as [[r | e1] s2 w2];
      cbn [result session world] in *; [discriminate |].
    intros H. inversion H; subst e1.
    destruct (T e eq_refl) as [T1 [T2 T3]].
    split; [reflexivity |]. split; [exact T1 |]. split; assumption.
  - cbn [result session world]. intros H. inversion H; subst n.
    split; [reflexivity |]. split; [| reflexivity].
    destruct (_pException (session (flushRequest s w))); congruence.
Qed.

(** X11: how [receiveResponse] fails.  It fails where [flushRequest]
    fails: the request stream has been disposed of, which sends what the
    stream holds, the session records a network exception then, left there
    by the writing of the request or by the disposal, and that exception is
    raised; no head is read and nothing more is done to the transport.
    Every other failure is a failure to read a response head: the transport
    has been closed, and what is raised is the network exception that the
    session records, if the failed read has recorded one.  In both cases
    the request stream handle is null. *)
Theorem receiveResponse_failure
    (s : HTTPClientSession) (w : World) (response0 : HTTPResponse.t)
    (e : Exception) :
  result (receiveResponse response0 s w) = Throw e ->
  let run := receiveResponse response0 s w in
  let flushed := flushRequest s w in
  _pRequestStream (session run) = None
  /\ match result flushed with
     | Throw n =>
         e = n
         /\ _pException (session flushed) = Some n
         /\ run = mkRun (Throw n) (session flushed) (world flushed)
     | Ok _ =>
         _responseReceived s = false
         /\ connected_of (session run) = false
         /\ trace (world run) = EvClose :: trace (world flushed)
         /\ (forall n, _pException (session run) = Some n -> e = n)
     end.
Proof.
  intros H. cbv zeta.
  pose proof (receiveResponse_Throw response0 s w e H) as T. cbv zeta in T.
  destruct (flushRequest_run s w) as [P _].
  destruct (result (flushRequest s w)) as [u | n].
  - destruct T as [T1 [T2 [T3 T4]]].
    split; [rewrite T2; exact P |]. split; [exact T1 |].
    split; [rewrite T2; reflexivity |]. split; [exact T3 | exact T4].
  - destruct T as [T1 [T2 T3]].
    split; [rewrite T3; exact P |]. split; [exact T1 |].
    split; [exact T2 | exact T3].
Qed.

(** What a [peekResponse] that returns has done: the request stream has
    been flushed, a head has been read, and the flag says whether the head
    is a final one. *)
Lemma peekResponse_Ok response0 s w r b :
  result (peekResponse response0 s w) = Ok (r, b) ->
  exists os os' l,
    _pRequestStream s = Some os
    /\ result (ostream_flush os s w) = Ok os'
    /\ session (peekResponse response0 s w)
       = with_responseReceived
           (negb (HTTPResponse.getStatus r =? HTTPResponse.HTTP_CONTINUE))
           (with_pRequestStream (Some os') (session (ostream_flush os s w)))
    /\ b = (HTTPResponse.getStatus r =? HTTPResponse.HTTP_CONTINUE)
    /\ heads w = ReadHead r :: l
    /\ world (peekResponse response0 s w)
       = with_heads l (world (ostream_flush os s w)).
Proof.
  intros H.
  destruct (_responseReceived s) eqn:Hf.
  { unfold peekResponse, bind, gets, poco_assert, throw in H.
    rewrite Hf in H. discriminate H. }
  destruct (_pRequestStream s) as [os |] eqn:Hp.
  2: { unfold peekResponse, bind, gets, poco_assert, throw, ret in H.
       rewrite Hf in H. cbn [negb] in H. rewrite Hp in H. discriminate H. }
  destruct (peekResponse_run response0 s w os Hf Hp) as [os' [R E]].
  destruct (ostream_flush_run os s w) as [_ [[_ [_ [Hh _]]] _]].
  rewrite E in H |- *. cbv zeta in H |- *.
  destruct (_pException _); [discriminate H |].
  pose proof (guarded_read_Ok
                (with_pRequestStream (Some os') (session (ostream_flush os s w)))
                (world (ostream_flush os s w))) as G.
  destruct (try_catch response_read (fun _ => true) read_failed _ _)
    as [[r1 | e] s2 w2]; [| discriminate H].
  cbn [result session world] in *. inversion H; subst r1 b.
  destruct (G r eq_refl) as [G1 [l [G2 G3]]]. subst s2.
  exists os, os', l. rewrite negb_involutive. rewrite <- Hh.
  repeat split; assumption.
Qed.

Lemma peekResponse_received response0 s w :
  _responseReceived s = true ->
  peekResponse response0 s w = mkRun (Throw AssertionViolation) s w.
Proof.
  intros Hf. unfold peekResponse, bind, gets, poco_assert, throw.
  rewrite Hf. reflexivity.
Qed.

(** X12: what [peekResponse] requires, in the order in which it checks.
    On a session that has received its final response the assertion fails;
    else, without a request stream, the null handle is dereferenced.
    Neither reads a head, touches the transport or changes the session.
    Else the request stream is flushed, which sends what the stream holds,
    and a network exception that the session records then is raised before
    a head is read.  So when [peekResponse] has returned false for a final
    response, every further [peekResponse] fails the assertion. *)
Theorem peekResponse_requirements
    (s : HTTPClientSession) (w : World) (response0 : HTTPResponse.t) :
  (if _responseReceived s then
     peekResponse response0 s w = mkRun (Throw AssertionViolation) s w
   else
     match _pRequestStream s with
     | None => peekResponse response0 s w = mkRun (Throw NullPointer) s w
     | Some os =>
         let flushed := ostream_flush os s w in
         forall e,
           _pException (session flushed) = Some e ->
           result (peekResponse response0 s w) = Throw e
           /\ world (peekResponse response0 s w) = world flushed
           /\ heads (world flushed) = heads w
     end)
  /\ (forall r,
        result (peekResponse response0 s w) = Ok (r, false) ->
        forall response1,
          let peeked := peekResponse response0 s w in
          peekResponse response1 (session peeked) (world peeked)
          = mkRun (Throw AssertionViolation) (session peeked) (world peeked)).
Proof.
  split.
  - destruct (_responseReceived s) eqn:Hf.
    { apply peekResponse_received. exact Hf. }
    destruct (_pRequestStream s) as [os |] eqn:Hp.
    2: { unfold peekResponse, bind, gets, poco_assert, throw, ret.
         rewrite Hf. cbn [negb]. rewrite Hp. reflexivity. }
    cbv zeta. intros e He.
    destruct (peekResponse_run response0 s w os Hf Hp) as [os' [_ E]].
    destruct (ostream_flush_run os s w) as [_ [[_ [_ [Hh _]]] _]].
    rewrite E. cbv zeta.
    change (_pException
              (with_pRequestStream (Some os') (session (ostream_flush os s w))))
      with (_pException (session (ostream_flush os s w))).
    rewrite He. repeat split. exact Hh.
  - intros r H response1. cbv zeta.
    destruct (peekResponse_Ok response0 s w r false H)
      as [os [os' [l [_ [_ [S [B _]]]]]]].
    apply peekResponse_received. rewrite S, <- B. reflexivity.
Qed.

(** X13: [receiveResponse] after [peekResponse].  When [peekResponse] has
    returned false, the final response is there: [receiveResponse] disposes
    of the request stream and reads no head; it raises the network
    exception that the disposal leaves on the session, if any, and
    otherwise it returns the stream for the response that it is given.
    When [peekResponse] has returned true, the head read was a continue
    head: [receiveResponse] reads on, and what it is given as response has
    no influence on what it does. *)
Theorem peekResponse_then_receiveResponse
    (s : HTTPClientSession) (w : World) (response0 r : HTTPResponse.t)
    (b : bool) :
  result (peekResponse response0 s w) = Ok (r, b) ->
  let peeked := peekResponse response0 s w in
  let flushed := flushRequest (session peeked) (world peeked) in
  if b then
    forall x y,
      receiveResponse x (session peeked) (world peeked)
      = receiveResponse y (session peeked) (world peeked)
  else
    let stream := select_input (_expectResponseBody s) r in
    receiveResponse r (session peeked) (world peeked)
    = match result flushed with
      | Ok _ =>
          mkRun (Ok (r, stream)) (received r stream (session flushed))
            (world flushed)
      | Throw e => mkRun (Throw e) (session flushed) (world flushed)
      end.
Proof.
  intros H. cbv zeta.
  destruct (peekResponse_Ok response0 s w r b H)
    as [os [os' [l [_ [_ [S [B _]]]]]]].
  destruct (ostream_flush_run os s w) as [F _].
  assert (Hr : _responseReceived (session (peekResponse response0 s w))
               = negb b) by (rewrite S, B; reflexivity).
  assert (Hb : _expectResponseBody (session (peekResponse response0 s w))
               = _expectResponseBody s).
  { rewrite S. cbn [_expectResponseBody with_responseReceived
                    with_pRequestStream].
    rewrite F. reflexivity. }
  destruct b.
  - intros x y. rewrite !receiveResponse_run. cbv zeta. rewrite Hr.
    reflexivity.
  - rewrite receiveResponse_run. cbv zeta. rewrite Hr, Hb. reflexivity.
Qed.

(** X14: the response decides whether the connection is used again.  After
    a [receiveResponse] that returns, on a session that keeps connections
    alive and has a host, the forced-reconnect flag is set exactly when the
    response does not allow keep-alive, whatever the flag was before.  So
    the next [sendRequest] closes the transport before it connects when the
    response did not allow keep-alive, whenever that request is sent, and
    otherwise exactly when the last request is as old as the keep-alive
    timeout. *)
Theorem receiveResponse_decides_reuse
    (s : HTTPClientSession) (w : World) (response0 response : HTTPResponse.t)
    (stream : InputStream) (request : HTTPRequest.t) (w' : World) :
  result (receiveResponse response0 s w) = Ok (response, stream) ->
  _keepAlive s = true ->
  empty (_host s) = false ->
  let s1 := session (receiveResponse response0 s w) in
  let closes :=
    negb (HTTPResponse.getKeepAlive response)
    || (_keepAliveTimeout s <=? now w' - _lastRequest s) in
  _mustReconnect s1 = negb (HTTPResponse.getKeepAlive response)
  /\ exists ok evs,
       trace (world (sendRequest request s1 w'))
       = (evs ++ EvConnect (route_of s) ok
              :: (if closes then [EvClose] else []) ++ trace w')%list.
Proof.
  intros H Hk Hh. cbv zeta.
  destruct (receiveResponse_session response0 s w response stream H)
    as [_ [S _]].
  destruct (flushRequest_run s w) as [_ [F [[Hr _] _]]].
  set (s0 := session (flushRequest s w)) in *.
  assert (K : _keepAlive s0 = true /\ _host s0 = _host s
              /\ _keepAliveTimeout s0 = _keepAliveTimeout s
              /\ _lastRequest s0 = _lastRequest s).
  { rewrite F. cbn. rewrite Hk. repeat split. }
  destruct K as [K1 [K2 [K3 K4]]].
  rewrite S. unfold received. cbn [_mustReconnect with_pResponseStream
                                     with_mustReconnect].
  rewrite K1. cbn [andb]. split; [reflexivity |].
  match goal with
  | |- context [sendRequest request ?s1 w'] =>
      destruct (sendRequest_trace request s1 w') as [ok [evs E]];
      exists ok, evs; rewrite E;
      change (route_of s1) with (route_of s0); rewrite Hr;
      unfold entering_world; rewrite (closes_first_cases s1 w')
  end.
  cbn [connected_of _socket _keepAlive _mustReconnect _keepAliveTimeout
       _lastRequest _host with_pResponseStream with_mustReconnect].
  rewrite K1, K2, K3, K4, Hh. cbn [negb andb orb].
  rewrite andb_false_r, andb_true_r. cbn [orb].
  destruct (negb (HTTPResponse.getKeepAlive response)
            || (_keepAliveTimeout s <=? now w' - _lastRequest s)); reflexivity.
Qed.

(** X15: a HEAD exchange has no response body.  After a [sendRequest]
    that returns, a response body is expected exactly when the method of
    the request is not HEAD, spelled so; and after a HEAD request, whatever
    response [receiveResponse] returns, its input stream is the
    fixed-length stream of length 0. *)
Theorem head_request_no_response_body
    (request : HTTPRequest.t) (s : HTTPClientSession) (w : World)
    (request' : HTTPRequest.t) (os : OutputStream) :
  result (sendRequest request s w) = Ok (request', os) ->
  let sent := session (sendRequest request s w) in
  _expectResponseBody sent
  = negb (String.eqb (HTTPRequest.getMethod request) HTTPRequest.HTTP_HEAD)
  /\ (HTTPRequest.getMethod request = HTTPRequest.HTTP_HEAD ->
      forall response0 w1 response stream,
        result (receiveResponse response0 sent w1) = Ok (response, stream) ->
        stream = HTTPFixedLengthInputStream 0).
Proof.
  intros H. cbv zeta.
  destruct (sendRequest_Ok request s w request' os H)
    as [_ [Hq [_ [_ [_ Hb]]]]].
  destruct (prepared_request_framing s (_keepAlive s) request) as [Fm _].
  rewrite <- Hq in Fm. rewrite Fm in Hb.
  split; [exact Hb |].
  intros Hm response0 w1 response stream R.
  destruct (receiveResponse_Ok _ w1 response0 response stream R) as [Hsel _].
  rewrite Hsel, Hb, Hm. reflexivity.
Qed.

(** ** Setters and the next request *)

(** X16: [reset] makes way for a new target.  On every session, connected
    or not, [reset] followed by [setHost] and [setPort] succeeds: the
    transport is closed and the session has the new host and port.  When no
    proxy is configured, every connection attempt of the next [sendRequest]
    goes to the new host and port. *)
Theorem reset_then_retarget
    (s : HTTPClientSession) (w : World) (host : string) (port : Z) :
  let run := (reset ;; setHost host ;; setPort port) s w in
  run = mkRun (Ok tt) (with_port port (with_host host (with_socket None s)))
          (log_event EvClose w)
  /\ (empty (pc_host (_proxyConfig s)) = true ->
      forall request w',
      exists evs,
        trace (world (sendRequest request (session run) w'))
        = (evs ++ trace w')%list
        /\ Forall (eq (mkSocketAddress host port)) (connections evs)).
Proof.
  cbv zeta.
  assert (R : (reset ;; setHost host ;; setPort port) s w
              = mkRun (Ok tt)
                  (with_port port (with_host host (with_socket None s)))
                  (log_event EvClose w)) by reflexivity.
  split; [exact R |].
  intros Hp request w'. rewrite R. cbn [session].
  match goal with
  | |- context [sendRequest request ?s1 w'] =>
      destruct (sendRequest_connections request s1 w') as [evs [E A]];
      exists evs; split; [exact E |];
      unfold route_of in A; cbn [_proxyConfig with_port with_host with_socket
                                  _host _port] in A
  end.
  rewrite Hp in A. exact A.
Qed.

(** X17: [setProxyConfig] takes effect on every session, connected or not:
    it succeeds, nothing happens to the transport, and every connection
    attempt of the next [sendRequest] goes where the new configuration
    says, to its proxy or, without proxy host or for a host that matches
    its non-proxy pattern, to the host and port of the session. *)
Theorem setProxyConfig_routes_next_request
    (s : HTTPClientSession) (w : World) (config : ProxyConfig)
    (request : HTTPRequest.t) (w' : World) :
  let run := setProxyConfig config s w in
  let bypass :=
    negb (empty (pc_nonProxyHosts config))
    && RegularExpression_match (_host s) (pc_nonProxyHosts config)
         (Z.lor RE_CASELESS RE_ANCHORED) in
  let address :=
    if empty (pc_host config) || bypass
    then mkSocketAddress (_host s) (_port s)
    else mkSocketAddress (pc_host config) (pc_port config) in
  result run = Ok tt
  /\ world run = w
  /\ _socket (session run) = _socket s
  /\ exists evs,
       trace (world (sendRequest request (session run) w'))
       = (evs ++ trace w')%list
       /\ Forall (eq address) (connections evs).
Proof.
  cbv zeta. split; [reflexivity |]. split; [reflexivity |].
  split; [reflexivity |].
  destruct (sendRequest_connections request
              (session (setProxyConfig config s w)) w') as [evs [E A]].
  exists evs. split; [exact E |].
  unfold route_of, bypassProxy, setProxyConfig, modify in A.
  cbn [session _proxyConfig _host _port with_proxyConfig] in A.
  destruct (negb (empty (pc_nonProxyHosts config))); exact A.
Qed.

(** X18: the proxy credentials that have been set are the ones that are
    sent.  After [setProxyCredentials], a request that [sendRequest] sends
    through the proxy carries the proxy authentication made of that user
    name and password; after an empty user name has been set, the request
    carries the proxy authentication that the caller gave it, or none. *)
Theorem setProxyCredentials_then_sendRequest
    (s : HTTPClientSession) (w : World) (username password : string)
    (request : HTTPRequest.t) (w' : World)
    (request' : HTTPRequest.t) (os : OutputStream) :
  let s1 := session (setProxyCredentials username password s w) in
  result (sendRequest request s1 w') = Ok (request', os) ->
  empty (pc_host (_proxyConfig s)) = false ->
  bypassProxy s = false ->
  HTTPRequest.get HTTPRequest.PROXY_AUTHORIZATION request'
  = if empty username
    then HTTPRequest.get HTTPRequest.PROXY_AUTHORIZATION request
    else Some (basic_value username password).
Proof.
  cbv zeta. intros H Hp Hb.
  destruct (sendRequest_Ok request _ w' request' os H) as [_ [Hq _]].
  subst request'. rewrite prepared_request_authorization.
  unfold setProxyCredentials, modify_proxyConfig, modify, bind, bypassProxy
    in *.
  cbn [session _proxyConfig _host with_proxyConfig pc_with_username
       pc_with_password pc_host pc_username pc_password pc_nonProxyHosts].
  rewrite Hp, Hb. cbn [negb andb].
  destruct (empty username); reflexivity.
Qed.

(** ** The connections of a tunnel *)

Lemma receiveResponse_events response0 s w :
  exists pre,
    trace (world (receiveResponse response0 s w)) = (pre ++ trace w)%list
    /\ Forall (eq (route_of s)) (connections pre).
Proof.
  destruct (flushRequest_run s w) as [_ [_ [[_ [_ [_ [_ [evs [E A]]]]]] _]]].
  destruct (result (receiveResponse response0 s w)) as [[r st] | e] eqn:R.
  - destruct (receiveResponse_session response0 s w r st R) as [_ [_ [T _]]].
    exists evs. rewrite T. split; assumption.
  - pose proof (receiveResponse_Throw response0 s w e R) as T. cbv zeta in T.
    destruct (result (flushRequest s w)).
    + destruct T as [_ [_ [T _]]]. exists (EvClose :: evs).
      rewrite T, E. split; [reflexivity | exact A].
    + destruct T as [_ [_ T]]. rewrite T. exists evs. split; assumption.
Qed.

(** X19: the negotiation of a tunnel talks to the proxy only.  Every
    connection attempt that [proxyTunnel] makes, whatever the outcome, goes
    to the host and port of the proxy configuration; none goes to the
    target. *)
Theorem proxyTunnel_connects_to_proxy (s : HTTPClientSession) (w : World) :
  let proxy :=
    mkSocketAddress (pc_host (_proxyConfig s)) (pc_port (_proxyConfig s)) in
  exists evs,
    trace (world (proxyTunnel s w)) = (evs ++ trace w)%list
    /\ Forall (eq proxy) (connections evs).
Proof.
  cbv zeta. unfold proxyTunnel, proxyConnect.
  cbv beta iota zeta delta [bind gets clock on_session ret throw attachSocket
                              modify detachSocket fst snd].
  match goal with
  | |- context [sendRequest (proxyRequest_of s) ?ps w] =>
      destruct (sendRequest_connections (proxyRequest_of s) ps w)
        as [evs [E A]];
      pose proof (sendRequest_route (proxyRequest_of s) ps w) as Hr;
      change (route_of ps)
        with (mkSocketAddress (pc_host (_proxyConfig s))
                (pc_port (_proxyConfig s))) in A, Hr;
      destruct (sendRequest (proxyRequest_of s) ps w) as [[sent | e] ps1 w1];
      cbn [world session] in E, Hr;
      [| exists evs; split; [exact E | exact A]]
  end.
  destruct (receiveResponse_events HTTPResponse.new ps1 w1) as [pre [E1 A1]].
  rewrite Hr in A1.
  destruct (receiveResponse HTTPResponse.new ps1 w1)
    as [[[proxyResponse stream] | e] ps2 w2]; cbn [world fst snd] in *;
    try destruct (negb (HTTPResponse.getStatus proxyResponse
                        =? HTTPResponse.HTTP_OK));
    cbn [world];
    exists (pre ++ evs)%list;
    (split;
     [ rewrite E1, E, app_assoc; reflexivity
     | rewrite connections_app; apply Forall_app; split; assumption ]).
Qed.

(** ** New sessions *)


(** X21: a session constructed around a socket has no host.  The default
    constructor gives the same session around a socket that is not
    connected.  Whatever the socket, [sendRequest] does not close it before
    the connection attempt, which follows the events of before at once, and
    the request is sent with the Host header that the caller gave it, or
    with none. *)
Theorem socket_session_first_request
    (socket : StreamSocket) (statics : Statics) (t : Z) :
  let s := HTTPClientSession_of_socket socket statics t in
  HTTPClientSession_default statics t
    = HTTPClientSession_of_socket None statics t
  /\ _socket s = socket
  /\ (forall request w,
      exists ok evs,
        trace (world (sendRequest request s w))
        = (evs ++ EvConnect (route_of s) ok :: trace w)%list)
  /\ (forall request w request' os,
        result (sendRequest request s w) = Ok (request', os) ->
        HTTPRequest.get HTTPRequest.HOST request'
        = HTTPRequest.get HTTPRequest.HOST request).
Proof.
  cbv zeta. split; [reflexivity |]. split; [reflexivity |]. split.
  - intros request w.
    match goal with
    | |- context [sendRequest request ?s1 w] =>
        destruct (sendRequest_trace request s1 w) as [ok [evs E]];
        exists ok, evs; rewrite E;
        unfold entering_world; rewrite (closes_first_cases s1 w)
    end.
    cbn [_host HTTPClientSession_of_socket HTTPClientSession_new with_socket
         empty negb].
    rewrite andb_false_r. reflexivity.
  - intros request w request' os H.
    destruct (sendRequest_Ok request _ w request' os H) as [_ [Hq _]].
    subst request'. rewrite prepared_request_host.
    destruct (HTTPRequest.get HTTPRequest.HOST request); reflexivity.
Qed.

(** ** The log line *)

Lemma length_append a b :
  String.length (a ++ b) = (String.length a + String.length b)%nat.
Proof. induction a as [| c a' IH]; cbn; [reflexivity | rewrite IH; reflexivity]. Qed.

Lemma length_skip n : forall s,
  String.length (skip n s) = (String.length s - n)%nat.
Proof.
  induction n as [| n' IH]; intros [| c s']; cbn; try reflexivity.
  apply IH.
Qed.

Lemma get_skip n : forall s i, String.get i (skip n s) = String.get (i + n) s.
Proof.
  induction n as [| n' IH]; intros s i.
  - rewrite Nat.add_0_r. reflexivity.
  - destruct s as [| c s']; cbn.
    + destruct (i + S n')%nat; reflexivity.
    + rewrite IH. rewrite Nat.add_succ_r. reflexivity.
Qed.

(** X22: the log line of [CustomPatternFormatter].  Formatting never
    fails.  The local time takes the place of the first characters of the
    formatted text, as many as the local time has: the line begins with the
    local time, and from that position on the line is the formatted text,
    character by character.  The length of the line is the length of the
    formatted text, or that of the local time when the text is shorter. *)
Theorem CustomPatternFormatter_format_line
    (formatted localTime text : string) :
  exists line,
    CustomPatternFormatter_format formatted localTime text = Some line
    /\ String.length line
       = Nat.max (String.length (text ++ formatted)) (String.length localTime)
    /\ (forall i, (i < String.length localTime)%nat ->
          String.get i line = String.get i localTime)
    /\ (forall i, (String.length localTime <= i)%nat ->
          String.get i line = String.get i (text ++ formatted)).
Proof.
  unfold CustomPatternFormatter_format, string_replace. cbn.
  eexists. split; [reflexivity |]. split; [| split].
  - rewrite length_append, length_skip. lia.
  - intros i Hi. symmetry. apply append_correct1. exact Hi.
  - intros i Hi.
    replace i with ((i - String.length localTime) + String.length localTime)%nat
      at 1 by lia.
    rewrite <- append_correct2, get_skip. f_equal. lia.
Qed.

End Properties.

(** ** Runs on concrete sessions *)

(** C3, counterexample: [setProxyUsername] does not check the connection.
    On a connected session it raises nothing and the proxy user name is
    changed. *)
Lemma setProxyUsername_on_connected_session :
  connected_of connected_session = true
  /\ pc_username (_proxyConfig connected_session) = ""
  /\ result (setProxyUsername "alice" connected_session (quiet 0 [])) = Ok tt
  /\ pc_username
       (_proxyConfig
          (session (setProxyUsername "alice" connected_session (quiet 0 []))))
     = "alice"
  /\ ~ checks_connection (setProxyUsername "alice")
         (fun x => pc_username (_proxyConfig x)) "alice"
         connected_session (quiet 0 []).
Proof.
  repeat split.
  unfold checks_connection. simpl. intros [[e [H _]] _]. discriminate H.
Qed.

Lemma peekResponse_flag_and_result_witness :
  result (peekResponse HTTPResponse.new sent_session
            (quiet 0 [ReadHead continue_response]))
    = Ok (continue_response, true)
  /\ _responseReceived
       (session (peekResponse HTTPResponse.new sent_session
                   (quiet 0 [ReadHead continue_response])))
     = false.
Proof.
  split; [reflexivity |].
  apply (peekResponse_flag_and_result sent_session
           (quiet 0 [ReadHead continue_response]) HTTPResponse.new
           continue_response true).
  reflexivity.
Defined.

(** C2, counterexample: the head read has status 200, a final response,
    and [peekResponse] returns false (with the pending-response flag set). *)
Lemma peekResponse_final_returns_false :
  result (peekResponse HTTPResponse.new sent_session
            (quiet 0 [ReadHead ok_response]))
    = Ok (ok_response, false)
  /\ HTTPResponse.getStatus ok_response <> HTTPResponse.HTTP_CONTINUE
  /\ _responseReceived
       (session (peekResponse HTTPResponse.new sent_session
                   (quiet 0 [ReadHead ok_response])))
     = true.
Proof. repeat split. discriminate. Qed.


Example receiveResponse_chunked_before_length :
  result (receiveResponse HTTPResponse.new sent_session
            (quiet 0 [ReadHead continue_response;
                      ReadHead chunked_sized_response]))
  = Ok (chunked_sized_response, HTTPChunkedInputStream).
Proof. reflexivity. Qed.

Example receiveResponse_declared_length :
  result (receiveResponse HTTPResponse.new sent_session
            (quiet 0 [ReadHead sized_response]))
  = Ok (sized_response, HTTPFixedLengthInputStream 500).
Proof. reflexivity. Qed.

Example receiveResponse_until_close :
  result (receiveResponse HTTPResponse.new sent_session
            (quiet 0 [ReadHead ok_response]))
  = Ok (ok_response, HTTPInputStream).
Proof. reflexivity. Qed.


Lemma sendRequest_fixed_length_witness :
  result (sendRequest post_request direct_session (quiet 0 []))
    = Ok (post_request_sent, post_stream)
  /\ os_kind post_stream = HTTPFixedLengthOutputStream (11 + 62)
  /\ os_inserted post_stream = serialize post_request_sent.
Proof.
  assert (H : result (sendRequest post_request direct_session (quiet 0 []))
              = Ok (post_request_sent, post_stream)) by reflexivity.
  split; [exact H |].
  destruct (sendRequest_fixed_length post_request direct_session
              (quiet 0 []) post_request_sent post_stream 11
              H eq_refl eq_refl) as [_ [_ [K [_ [I _]]]]].
  split; [| exact I].
  apply K. vm_compute. split; [intros X; discriminate X | reflexivity].
Defined.

(** C5, counterexample: the request declares the largest 64-bit length.
    With the 79 bytes of the head the sum does not fit: the length of the
    stream is negative, and it is not the declared length plus the bytes of
    the head. *)
Lemma sendRequest_fixed_length_overflow :
  exists request' os,
    result (sendRequest huge_post_request direct_session (quiet 0 []))
    = Ok (request', os)
    /\ HTTPRequest.getChunkedTransferEncoding huge_post_request = false
    /\ HTTPRequest.contentLength huge_post_request = Some (2 ^ 63 - 1)
    /\ strlen (serialize request') = 79
    /\ os_kind os = HTTPFixedLengthOutputStream (- 2 ^ 63 + 78)
    /\ os_kind os
       <> HTTPFixedLengthOutputStream
            (2 ^ 63 - 1 + strlen (serialize request')).
Proof.
  eexists. eexists. split; [vm_compute; reflexivity |].
  split; [reflexivity |]. split; [reflexivity |].
  split; [vm_compute; reflexivity |]. split; [vm_compute; reflexivity |].
  vm_compute. intros X. discriminate X.
Qed.

(** The round trip of the specification, with and without bypass. *)
Example sendRequest_through_proxy :
  exists os,
    result (sendRequest get_request
              (proxied_session "public.example.com" "alice" "secret")
              (quiet 0 []))
    = Ok (HTTPRequest.mk "GET" "http://public.example.com:80/path"
            [("Host", "public.example.com");
             ("Proxy-Authorization", "Basic alice:secret")]
            false false None, os).
Proof. exists (head_stream get_request_authenticated). reflexivity. Qed.

Example sendRequest_bypassing_proxy :
  exists os,
    result (sendRequest get_request
              (proxied_session "Internal.Example.COM" "alice" "secret")
              (quiet 0 []))
    = Ok (HTTPRequest.mk "GET" "/path" [("Host", "Internal.Example.COM")]
            false false None, os).
Proof.
  exists (head_stream
            (HTTPRequest.mk "GET" "/path" [("Host", "Internal.Example.COM")]
               false false None)).
  reflexivity.
Qed.

Lemma sendRequest_proxy_or_bypass_witness :
  result (sendRequest get_request
            (proxied_session "public.example.com" "alice" "secret")
            (quiet 0 []))
    = Ok (get_request_authenticated, head_stream get_request_authenticated)
  /\ HTTPRequest.uri get_request_authenticated
     = "http://public.example.com:80/path".
Proof.
  assert (H : result (sendRequest get_request
                        (proxied_session "public.example.com" "alice" "secret")
                        (quiet 0 []))
              = Ok (get_request_authenticated,
                    head_stream get_request_authenticated)) by reflexivity.
  split; [exact H |].
  exact (proj1 (sendRequest_proxy_or_bypass get_request
                  (proxied_session "public.example.com" "alice" "secret")
                  (quiet 0 []) get_request_authenticated
                  (head_stream get_request_authenticated) H eq_refl)).
Defined.

(** C9, counterexample: the session has a proxy, the target does not
    bypass it, and no proxy user name is configured.  The target is
    rewritten and no proxy credential header is added. *)
Lemma sendRequest_proxy_without_username :
  empty (pc_host (_proxyConfig (proxied_session "public.example.com" "" "")))
    = false
  /\ bypassProxy (proxied_session "public.example.com" "" "") = false
  /\ result (sendRequest get_request
               (proxied_session "public.example.com" "" "") (quiet 0 []))
     = Ok (get_request_proxied, head_stream get_request_proxied)
  /\ HTTPRequest.headers get_request_proxied = [("Host", "public.example.com")]
  /\ HTTPRequest.has HTTPRequest.PROXY_AUTHORIZATION get_request_proxied
     = false.
Proof. repeat split. Qed.


(** Where the transport accepts the attempt, the request follows it when
    the request stream is flushed. *)
Example sendRequest_reconnects_before_sending :
  trace (world (sendRequest get_request keepalive_session (quiet 0 [])))
  = [EvConnect example_com true]
  /\ trace (world ((sendRequest get_request ;; flushRequest)
                     keepalive_session (quiet 0 [])))
     = [EvSend (Some example_com) (serialize get_request_sent) true;
        EvConnect example_com true].
Proof. split; reflexivity. Qed.

(** The first write of a keep-alive request fails with an I/O error: the
    session reconnects once and sends the same bytes again. *)
Lemma write_retries_once_witness :
  result (write "request bytes" writing_session
            (lossy [Some broken_pipe]))
    = Ok 13
  /\ _reconnect
       (session (write "request bytes" writing_session
                   (lossy [Some broken_pipe])))
     = false
  /\ trace (world (write "request bytes" writing_session
                     (lossy [Some broken_pipe])))
     = [EvSend (Some example_com) "request bytes" true;
        EvConnect example_com true;
        EvClose;
        EvSend (Some example_com) "request bytes" false].
Proof.
  split; [reflexivity |].
  split; [| reflexivity].
  exact (proj1 (proj2 (proj2 (write_retries_once writing_session
                                (lossy [Some broken_pipe])
                                "request bytes")) 13 eq_refl)).
Defined.

(** C7, counterexample: the second write of a request cycle is retried.
    The first write fails, and so does its retry: the write raises and the
    retryable flag is still set.  The write that follows fails, is retried
    on a new connection and succeeds, and the network exception that the
    first write has left on the session is cleared. *)
Lemma write_retried_after_failed_retry :
  let first :=
    write "head" writing_session
      (lossy [Some broken_pipe; Some broken_pipe; Some broken_pipe]) in
  let second := write "body" (session first) (world first) in
  result first = Throw broken_pipe
  /\ _pException (session first) = Some broken_pipe
  /\ _reconnect (session first) = true
  /\ result second = Ok 4
  /\ _pException (session second) = None
  /\ trace (world second)
     = [EvSend (Some example_com) "body" true;
        EvConnect example_com true;
        EvClose;
        EvSend (Some example_com) "body" false;
        EvSend (Some example_com) "head" false;
        EvConnect example_com true;
        EvClose;
        EvSend (Some example_com) "head" false].
Proof. cbv zeta. repeat split. Qed.

(** A second failure, on the retry, is raised and nothing more is sent. *)
Example write_retry_fails :
  result (write "request bytes" writing_session
            (lossy [Some broken_pipe; Some broken_pipe]))
    = Throw broken_pipe
  /\ _reconnect
       (session (write "request bytes" writing_session
                   (lossy [Some broken_pipe; Some broken_pipe])))
     = true
  /\ trace (world (write "request bytes" writing_session
                     (lossy [Some broken_pipe; Some broken_pipe])))
     = [EvSend (Some example_com) "request bytes" false;
        EvConnect example_com true;
        EvClose;
        EvSend (Some example_com) "request bytes" false].
Proof. repeat split. Qed.

(** Without the retryable flag the failure is raised at once. *)
Example write_without_retry :
  result (write "request bytes" keepalive_session
            (lossy [Some broken_pipe]))
    = Throw broken_pipe
  /\ trace (world (write "request bytes" keepalive_session
                     (lossy [Some broken_pipe])))
     = [EvSend (Some example_com) "request bytes" false].
Proof. split; reflexivity. Qed.

Lemma proxy_authentication_by_username_witness :
  result (sendRequest get_request
            (proxied_session "public.example.com" "alice" "secret")
            (quiet 0 []))
    = Ok (get_request_authenticated, head_stream get_request_authenticated)
  /\ HTTPRequest.headers get_request_authenticated
     = NameValueCollection.set HTTPRequest.PROXY_AUTHORIZATION
         "Basic alice:secret" (HTTPRequest.headers get_request_proxied).
Proof.
  assert (H : result (sendRequest get_request
                        (proxied_session "public.example.com" "alice" "secret")
                        (quiet 0 []))
              = Ok (get_request_authenticated,
                    head_stream get_request_authenticated)) by reflexivity.
  split; [exact H |].
  destruct (proxy_authentication_by_username
              (proxied_session "public.example.com" "alice" "secret")
              get_request) as [_ [_ [P _]]].
  destruct (P (quiet 0 []) get_request_authenticated
              (head_stream get_request_authenticated) H eq_refl eq_refl)
    as [_ [_ Hh]].
  exact Hh.
Defined.

(** The scenario of the specification: the proxy answers the CONNECT
    request with status 407. *)
Example proxyTunnel_refused :
  proxyTunnel (tunnel_session "alice" "secret")
    (quiet 0 [ReadHead auth_required_response])
  = mkRun (Throw (mkException HTTPException "Cannot establish proxy connection"
                    "Proxy Authentication Required"))
      (tunnel_session "alice" "secret")
      (mkWorld 0 [] [] []
         [EvSend (Some proxy_3128)
            (serialize (proxyRequest_of (tunnel_session "alice" "secret"))) true;
          EvConnect proxy_3128 true]).
Proof. reflexivity. Qed.

Example proxyTunnel_established :
  proxyTunnel (tunnel_session "alice" "secret") (quiet 0 [ReadHead ok_response])
  = mkRun (Ok tt)
      (with_socket (Some proxy_3128) (tunnel_session "alice" "secret"))
      (mkWorld 0 [] [] []
         [EvSend (Some proxy_3128)
            (serialize (proxyRequest_of (tunnel_session "alice" "secret"))) true;
          EvConnect proxy_3128 true]).
Proof. reflexivity. Qed.

(** C8, counterexample: no proxy user name is configured.  The CONNECT
    request that is sent carries no proxy credentials, and the tunnel is
    established all the same. *)
Lemma proxyTunnel_without_username :
  HTTPRequest.headers (proxyRequest_of (tunnel_session "" ""))
    = [("Proxy-Connection", "keep-alive"); ("Host", "target.example.com")]
  /\ HTTPRequest.has HTTPRequest.PROXY_AUTHORIZATION
       (proxyRequest_of (tunnel_session "" "")) = false
  /\ proxyTunnel (tunnel_session "" "") (quiet 0 [ReadHead ok_response])
     = mkRun (Ok tt)
         (with_socket (Some proxy_3128) (tunnel_session "" ""))
         (mkWorld 0 [] [] []
            [EvSend (Some proxy_3128)
               (serialize (proxyRequest_of (tunnel_session "" ""))) true;
             EvConnect proxy_3128 true]).
Proof. repeat split. Qed.

(** The scenarios of the specification on connection reuse and on HEAD. *)
Example sendRequest_after_keep_alive_timeout :
  trace (world (sendRequest get_request keepalive_session (quiet 9000000 [])))
  = [EvConnect example_com true; EvClose].
Proof. reflexivity. Qed.

Example head_request_has_no_body :
  let sent :=
    sendRequest (HTTPRequest.new "HEAD" "/path") direct_session
      (quiet 0 [ReadHead sized_response]) in
  _expectResponseBody (session sent) = false
  /\ result (receiveResponse HTTPResponse.new (session sent) (world sent))
     = Ok (sized_response, HTTPFixedLengthInputStream 0).
Proof. split; reflexivity. Qed.

(** ** Further runs on concrete sessions *)

Lemma sendRequest_host_header_witness :
  result (sendRequest get_request_virtual direct_session (quiet 0 []))
    = Ok (get_request_virtual_sent, head_stream get_request_virtual_sent)
  /\ HTTPRequest.get HTTPRequest.HOST get_request_virtual_sent
     = Some "virtual.example.com".
Proof.
  assert (H : result (sendRequest get_request_virtual direct_session (quiet 0 []))
              = Ok (get_request_virtual_sent,
                    head_stream get_request_virtual_sent)) by reflexivity.
  split; [exact H |].
  rewrite (sendRequest_host_header get_request_virtual direct_session
             (quiet 0 []) get_request_virtual_sent
             (head_stream get_request_virtual_sent) H).
  reflexivity.
Defined.

Lemma sendRequest_request_preserved_witness :
  result (sendRequest get_request_accept direct_session (quiet 0 []))
    = Ok (get_request_accept_sent, head_stream get_request_accept_sent)
  /\ HTTPRequest.keepAlive get_request_accept_sent = false
  /\ HTTPRequest.get "accept" get_request_accept_sent = Some "text/html".
Proof.
  assert (H : result (sendRequest get_request_accept direct_session (quiet 0 []))
              = Ok (get_request_accept_sent,
                    head_stream get_request_accept_sent)) by reflexivity.
  split; [exact H |].
  destruct (sendRequest_request_preserved get_request_accept direct_session
              (quiet 0 []) get_request_accept_sent
              (head_stream get_request_accept_sent) H)
    as [_ [_ [_ [K G]]]].
  split; [exact K |].
  exact (G "accept" eq_refl eq_refl eq_refl).
Defined.

Lemma sendRequest_output_stream_witness :
  result (sendRequest put_request direct_session (quiet 0 []))
    = Ok (put_request_sent, plain_stream put_request_sent)
  /\ os_inserted (plain_stream put_request_sent) = serialize put_request_sent
  /\ os_kind (plain_stream put_request_sent) = HTTPOutputStream.
Proof.
  assert (H : result (sendRequest put_request direct_session (quiet 0 []))
              = Ok (put_request_sent, plain_stream put_request_sent))
    by reflexivity.
  split; [exact H |].
  exact (sendRequest_output_stream put_request direct_session (quiet 0 [])
           put_request_sent (plain_stream put_request_sent) H).
Defined.

(** A chunked request that also declares a length gets a chunked stream. *)
Example sendRequest_chunked_before_length :
  result (sendRequest chunked_post_request direct_session (quiet 0 []))
  = Ok (chunked_post_request_sent, new_ostream HTTPChunkedOutputStream).
Proof. reflexivity. Qed.

(** The request is sent at time 5 with the default keep-alive timeout of
    8 seconds: the window ends at time 8000005. *)
Lemma sendRequest_opens_keep_alive_window_witness :
  result (sendRequest get_request direct_session (quiet 5 []))
    = Ok (get_request_closing, head_stream get_request_closing)
  /\ result (mustReconnect
               (session (sendRequest get_request direct_session (quiet 5 [])))
               (quiet 8000004 []))
     = Ok false
  /\ result (mustReconnect
               (session (sendRequest get_request direct_session (quiet 5 [])))
               (quiet 8000005 []))
     = Ok true.
Proof.
  assert (H : result (sendRequest get_request direct_session (quiet 5 []))
              = Ok (get_request_closing, head_stream get_request_closing))
    by reflexivity.
  split; [exact H |].
  destruct (sendRequest_opens_keep_alive_window get_request direct_session
              (quiet 5 []) get_request_closing
              (head_stream get_request_closing) H eq_refl) as [W _].
  split; [exact (W (quiet 8000004 [])) | exact (W (quiet 8000005 []))].
Defined.

(** A request is sent, and the peer answers with two continue heads, the
    final head, and the head of a later response: the head of the request
    goes out when the request stream is disposed of, and the response is
    the final head. *)
Lemma receiveResponse_skips_continue_witness :
  let sent :=
    sendRequest get_request direct_session
      (quiet 0 [ReadHead continue_response; ReadHead continue_response;
                ReadHead ok_response; ReadHead sized_response]) in
  let run := receiveResponse HTTPResponse.new (session sent) (world sent) in
  result run = Ok (ok_response, HTTPInputStream)
  /\ heads (world run) = [ReadHead sized_response]
  /\ trace (world run)
     = [EvSend (Some example_com) (serialize get_request_closing) true;
        EvConnect example_com true].
Proof.
  cbv zeta.
  rewrite (receiveResponse_skips_continue
             (session (sendRequest get_request direct_session
                         (quiet 0 [ReadHead continue_response;
                                   ReadHead continue_response;
                                   ReadHead ok_response;
                                   ReadHead sized_response])))
             (world (sendRequest get_request direct_session
                       (quiet 0 [ReadHead continue_response;
                                 ReadHead continue_response;
                                 ReadHead ok_response;
                                 ReadHead sized_response])))
             HTTPResponse.new [continue_response; continue_response]
             ok_response [ReadHead sized_response]);
    try reflexivity.
  - repeat split.
  - discriminate.
Defined.

(** The connection is reset while the response head is read: the reader
    finds no head, and the session raises the failure of the transport. *)
Lemma receiveResponse_failure_witness :
  result (receiveResponse HTTPResponse.new sent_session
            (quiet 0 [ReadFail NoMessageException (Some broken_pipe)]))
    = Throw broken_pipe
  /\ connected_of
       (session (receiveResponse HTTPResponse.new sent_session
                   (quiet 0 [ReadFail NoMessageException (Some broken_pipe)])))
     = false
  /\ trace
       (world (receiveResponse HTTPResponse.new sent_session
                 (quiet 0 [ReadFail NoMessageException (Some broken_pipe)])))
     = [EvClose; EvShutdownSend (Some example_com)].
Proof.
  assert (H : result (receiveResponse HTTPResponse.new sent_session
                        (quiet 0 [ReadFail NoMessageException (Some broken_pipe)]))
              = Throw broken_pipe) by reflexivity.
  split; [exact H |].
  destruct (receiveResponse_failure sent_session
              (quiet 0 [ReadFail NoMessageException (Some broken_pipe)])
              HTTPResponse.new broken_pipe H) as [_ T].
  change (result (flushRequest sent_session
                    (quiet 0 [ReadFail NoMessageException (Some broken_pipe)])))
    with (@Ok unit tt) in T.
  cbv iota in T. destruct T as [_ [C [T _]]].
  split; [exact C | rewrite T; reflexivity].
Defined.

(** A recorded network exception is raised before anything is read. *)
Example receiveResponse_deferred_exception :
  receiveResponse HTTPResponse.new
    (with_pException (Some broken_pipe) sent_session)
    (quiet 0 [ReadHead ok_response])
  = mkRun (Throw broken_pipe)
      (with_pRequestStream None
         (with_pException (Some broken_pipe) sent_session))
      (mkWorld 0 [] [] [ReadHead ok_response]
         [EvShutdownSend (Some example_com)]).
Proof. reflexivity. Qed.

(** The head of the request cannot be sent: the exception that the
    disposal of the request stream leaves on the session is raised, and no
    head is read. *)
Example receiveResponse_head_not_sent :
  let sent := sendRequest get_request direct_session
                (mkWorld 0 [] [Some broken_pipe] [ReadHead ok_response] []) in
  let run := receiveResponse HTTPResponse.new (session sent) (world sent) in
  result sent = Ok (get_request_closing, head_stream get_request_closing)
  /\ result run = Throw broken_pipe
  /\ heads (world run) = [ReadHead ok_response]
  /\ trace (world run)
     = [EvSend (Some example_com) (serialize get_request_closing) false;
        EvConnect example_com true].
Proof. cbv zeta. repeat split. Qed.

(** The first write of a keep-alive request is the flush of its head: it
    fails, and the session reconnects and sends the head again. *)
Example flushRequest_retries_head :
  let sent := sendRequest get_request keepalive_session
                (mkWorld 0 [] [Some broken_pipe] [] []) in
  let run := flushRequest (session sent) (world sent) in
  _reconnect (session sent) = true
  /\ result run = Ok tt
  /\ _reconnect (session run) = false
  /\ trace (world run)
     = [EvSend (Some example_com) (serialize get_request_sent) true;
        EvConnect example_com true;
        EvClose;
        EvSend (Some example_com) (serialize get_request_sent) false;
        EvConnect example_com true].
Proof. cbv zeta. repeat split. Qed.

(** A second [peekResponse] after the final response. *)
Lemma peekResponse_requirements_witness :
  let peeked :=
    peekResponse HTTPResponse.new sent_session
      (quiet 0 [ReadHead ok_response; ReadHead sized_response]) in
  result peeked = Ok (ok_response, false)
  /\ peekResponse HTTPResponse.new (session peeked) (world peeked)
     = mkRun (Throw AssertionViolation) (session peeked) (world peeked)
  /\ heads (world peeked) = [ReadHead sized_response].
Proof.
  cbv zeta.
  assert (H : result (peekResponse HTTPResponse.new sent_session
                        (quiet 0 [ReadHead ok_response; ReadHead sized_response]))
              = Ok (ok_response, false)) by reflexivity.
  split; [exact H |].
  split; [| reflexivity].
  exact (proj2 (peekResponse_requirements sent_session
                  (quiet 0 [ReadHead ok_response; ReadHead sized_response])
                  HTTPResponse.new) ok_response H HTTPResponse.new).
Defined.

(** Without a request stream the handle is null. *)
Example peekResponse_before_sendRequest :
  peekResponse HTTPResponse.new connected_session (quiet 0 [ReadHead ok_response])
  = mkRun (Throw NullPointer) connected_session (quiet 0 [ReadHead ok_response]).
Proof. reflexivity. Qed.

(** [peekResponse] sends the head of the request before it reads. *)
Example peekResponse_flushes_head :
  let sent := sendRequest get_request direct_session
                (quiet 0 [ReadHead continue_response]) in
  let peeked := peekResponse HTTPResponse.new (session sent) (world sent) in
  result peeked = Ok (continue_response, true)
  /\ trace (world peeked)
     = [EvSend (Some example_com) (serialize get_request_closing) true;
        EvConnect example_com true].
Proof. cbv zeta. split; reflexivity. Qed.

(** A chunked request, a final response that is peeked, and
    [receiveResponse]: the disposal of the chunked stream sends the last
    chunk, and no head is read. *)
Lemma peekResponse_then_receiveResponse_witness :
  let sent :=
    sendRequest chunked_post_request direct_session
      (quiet 0 [ReadHead ok_response; ReadHead sized_response]) in
  let peeked := peekResponse HTTPResponse.new (session sent) (world sent) in
  let run := receiveResponse ok_response (session peeked) (world peeked) in
  result peeked = Ok (ok_response, false)
  /\ result run = Ok (ok_response, HTTPInputStream)
  /\ heads (world run) = [ReadHead sized_response]
  /\ trace (world run)
     = [EvSend (Some example_com) (chunk_frame "") true;
        EvSend (Some example_com) (serialize chunked_post_request_sent) true;
        EvConnect example_com true].
Proof.
  cbv zeta.
  assert (H : result (peekResponse HTTPResponse.new
                        (session (sendRequest chunked_post_request
                                    direct_session
                                    (quiet 0 [ReadHead ok_response;
                                              ReadHead sized_response])))
                        (world (sendRequest chunked_post_request
                                  direct_session
                                  (quiet 0 [ReadHead ok_response;
                                            ReadHead sized_response]))))
              = Ok (ok_response, false)) by reflexivity.
  split; [exact H |].
  rewrite (peekResponse_then_receiveResponse _ _ HTTPResponse.new ok_response
             false H).
  repeat split.
Defined.

(** The response says [Connection: close]: the next request closes the
    transport before it connects, although it is sent at once. *)
Lemma receiveResponse_decides_reuse_witness :
  result (receiveResponse HTTPResponse.new sent_keepalive_session
            (quiet 0 [ReadHead closing_response]))
    = Ok (closing_response, HTTPInputStream)
  /\ exists ok evs,
       trace (world (sendRequest get_request
                       (session (receiveResponse HTTPResponse.new
                                   sent_keepalive_session
                                   (quiet 0 [ReadHead closing_response])))
                       (quiet 0 [])))
       = (evs ++ [EvConnect example_com ok; EvClose])%list.
Proof.
  assert (H : result (receiveResponse HTTPResponse.new sent_keepalive_session
                        (quiet 0 [ReadHead closing_response]))
              = Ok (closing_response, HTTPInputStream)) by reflexivity.
  split; [exact H |].
  exact (proj2 (receiveResponse_decides_reuse sent_keepalive_session
                  (quiet 0 [ReadHead closing_response]) HTTPResponse.new
                  closing_response HTTPInputStream get_request (quiet 0 [])
                  H eq_refl eq_refl)).
Defined.

(** A response that allows keep-alive: the connection is not closed. *)
Example sendRequest_after_keep_alive_response :
  trace (world (sendRequest get_request
                  (session (receiveResponse HTTPResponse.new
                              sent_keepalive_session
                              (quiet 0 [ReadHead ok_response])))
                  (quiet 0 [])))
  = [EvConnect example_com true].
Proof. reflexivity. Qed.

(** A HEAD request, and a response that declares 500 bytes. *)
Lemma head_request_no_response_body_witness :
  result (sendRequest head_request direct_session (quiet 0 []))
    = Ok (head_request_sent, head_stream head_request_sent)
  /\ forall stream,
       result (receiveResponse HTTPResponse.new
                 (session (sendRequest head_request direct_session (quiet 0 [])))
                 (quiet 0 [ReadHead sized_response]))
       = Ok (sized_response, stream) ->
       stream = HTTPFixedLengthInputStream 0.
Proof.
  assert (H : result (sendRequest head_request direct_session (quiet 0 []))
              = Ok (head_request_sent, head_stream head_request_sent))
    by reflexivity.
  split; [exact H |].
  intros stream R.
  exact (proj2 (head_request_no_response_body head_request direct_session
                  (quiet 0 []) head_request_sent
                  (head_stream head_request_sent) H)
           eq_refl HTTPResponse.new (quiet 0 [ReadHead sized_response])
           sized_response stream R).
Defined.

(** A connected session is given another target. *)
Lemma reset_then_retarget_witness :
  result (setHost "other.example.com" connected_session (quiet 0 []))
    = Throw (IllegalState "Cannot set the host for an already connected session")
  /\ exists evs,
       trace (world (sendRequest get_request
                       (session ((reset ;; setHost "other.example.com" ;;
                                  setPort 8080) connected_session (quiet 0 [])))
                       (quiet 0 [])))
       = (evs ++ [])%list
       /\ Forall (eq (mkSocketAddress "other.example.com" 8080))
            (connections evs).
Proof.
  split; [reflexivity |].
  exact (proj2 (reset_then_retarget connected_session (quiet 0 [])
                  "other.example.com" 8080) eq_refl get_request (quiet 0 [])).
Defined.

Example sendRequest_to_new_target :
  trace (world (sendRequest get_request
                  (session ((reset ;; setHost "other.example.com" ;;
                             setPort 8080) connected_session (quiet 0 [])))
                  (quiet 0 [])))
  = [EvConnect (mkSocketAddress "other.example.com" 8080) true].
Proof. reflexivity. Qed.

Lemma sendRequest_target_form_and_route_witness :
  result (sendRequest get_request
            (proxied_session "public.example.com" "alice" "secret")
            (quiet 0 []))
    = Ok (get_request_authenticated, head_stream get_request_authenticated)
  /\ exists evs,
       trace (world (sendRequest get_request
                       (proxied_session "public.example.com" "alice" "secret")
                       (quiet 0 [])))
       = (evs ++ [])%list
       /\ Forall (eq (mkSocketAddress "P" 8080)) (connections evs)
       /\ HTTPRequest.uri get_request_authenticated
          = "http://public.example.com:80/path".
Proof.
  assert (H : result (sendRequest get_request
                        (proxied_session "public.example.com" "alice" "secret")
                        (quiet 0 []))
              = Ok (get_request_authenticated,
                    head_stream get_request_authenticated)) by reflexivity.
  split; [exact H |].
  exact (sendRequest_target_form_and_route get_request
           (proxied_session "public.example.com" "alice" "secret")
           (quiet 0 []) get_request_authenticated
           (head_stream get_request_authenticated) H).
Defined.

Lemma setProxyCredentials_then_sendRequest_witness :
  result (sendRequest get_request
            (session (setProxyCredentials "bob" "pw"
                        (proxied_session "public.example.com" "" "")
                        (quiet 0 [])))
            (quiet 0 []))
    = Ok (get_request_bob, head_stream get_request_bob)
  /\ HTTPRequest.get HTTPRequest.PROXY_AUTHORIZATION get_request_bob
     = Some "Basic bob:pw".
Proof.
  assert (H : result (sendRequest get_request
                        (session (setProxyCredentials "bob" "pw"
                                    (proxied_session "public.example.com" "" "")
                                    (quiet 0 [])))
                        (quiet 0 []))
              = Ok (get_request_bob, head_stream get_request_bob))
    by reflexivity.
  split; [exact H |].
  exact (setProxyCredentials_then_sendRequest
           (proxied_session "public.example.com" "" "") (quiet 0 [])
           "bob" "pw" get_request (quiet 0 []) get_request_bob
           (head_stream get_request_bob) H eq_refl eq_refl).
Defined.

(** A session that is first used 9 seconds after it was constructed. *)
Example new_session_late_first_request :
  trace (world (sendRequest get_request
                  (HTTPClientSession_of_host "example.com" 80 Statics_initial 0)
                  (quiet 9000000 [])))
  = [EvConnect example_com true; EvClose].
Proof. reflexivity. Qed.

(** The log line of a message: the time stamp that the pattern wrote gives
    way to the local time. *)
Example CustomPatternFormatter_format_example :
  CustomPatternFormatter_format
    "2024-05-01 10:00:00.000 [Debug] sendRequest Start! : /path"
    "2024-05-01 12:00:00.000" ""
  = Some "2024-05-01 12:00:00.000 [Debug] sendRequest Start! : /path"
  /\ CustomPatternFormatter_format "short" "2024-05-01 12:00:00.000" ""
     = Some "2024-05-01 12:00:00.000".
Proof. split; reflexivity. Qed.
